(** * convertjsonapi: the purchase-order field extractor and its helpers

    A shallow embedding of [main.py] and [advanced_converter.py].

    A Python [str] is modelled as [str], a sequence of code points, and
    a character as its code point, a number.  The character tables are
    those of CPython 3.11 (Unicode 14.0.0): the classes of [str.isspace],
    [str.isdecimal] and [str.isalnum], which are also the classes "\s",
    "\d" and "\w" of a [str] pattern, and the case tables of [re] and of
    [str.lower].  The [re] module is modelled by a backtracking matcher
    over a regular expression syntax tree, returning all matches in
    priority order ("list of successes"); the first element is the match
    Python takes. *)

From Stdlib Require Import NArith ZArith Lia Bool SpecFloat.
From Stdlib.Strings Require Import Byte.
From stdpp Require Import base list gmap.

(** ** Characters *)

Definition char := N.

Declare Scope chr_scope.
Delimit Scope chr_scope with chr.
Bind Scope chr_scope with char.

Definition char_eqb (a b : char) : bool := N.eqb a b.

Definition between (lo hi c : char) : bool := (lo <=? c)%N && (c <=? hi)%N.

(** Membership in a table of ranges sorted by code point. *)
Fixpoint in_ranges (rs : list (N * N)) (c : char) : bool :=
  match rs with
  | [] => false
  | (lo, hi) :: rs' =>
      if (c <? lo)%N then false
      else if (c <=? hi)%N then true
      else in_ranges rs' c
  end.

(** The entry of a code point in a table sorted by code point. *)
Fixpoint lookup_sorted {A} (tbl : list (N * A)) (c : char) : option A :=
  match tbl with
  | [] => None
  | (k, v) :: tbl' =>
      if (c <? k)%N then None
      else if (c =? k)%N then Some v
      else lookup_sorted tbl' c
  end.

(** The code points [lo], ..., [hi]. *)
Definition char_range (lo hi : char) : list char :=
  (fun n => (lo + N.of_nat n)%N) <$> seq 0 (N.to_nat (hi + 1 - lo)).

(** The code points on which [str.isspace] holds. *)
Definition space_ranges : list (N * N) :=
  [(9, 13); (28, 32); (133, 133); (160, 160); (5760, 5760); (8192, 8202); (8232, 8233);
   (8239, 8239); (8287, 8287); (12288, 12288)]%N.

(** The code points on which [str.isdecimal] holds: runs of the digits 0 to 9,
    each run starting with a zero. *)
Definition decimal_ranges : list (N * N) :=
  [(48, 57); (1632, 1641); (1776, 1785); (1984, 1993); (2406, 2415); (2534, 2543);
   (2662, 2671); (2790, 2799); (2918, 2927); (3046, 3055); (3174, 3183); (3302, 3311);
   (3430, 3439); (3558, 3567); (3664, 3673); (3792, 3801); (3872, 3881); (4160, 4169);
   (4240, 4249); (6112, 6121); (6160, 6169); (6470, 6479); (6608, 6617); (6784, 6793);
   (6800, 6809); (6992, 7001); (7088, 7097); (7232, 7241); (7248, 7257); (42528, 42537);
   (43216, 43225); (43264, 43273); (43472, 43481); (43504, 43513); (43600, 43609);
   (44016, 44025); (65296, 65305); (66720, 66729); (68912, 68921); (69734, 69743);
   (69872, 69881); (69942, 69951); (70096, 70105); (70384, 70393); (70736, 70745);
   (70864, 70873); (71248, 71257); (71360, 71369); (71472, 71481); (71904, 71913);
   (72016, 72025); (72784, 72793); (73040, 73049); (73120, 73129); (92768, 92777);
   (92864, 92873); (93008, 93017); (120782, 120831); (123200, 123209); (123632, 123641);
   (125264, 125273); (130032, 130041)]%N.

(** The code points on which [str.isalnum] holds. *)
Definition alnum_ranges : list (N * N) :=
  [(48, 57); (65, 90); (97, 122); (170, 170); (178, 179); (181, 181); (185, 186); (188, 190);
   (192, 214); (216, 246); (248, 705); (710, 721); (736, 740); (748, 748); (750, 750);
   (880, 884); (886, 887); (890, 893); (895, 895); (902, 902); (904, 906); (908, 908);
   (910, 929); (931, 1013); (1015, 1153); (1162, 1327); (1329, 1366); (1369, 1369);
   (1376, 1416); (1488, 1514); (1519, 1522); (1568, 1610); (1632, 1641); (1646, 1647);
   (1649, 1747); (1749, 1749); (1765, 1766); (1774, 1788); (1791, 1791); (1808, 1808);
   (1810, 1839); (1869, 1957); (1969, 1969); (1984, 2026); (2036, 2037); (2042, 2042);
   (2048, 2069); (2074, 2074); (2084, 2084); (2088, 2088); (2112, 2136); (2144, 2154);
   (2160, 2183); (2185, 2190); (2208, 2249); (2308, 2361); (2365, 2365); (2384, 2384);
   (2392, 2401); (2406, 2415); (2417, 2432); (2437, 2444); (2447, 2448); (2451, 2472);
   (2474, 2480); (2482, 2482); (2486, 2489); (2493, 2493); (2510, 2510); (2524, 2525);
   (2527, 2529); (2534, 2545); (2548, 2553); (2556, 2556); (2565, 2570); (2575, 2576);
   (2579, 2600); (2602, 2608); (2610, 2611); (2613, 2614); (2616, 2617); (2649, 2652);
   (2654, 2654); (2662, 2671); (2674, 2676); (2693, 2701); (2703, 2705); (2707, 2728);
   (2730, 2736); (2738, 2739); (2741, 2745); (2749, 2749); (2768, 2768); (2784, 2785);
   (2790, 2799); (2809, 2809); (2821, 2828); (2831, 2832); (2835, 2856); (2858, 2864);
   (2866, 2867); (2869, 2873); (2877, 2877); (2908, 2909); (2911, 2913); (2918, 2927);
   (2929, 2935); (2947, 2947); (2949, 2954); (2958, 2960); (2962, 2965); (2969, 2970);
   (2972, 2972); (2974, 2975); (2979, 2980); (2984, 2986); (2990, 3001); (3024, 3024);
   (3046, 3058); (3077, 3084); (3086, 3088); (3090, 3112); (3114, 3129); (3133, 3133);
   (3160, 3162); (3165, 3165); (3168, 3169); (3174, 3183); (3192, 3198); (3200, 3200);
   (3205, 3212); (3214, 3216); (3218, 3240); (3242, 3251); (3253, 3257); (3261, 3261);
   (3293, 3294); (3296, 3297); (3302, 3311); (3313, 3314); (3332, 3340); (3342, 3344);
   (3346, 3386); (3389, 3389); (3406, 3406); (3412, 3414); (3416, 3425); (3430, 3448);
   (3450, 3455); (3461, 3478); (3482, 3505); (3507, 3515); (3517, 3517); (3520, 3526);
   (3558, 3567); (3585, 3632); (3634, 3635); (3648, 3654); (3664, 3673); (3713, 3714);
   (3716, 3716); (3718, 3722); (3724, 3747); (3749, 3749); (3751, 3760); (3762, 3763);
   (3773, 3773); (3776, 3780); (3782, 3782); (3792, 3801); (3804, 3807); (3840, 3840);
   (3872, 3891); (3904, 3911); (3913, 3948); (3976, 3980); (4096, 4138); (4159, 4169);
   (4176, 4181); (4186, 4189); (4193, 4193); (4197, 4198); (4206, 4208); (4213, 4225);
   (4238, 4238); (4240, 4249); (4256, 4293); (4295, 4295); (4301, 4301); (4304, 4346);
   (4348, 4680); (4682, 4685); (4688, 4694); (4696, 4696); (4698, 4701); (4704, 4744);
   (4746, 4749); (4752, 4784); (4786, 4789); (4792, 4798); (4800, 4800); (4802, 4805);
   (4808, 4822); (4824, 4880); (4882, 4885); (4888, 4954); (4969, 4988); (4992, 5007);
   (5024, 5109); (5112, 5117); (5121, 5740); (5743, 5759); (5761, 5786); (5792, 5866);
   (5870, 5880); (5888, 5905); (5919, 5937); (5952, 5969); (5984, 5996); (5998, 6000);
   (6016, 6067); (6103, 6103); (6108, 6108); (6112, 6121); (6128, 6137); (6160, 6169);
   (6176, 6264); (6272, 6276); (6279, 6312); (6314, 6314); (6320, 6389); (6400, 6430);
   (6470, 6509); (6512, 6516); (6528, 6571); (6576, 6601); (6608, 6618); (6656, 6678);
   (6688, 6740); (6784, 6793); (6800, 6809); (6823, 6823); (6917, 6963); (6981, 6988);
   (6992, 7001); (7043, 7072); (7086, 7141); (7168, 7203); (7232, 7241); (7245, 7293);
   (7296, 7304); (7312, 7354); (7357, 7359); (7401, 7404); (7406, 7411); (7413, 7414);
   (7418, 7418); (7424, 7615); (7680, 7957); (7960, 7965); (7968, 8005); (8008, 8013);
   (8016, 8023); (8025, 8025); (8027, 8027); (8029, 8029); (8031, 8061); (8064, 8116);
   (8118, 8124); (8126, 8126); (8130, 8132); (8134, 8140); (8144, 8147); (8150, 8155);
   (8160, 8172); (8178, 8180); (8182, 8188); (8304, 8305); (8308, 8313); (8319, 8329);
   (8336, 8348); (8450, 8450); (8455, 8455); (8458, 8467); (8469, 8469); (8473, 8477);
   (8484, 8484); (8486, 8486); (8488, 8488); (8490, 8493); (8495, 8505); (8508, 8511);
   (8517, 8521); (8526, 8526); (8528, 8585); (9312, 9371); (9450, 9471); (10102, 10131);
   (11264, 11492); (11499, 11502); (11506, 11507); (11517, 11517); (11520, 11557);
   (11559, 11559); (11565, 11565); (11568, 11623); (11631, 11631); (11648, 11670);
   (11680, 11686); (11688, 11694); (11696, 11702); (11704, 11710); (11712, 11718);
   (11720, 11726); (11728, 11734); (11736, 11742); (11823, 11823); (12293, 12295);
   (12321, 12329); (12337, 12341); (12344, 12348); (12353, 12438); (12445, 12447);
   (12449, 12538); (12540, 12543); (12549, 12591); (12593, 12686); (12690, 12693);
   (12704, 12735); (12784, 12799); (12832, 12841); (12872, 12879); (12881, 12895);
   (12928, 12937); (12977, 12991); (13312, 19903); (19968, 42124); (42192, 42237);
   (42240, 42508); (42512, 42539); (42560, 42606); (42623, 42653); (42656, 42735);
   (42775, 42783); (42786, 42888); (42891, 42954); (42960, 42961); (42963, 42963);
   (42965, 42969); (42994, 43009); (43011, 43013); (43015, 43018); (43020, 43042);
   (43056, 43061); (43072, 43123); (43138, 43187); (43216, 43225); (43250, 43255);
   (43259, 43259); (43261, 43262); (43264, 43301); (43312, 43334); (43360, 43388);
   (43396, 43442); (43471, 43481); (43488, 43492); (43494, 43518); (43520, 43560);
   (43584, 43586); (43588, 43595); (43600, 43609); (43616, 43638); (43642, 43642);
   (43646, 43695); (43697, 43697); (43701, 43702); (43705, 43709); (43712, 43712);
   (43714, 43714); (43739, 43741); (43744, 43754); (43762, 43764); (43777, 43782);
   (43785, 43790); (43793, 43798); (43808, 43814); (43816, 43822); (43824, 43866);
   (43868, 43881); (43888, 44002); (44016, 44025); (44032, 55203); (55216, 55238);
   (55243, 55291); (63744, 64109); (64112, 64217); (64256, 64262); (64275, 64279);
   (64285, 64285); (64287, 64296); (64298, 64310); (64312, 64316); (64318, 64318);
   (64320, 64321); (64323, 64324); (64326, 64433); (64467, 64829); (64848, 64911);
   (64914, 64967); (65008, 65019); (65136, 65140); (65142, 65276); (65296, 65305);
   (65313, 65338); (65345, 65370); (65382, 65470); (65474, 65479); (65482, 65487);
   (65490, 65495); (65498, 65500); (65536, 65547); (65549, 65574); (65576, 65594);
   (65596, 65597); (65599, 65613); (65616, 65629); (65664, 65786); (65799, 65843);
   (65856, 65912); (65930, 65931); (66176, 66204); (66208, 66256); (66273, 66299);
   (66304, 66339); (66349, 66378); (66384, 66421); (66432, 66461); (66464, 66499);
   (66504, 66511); (66513, 66517); (66560, 66717); (66720, 66729); (66736, 66771);
   (66776, 66811); (66816, 66855); (66864, 66915); (66928, 66938); (66940, 66954);
   (66956, 66962); (66964, 66965); (66967, 66977); (66979, 66993); (66995, 67001);
   (67003, 67004); (67072, 67382); (67392, 67413); (67424, 67431); (67456, 67461);
   (67463, 67504); (67506, 67514); (67584, 67589); (67592, 67592); (67594, 67637);
   (67639, 67640); (67644, 67644); (67647, 67669); (67672, 67702); (67705, 67742);
   (67751, 67759); (67808, 67826); (67828, 67829); (67835, 67867); (67872, 67897);
   (67968, 68023); (68028, 68047); (68050, 68096); (68112, 68115); (68117, 68119);
   (68121, 68149); (68160, 68168); (68192, 68222); (68224, 68255); (68288, 68295);
   (68297, 68324); (68331, 68335); (68352, 68405); (68416, 68437); (68440, 68466);
   (68472, 68497); (68521, 68527); (68608, 68680); (68736, 68786); (68800, 68850);
   (68858, 68899); (68912, 68921); (69216, 69246); (69248, 69289); (69296, 69297);
   (69376, 69415); (69424, 69445); (69457, 69460); (69488, 69505); (69552, 69579);
   (69600, 69622); (69635, 69687); (69714, 69743); (69745, 69746); (69749, 69749);
   (69763, 69807); (69840, 69864); (69872, 69881); (69891, 69926); (69942, 69951);
   (69956, 69956); (69959, 69959); (69968, 70002); (70006, 70006); (70019, 70066);
   (70081, 70084); (70096, 70106); (70108, 70108); (70113, 70132); (70144, 70161);
   (70163, 70187); (70272, 70278); (70280, 70280); (70282, 70285); (70287, 70301);
   (70303, 70312); (70320, 70366); (70384, 70393); (70405, 70412); (70415, 70416);
   (70419, 70440); (70442, 70448); (70450, 70451); (70453, 70457); (70461, 70461);
   (70480, 70480); (70493, 70497); (70656, 70708); (70727, 70730); (70736, 70745);
   (70751, 70753); (70784, 70831); (70852, 70853); (70855, 70855); (70864, 70873);
   (71040, 71086); (71128, 71131); (71168, 71215); (71236, 71236); (71248, 71257);
   (71296, 71338); (71352, 71352); (71360, 71369); (71424, 71450); (71472, 71483);
   (71488, 71494); (71680, 71723); (71840, 71922); (71935, 71942); (71945, 71945);
   (71948, 71955); (71957, 71958); (71960, 71983); (71999, 71999); (72001, 72001);
   (72016, 72025); (72096, 72103); (72106, 72144); (72161, 72161); (72163, 72163);
   (72192, 72192); (72203, 72242); (72250, 72250); (72272, 72272); (72284, 72329);
   (72349, 72349); (72368, 72440); (72704, 72712); (72714, 72750); (72768, 72768);
   (72784, 72812); (72818, 72847); (72960, 72966); (72968, 72969); (72971, 73008);
   (73030, 73030); (73040, 73049); (73056, 73061); (73063, 73064); (73066, 73097);
   (73112, 73112); (73120, 73129); (73440, 73458); (73648, 73648); (73664, 73684);
   (73728, 74649); (74752, 74862); (74880, 75075); (77712, 77808); (77824, 78894);
   (82944, 83526); (92160, 92728); (92736, 92766); (92768, 92777); (92784, 92862);
   (92864, 92873); (92880, 92909); (92928, 92975); (92992, 92995); (93008, 93017);
   (93019, 93025); (93027, 93047); (93053, 93071); (93760, 93846); (93952, 94026);
   (94032, 94032); (94099, 94111); (94176, 94177); (94179, 94179); (94208, 100343);
   (100352, 101589); (101632, 101640); (110576, 110579); (110581, 110587); (110589, 110590);
   (110592, 110882); (110928, 110930); (110948, 110951); (110960, 111355); (113664, 113770);
   (113776, 113788); (113792, 113800); (113808, 113817); (119520, 119539); (119648, 119672);
   (119808, 119892); (119894, 119964); (119966, 119967); (119970, 119970); (119973, 119974);
   (119977, 119980); (119982, 119993); (119995, 119995); (119997, 120003); (120005, 120069);
   (120071, 120074); (120077, 120084); (120086, 120092); (120094, 120121); (120123, 120126);
   (120128, 120132); (120134, 120134); (120138, 120144); (120146, 120485); (120488, 120512);
   (120514, 120538); (120540, 120570); (120572, 120596); (120598, 120628); (120630, 120654);
   (120656, 120686); (120688, 120712); (120714, 120744); (120746, 120770); (120772, 120779);
   (120782, 120831); (122624, 122654); (123136, 123180); (123191, 123197); (123200, 123209);
   (123214, 123214); (123536, 123565); (123584, 123627); (123632, 123641); (124896, 124902);
   (124904, 124907); (124909, 124910); (124912, 124926); (124928, 125124); (125127, 125135);
   (125184, 125251); (125259, 125259); (125264, 125273); (126065, 126123); (126125, 126127);
   (126129, 126132); (126209, 126253); (126255, 126269); (126464, 126467); (126469, 126495);
   (126497, 126498); (126500, 126500); (126503, 126503); (126505, 126514); (126516, 126519);
   (126521, 126521); (126523, 126523); (126530, 126530); (126535, 126535); (126537, 126537);
   (126539, 126539); (126541, 126543); (126545, 126546); (126548, 126548); (126551, 126551);
   (126553, 126553); (126555, 126555); (126557, 126557); (126559, 126559); (126561, 126562);
   (126564, 126564); (126567, 126570); (126572, 126578); (126580, 126583); (126585, 126588);
   (126590, 126590); (126592, 126601); (126603, 126619); (126625, 126627); (126629, 126633);
   (126635, 126651); (127232, 127244); (130032, 130041); (131072, 173791); (173824, 177976);
   (177984, 178205); (178208, 183969); (183984, 191456); (194560, 195101); (196608, 201546)]%N.

(** The code points that differ from their simple lower-case or upper-case
    form ([_sre.unicode_iscased]). *)
Definition cased_ranges : list (N * N) :=
  [(65, 90); (97, 122); (181, 181); (192, 214); (216, 246); (248, 311); (313, 396); (398, 410);
   (412, 425); (428, 441); (444, 445); (447, 447); (452, 544); (546, 563); (570, 596);
   (598, 599); (601, 601); (603, 604); (608, 609); (611, 611); (613, 614); (616, 620);
   (623, 623); (625, 626); (629, 629); (637, 637); (640, 640); (642, 643); (647, 652);
   (658, 658); (669, 670); (837, 837); (880, 883); (886, 887); (891, 893); (895, 895);
   (902, 902); (904, 906); (908, 908); (910, 929); (931, 977); (981, 1013); (1015, 1019);
   (1021, 1153); (1162, 1327); (1329, 1366); (1377, 1415); (4256, 4293); (4295, 4295);
   (4301, 4301); (4304, 4346); (4349, 4351); (5024, 5109); (5112, 5117); (7296, 7304);
   (7312, 7354); (7357, 7359); (7545, 7545); (7549, 7549); (7566, 7566); (7680, 7835);
   (7838, 7838); (7840, 7957); (7960, 7965); (7968, 8005); (8008, 8013); (8016, 8023);
   (8025, 8025); (8027, 8027); (8029, 8029); (8031, 8061); (8064, 8116); (8118, 8124);
   (8126, 8126); (8130, 8132); (8134, 8140); (8144, 8147); (8150, 8155); (8160, 8172);
   (8178, 8180); (8182, 8188); (8486, 8486); (8490, 8491); (8498, 8498); (8526, 8526);
   (8544, 8575); (8579, 8580); (9398, 9449); (11264, 11376); (11378, 11379); (11381, 11382);
   (11390, 11491); (11499, 11502); (11506, 11507); (11520, 11557); (11559, 11559);
   (11565, 11565); (42560, 42605); (42624, 42651); (42786, 42799); (42802, 42863);
   (42873, 42887); (42891, 42893); (42896, 42900); (42902, 42926); (42928, 42954);
   (42960, 42961); (42966, 42969); (42997, 42998); (43859, 43859); (43888, 43967);
   (64256, 64262); (64275, 64279); (65313, 65338); (65345, 65370); (66560, 66639);
   (66736, 66771); (66776, 66811); (66928, 66938); (66940, 66954); (66956, 66962);
   (66964, 66965); (66967, 66977); (66979, 66993); (66995, 67001); (67003, 67004);
   (68736, 68786); (68800, 68850); (71840, 71903); (93760, 93823); (125184, 125251)]%N.

(** The simple lower-case mapping ([_sre.unicode_tolower]), where it is not
    the identity. *)
Definition lower_pairs : list (N * N) :=
  [(65, 97); (66, 98); (67, 99); (68, 100); (69, 101); (70, 102); (71, 103); (72, 104);
   (73, 105); (74, 106); (75, 107); (76, 108); (77, 109); (78, 110); (79, 111); (80, 112);
   (81, 113); (82, 114); (83, 115); (84, 116); (85, 117); (86, 118); (87, 119); (88, 120);
   (89, 121); (90, 122); (192, 224); (193, 225); (194, 226); (195, 227); (196, 228);
   (197, 229); (198, 230); (199, 231); (200, 232); (201, 233); (202, 234); (203, 235);
   (204, 236); (205, 237); (206, 238); (207, 239); (208, 240); (209, 241); (210, 242);
   (211, 243); (212, 244); (213, 245); (214, 246); (216, 248); (217, 249); (218, 250);
   (219, 251); (220, 252); (221, 253); (222, 254); (256, 257); (258, 259); (260, 261);
   (262, 263); (264, 265); (266, 267); (268, 269); (270, 271); (272, 273); (274, 275);
   (276, 277); (278, 279); (280, 281); (282, 283); (284, 285); (286, 287); (288, 289);
   (290, 291); (292, 293); (294, 295); (296, 297); (298, 299); (300, 301); (302, 303);
   (304, 105); (306, 307); (308, 309); (310, 311); (313, 314); (315, 316); (317, 318);
   (319, 320); (321, 322); (323, 324); (325, 326); (327, 328); (330, 331); (332, 333);
   (334, 335); (336, 337); (338, 339); (340, 341); (342, 343); (344, 345); (346, 347);
   (348, 349); (350, 351); (352, 353); (354, 355); (356, 357); (358, 359); (360, 361);
   (362, 363); (364, 365); (366, 367); (368, 369); (370, 371); (372, 373); (374, 375);
   (376, 255); (377, 378); (379, 380); (381, 382); (385, 595); (386, 387); (388, 389);
   (390, 596); (391, 392); (393, 598); (394, 599); (395, 396); (398, 477); (399, 601);
   (400, 603); (401, 402); (403, 608); (404, 611); (406, 617); (407, 616); (408, 409);
   (412, 623); (413, 626); (415, 629); (416, 417); (418, 419); (420, 421); (422, 640);
   (423, 424); (425, 643); (428, 429); (430, 648); (431, 432); (433, 650); (434, 651);
   (435, 436); (437, 438); (439, 658); (440, 441); (444, 445); (452, 454); (453, 454);
   (455, 457); (456, 457); (458, 460); (459, 460); (461, 462); (463, 464); (465, 466);
   (467, 468); (469, 470); (471, 472); (473, 474); (475, 476); (478, 479); (480, 481);
   (482, 483); (484, 485); (486, 487); (488, 489); (490, 491); (492, 493); (494, 495);
   (497, 499); (498, 499); (500, 501); (502, 405); (503, 447); (504, 505); (506, 507);
   (508, 509); (510, 511); (512, 513); (514, 515); (516, 517); (518, 519); (520, 521);
   (522, 523); (524, 525); (526, 527); (528, 529); (530, 531); (532, 533); (534, 535);
   (536, 537); (538, 539); (540, 541); (542, 543); (544, 414); (546, 547); (548, 549);
   (550, 551); (552, 553); (554, 555); (556, 557); (558, 559); (560, 561); (562, 563);
   (570, 11365); (571, 572); (573, 410); (574, 11366); (577, 578); (579, 384); (580, 649);
   (581, 652); (582, 583); (584, 585); (586, 587); (588, 589); (590, 591); (880, 881);
   (882, 883); (886, 887); (895, 1011); (902, 940); (904, 941); (905, 942); (906, 943);
   (908, 972); (910, 973); (911, 974); (913, 945); (914, 946); (915, 947); (916, 948);
   (917, 949); (918, 950); (919, 951); (920, 952); (921, 953); (922, 954); (923, 955);
   (924, 956); (925, 957); (926, 958); (927, 959); (928, 960); (929, 961); (931, 963);
   (932, 964); (933, 965); (934, 966); (935, 967); (936, 968); (937, 969); (938, 970);
   (939, 971); (975, 983); (984, 985); (986, 987); (988, 989); (990, 991); (992, 993);
   (994, 995); (996, 997); (998, 999); (1000, 1001); (1002, 1003); (1004, 1005); (1006, 1007);
   (1012, 952); (1015, 1016); (1017, 1010); (1018, 1019); (1021, 891); (1022, 892);
   (1023, 893); (1024, 1104); (1025, 1105); (1026, 1106); (1027, 1107); (1028, 1108);
   (1029, 1109); (1030, 1110); (1031, 1111); (1032, 1112); (1033, 1113); (1034, 1114);
   (1035, 1115); (1036, 1116); (1037, 1117); (1038, 1118); (1039, 1119); (1040, 1072);
   (1041, 1073); (1042, 1074); (1043, 1075); (1044, 1076); (1045, 1077); (1046, 1078);
   (1047, 1079); (1048, 1080); (1049, 1081); (1050, 1082); (1051, 1083); (1052, 1084);
   (1053, 1085); (1054, 1086); (1055, 1087); (1056, 1088); (1057, 1089); (1058, 1090);
   (1059, 1091); (1060, 1092); (1061, 1093); (1062, 1094); (1063, 1095); (1064, 1096);
   (1065, 1097); (1066, 1098); (1067, 1099); (1068, 1100); (1069, 1101); (1070, 1102);
   (1071, 1103); (1120, 1121); (1122, 1123); (1124, 1125); (1126, 1127); (1128, 1129);
   (1130, 1131); (1132, 1133); (1134, 1135); (1136, 1137); (1138, 1139); (1140, 1141);
   (1142, 1143); (1144, 1145); (1146, 1147); (1148, 1149); (1150, 1151); (1152, 1153);
   (1162, 1163); (1164, 1165); (1166, 1167); (1168, 1169); (1170, 1171); (1172, 1173);
   (1174, 1175); (1176, 1177); (1178, 1179); (1180, 1181); (1182, 1183); (1184, 1185);
   (1186, 1187); (1188, 1189); (1190, 1191); (1192, 1193); (1194, 1195); (1196, 1197);
   (1198, 1199); (1200, 1201); (1202, 1203); (1204, 1205); (1206, 1207); (1208, 1209);
   (1210, 1211); (1212, 1213); (1214, 1215); (1216, 1231); (1217, 1218); (1219, 1220);
   (1221, 1222); (1223, 1224); (1225, 1226); (1227, 1228); (1229, 1230); (1232, 1233);
   (1234, 1235); (1236, 1237); (1238, 1239); (1240, 1241); (1242, 1243); (1244, 1245);
   (1246, 1247); (1248, 1249); (1250, 1251); (1252, 1253); (1254, 1255); (1256, 1257);
   (1258, 1259); (1260, 1261); (1262, 1263); (1264, 1265); (1266, 1267); (1268, 1269);
   (1270, 1271); (1272, 1273); (1274, 1275); (1276, 1277); (1278, 1279); (1280, 1281);
   (1282, 1283); (1284, 1285); (1286, 1287); (1288, 1289); (1290, 1291); (1292, 1293);
   (1294, 1295); (1296, 1297); (1298, 1299); (1300, 1301); (1302, 1303); (1304, 1305);
   (1306, 1307); (1308, 1309); (1310, 1311); (1312, 1313); (1314, 1315); (1316, 1317);
   (1318, 1319); (1320, 1321); (1322, 1323); (1324, 1325); (1326, 1327); (1329, 1377);
   (1330, 1378); (1331, 1379); (1332, 1380); (1333, 1381); (1334, 1382); (1335, 1383);
   (1336, 1384); (1337, 1385); (1338, 1386); (1339, 1387); (1340, 1388); (1341, 1389);
   (1342, 1390); (1343, 1391); (1344, 1392); (1345, 1393); (1346, 1394); (1347, 1395);
   (1348, 1396); (1349, 1397); (1350, 1398); (1351, 1399); (1352, 1400); (1353, 1401);
   (1354, 1402); (1355, 1403); (1356, 1404); (1357, 1405); (1358, 1406); (1359, 1407);
   (1360, 1408); (1361, 1409); (1362, 1410); (1363, 1411); (1364, 1412); (1365, 1413);
   (1366, 1414); (4256, 11520); (4257, 11521); (4258, 11522); (4259, 11523); (4260, 11524);
   (4261, 11525); (4262, 11526); (4263, 11527); (4264, 11528); (4265, 11529); (4266, 11530);
   (4267, 11531); (4268, 11532); (4269, 11533); (4270, 11534); (4271, 11535); (4272, 11536);
   (4273, 11537); (4274, 11538); (4275, 11539); (4276, 11540); (4277, 11541); (4278, 11542);
   (4279, 11543); (4280, 11544); (4281, 11545); (4282, 11546); (4283, 11547); (4284, 11548);
   (4285, 11549); (4286, 11550); (4287, 11551); (4288, 11552); (4289, 11553); (4290, 11554);
   (4291, 11555); (4292, 11556); (4293, 11557); (4295, 11559); (4301, 11565); (5024, 43888);
   (5025, 43889); (5026, 43890); (5027, 43891); (5028, 43892); (5029, 43893); (5030, 43894);
   (5031, 43895); (5032, 43896); (5033, 43897); (5034, 43898); (5035, 43899); (5036, 43900);
   (5037, 43901); (5038, 43902); (5039, 43903); (5040, 43904); (5041, 43905); (5042, 43906);
   (5043, 43907); (5044, 43908); (5045, 43909); (5046, 43910); (5047, 43911); (5048, 43912);
   (5049, 43913); (5050, 43914); (5051, 43915); (5052, 43916); (5053, 43917); (5054, 43918);
   (5055, 43919); (5056, 43920); (5057, 43921); (5058, 43922); (5059, 43923); (5060, 43924);
   (5061, 43925); (5062, 43926); (5063, 43927); (5064, 43928); (5065, 43929); (5066, 43930);
   (5067, 43931); (5068, 43932); (5069, 43933); (5070, 43934); (5071, 43935); (5072, 43936);
   (5073, 43937); (5074, 43938); (5075, 43939); (5076, 43940); (5077, 43941); (5078, 43942);
   (5079, 43943); (5080, 43944); (5081, 43945); (5082, 43946); (5083, 43947); (5084, 43948);
   (5085, 43949); (5086, 43950); (5087, 43951); (5088, 43952); (5089, 43953); (5090, 43954);
   (5091, 43955); (5092, 43956); (5093, 43957); (5094, 43958); (5095, 43959); (5096, 43960);
   (5097, 43961); (5098, 43962); (5099, 43963); (5100, 43964); (5101, 43965); (5102, 43966);
   (5103, 43967); (5104, 5112); (5105, 5113); (5106, 5114); (5107, 5115); (5108, 5116);
   (5109, 5117); (7312, 4304); (7313, 4305); (7314, 4306); (7315, 4307); (7316, 4308);
   (7317, 4309); (7318, 4310); (7319, 4311); (7320, 4312); (7321, 4313); (7322, 4314);
   (7323, 4315); (7324, 4316); (7325, 4317); (7326, 4318); (7327, 4319); (7328, 4320);
   (7329, 4321); (7330, 4322); (7331, 4323); (7332, 4324); (7333, 4325); (7334, 4326);
   (7335, 4327); (7336, 4328); (7337, 4329); (7338, 4330); (7339, 4331); (7340, 4332);
   (7341, 4333); (7342, 4334); (7343, 4335); (7344, 4336); (7345, 4337); (7346, 4338);
   (7347, 4339); (7348, 4340); (7349, 4341); (7350, 4342); (7351, 4343); (7352, 4344);
   (7353, 4345); (7354, 4346); (7357, 4349); (7358, 4350); (7359, 4351); (7680, 7681);
   (7682, 7683); (7684, 7685); (7686, 7687); (7688, 7689); (7690, 7691); (7692, 7693);
   (7694, 7695); (7696, 7697); (7698, 7699); (7700, 7701); (7702, 7703); (7704, 7705);
   (7706, 7707); (7708, 7709); (7710, 7711); (7712, 7713); (7714, 7715); (7716, 7717);
   (7718, 7719); (7720, 7721); (7722, 7723); (7724, 7725); (7726, 7727); (7728, 7729);
   (7730, 7731); (7732, 7733); (7734, 7735); (7736, 7737); (7738, 7739); (7740, 7741);
   (7742, 7743); (7744, 7745); (7746, 7747); (7748, 7749); (7750, 7751); (7752, 7753);
   (7754, 7755); (7756, 7757); (7758, 7759); (7760, 7761); (7762, 7763); (7764, 7765);
   (7766, 7767); (7768, 7769); (7770, 7771); (7772, 7773); (7774, 7775); (7776, 7777);
   (7778, 7779); (7780, 7781); (7782, 7783); (7784, 7785); (7786, 7787); (7788, 7789);
   (7790, 7791); (7792, 7793); (7794, 7795); (7796, 7797); (7798, 7799); (7800, 7801);
   (7802, 7803); (7804, 7805); (7806, 7807); (7808, 7809); (7810, 7811); (7812, 7813);
   (7814, 7815); (7816, 7817); (7818, 7819); (7820, 7821); (7822, 7823); (7824, 7825);
   (7826, 7827); (7828, 7829); (7838, 223); (7840, 7841); (7842, 7843); (7844, 7845);
   (7846, 7847); (7848, 7849); (7850, 7851); (7852, 7853); (7854, 7855); (7856, 7857);
   (7858, 7859); (7860, 7861); (7862, 7863); (7864, 7865); (7866, 7867); (7868, 7869);
   (7870, 7871); (7872, 7873); (7874, 7875); (7876, 7877); (7878, 7879); (7880, 7881);
   (7882, 7883); (7884, 7885); (7886, 7887); (7888, 7889); (7890, 7891); (7892, 7893);
   (7894, 7895); (7896, 7897); (7898, 7899); (7900, 7901); (7902, 7903); (7904, 7905);
   (7906, 7907); (7908, 7909); (7910, 7911); (7912, 7913); (7914, 7915); (7916, 7917);
   (7918, 7919); (7920, 7921); (7922, 7923); (7924, 7925); (7926, 7927); (7928, 7929);
   (7930, 7931); (7932, 7933); (7934, 7935); (7944, 7936); (7945, 7937); (7946, 7938);
   (7947, 7939); (7948, 7940); (7949, 7941); (7950, 7942); (7951, 7943); (7960, 7952);
   (7961, 7953); (7962, 7954); (7963, 7955); (7964, 7956); (7965, 7957); (7976, 7968);
   (7977, 7969); (7978, 7970); (7979, 7971); (7980, 7972); (7981, 7973); (7982, 7974);
   (7983, 7975); (7992, 7984); (7993, 7985); (7994, 7986); (7995, 7987); (7996, 7988);
   (7997, 7989); (7998, 7990); (7999, 7991); (8008, 8000); (8009, 8001); (8010, 8002);
   (8011, 8003); (8012, 8004); (8013, 8005); (8025, 8017); (8027, 8019); (8029, 8021);
   (8031, 8023); (8040, 8032); (8041, 8033); (8042, 8034); (8043, 8035); (8044, 8036);
   (8045, 8037); (8046, 8038); (8047, 8039); (8072, 8064); (8073, 8065); (8074, 8066);
   (8075, 8067); (8076, 8068); (8077, 8069); (8078, 8070); (8079, 8071); (8088, 8080);
   (8089, 8081); (8090, 8082); (8091, 8083); (8092, 8084); (8093, 8085); (8094, 8086);
   (8095, 8087); (8104, 8096); (8105, 8097); (8106, 8098); (8107, 8099); (8108, 8100);
   (8109, 8101); (8110, 8102); (8111, 8103); (8120, 8112); (8121, 8113); (8122, 8048);
   (8123, 8049); (8124, 8115); (8136, 8050); (8137, 8051); (8138, 8052); (8139, 8053);
   (8140, 8131); (8152, 8144); (8153, 8145); (8154, 8054); (8155, 8055); (8168, 8160);
   (8169, 8161); (8170, 8058); (8171, 8059); (8172, 8165); (8184, 8056); (8185, 8057);
   (8186, 8060); (8187, 8061); (8188, 8179); (8486, 969); (8490, 107); (8491, 229);
   (8498, 8526); (8544, 8560); (8545, 8561); (8546, 8562); (8547, 8563); (8548, 8564);
   (8549, 8565); (8550, 8566); (8551, 8567); (8552, 8568); (8553, 8569); (8554, 8570);
   (8555, 8571); (8556, 8572); (8557, 8573); (8558, 8574); (8559, 8575); (8579, 8580);
   (9398, 9424); (9399, 9425); (9400, 9426); (9401, 9427); (9402, 9428); (9403, 9429);
   (9404, 9430); (9405, 9431); (9406, 9432); (9407, 9433); (9408, 9434); (9409, 9435);
   (9410, 9436); (9411, 9437); (9412, 9438); (9413, 9439); (9414, 9440); (9415, 9441);
   (9416, 9442); (9417, 9443); (9418, 9444); (9419, 9445); (9420, 9446); (9421, 9447);
   (9422, 9448); (9423, 9449); (11264, 11312); (11265, 11313); (11266, 11314); (11267, 11315);
   (11268, 11316); (11269, 11317); (11270, 11318); (11271, 11319); (11272, 11320);
   (11273, 11321); (11274, 11322); (11275, 11323); (11276, 11324); (11277, 11325);
   (11278, 11326); (11279, 11327); (11280, 11328); (11281, 11329); (11282, 11330);
   (11283, 11331); (11284, 11332); (11285, 11333); (11286, 11334); (11287, 11335);
   (11288, 11336); (11289, 11337); (11290, 11338); (11291, 11339); (11292, 11340);
   (11293, 11341); (11294, 11342); (11295, 11343); (11296, 11344); (11297, 11345);
   (11298, 11346); (11299, 11347); (11300, 11348); (11301, 11349); (11302, 11350);
   (11303, 11351); (11304, 11352); (11305, 11353); (11306, 11354); (11307, 11355);
   (11308, 11356); (11309, 11357); (11310, 11358); (11311, 11359); (11360, 11361);
   (11362, 619); (11363, 7549); (11364, 637); (11367, 11368); (11369, 11370); (11371, 11372);
   (11373, 593); (11374, 625); (11375, 592); (11376, 594); (11378, 11379); (11381, 11382);
   (11390, 575); (11391, 576); (11392, 11393); (11394, 11395); (11396, 11397); (11398, 11399);
   (11400, 11401); (11402, 11403); (11404, 11405); (11406, 11407); (11408, 11409);
   (11410, 11411); (11412, 11413); (11414, 11415); (11416, 11417); (11418, 11419);
   (11420, 11421); (11422, 11423); (11424, 11425); (11426, 11427); (11428, 11429);
   (11430, 11431); (11432, 11433); (11434, 11435); (11436, 11437); (11438, 11439);
   (11440, 11441); (11442, 11443); (11444, 11445); (11446, 11447); (11448, 11449);
   (11450, 11451); (11452, 11453); (11454, 11455); (11456, 11457); (11458, 11459);
   (11460, 11461); (11462, 11463); (11464, 11465); (11466, 11467); (11468, 11469);
   (11470, 11471); (11472, 11473); (11474, 11475); (11476, 11477); (11478, 11479);
   (11480, 11481); (11482, 11483); (11484, 11485); (11486, 11487); (11488, 11489);
   (11490, 11491); (11499, 11500); (11501, 11502); (11506, 11507); (42560, 42561);
   (42562, 42563); (42564, 42565); (42566, 42567); (42568, 42569); (42570, 42571);
   (42572, 42573); (42574, 42575); (42576, 42577); (42578, 42579); (42580, 42581);
   (42582, 42583); (42584, 42585); (42586, 42587); (42588, 42589); (42590, 42591);
   (42592, 42593); (42594, 42595); (42596, 42597); (42598, 42599); (42600, 42601);
   (42602, 42603); (42604, 42605); (42624, 42625); (42626, 42627); (42628, 42629);
   (42630, 42631); (42632, 42633); (42634, 42635); (42636, 42637); (42638, 42639);
   (42640, 42641); (42642, 42643); (42644, 42645); (42646, 42647); (42648, 42649);
   (42650, 42651); (42786, 42787); (42788, 42789); (42790, 42791); (42792, 42793);
   (42794, 42795); (42796, 42797); (42798, 42799); (42802, 42803); (42804, 42805);
   (42806, 42807); (42808, 42809); (42810, 42811); (42812, 42813); (42814, 42815);
   (42816, 42817); (42818, 42819); (42820, 42821); (42822, 42823); (42824, 42825);
   (42826, 42827); (42828, 42829); (42830, 42831); (42832, 42833); (42834, 42835);
   (42836, 42837); (42838, 42839); (42840, 42841); (42842, 42843); (42844, 42845);
   (42846, 42847); (42848, 42849); (42850, 42851); (42852, 42853); (42854, 42855);
   (42856, 42857); (42858, 42859); (42860, 42861); (42862, 42863); (42873, 42874);
   (42875, 42876); (42877, 7545); (42878, 42879); (42880, 42881); (42882, 42883);
   (42884, 42885); (42886, 42887); (42891, 42892); (42893, 613); (42896, 42897);
   (42898, 42899); (42902, 42903); (42904, 42905); (42906, 42907); (42908, 42909);
   (42910, 42911); (42912, 42913); (42914, 42915); (42916, 42917); (42918, 42919);
   (42920, 42921); (42922, 614); (42923, 604); (42924, 609); (42925, 620); (42926, 618);
   (42928, 670); (42929, 647); (42930, 669); (42931, 43859); (42932, 42933); (42934, 42935);
   (42936, 42937); (42938, 42939); (42940, 42941); (42942, 42943); (42944, 42945);
   (42946, 42947); (42948, 42900); (42949, 642); (42950, 7566); (42951, 42952); (42953, 42954);
   (42960, 42961); (42966, 42967); (42968, 42969); (42997, 42998); (65313, 65345);
   (65314, 65346); (65315, 65347); (65316, 65348); (65317, 65349); (65318, 65350);
   (65319, 65351); (65320, 65352); (65321, 65353); (65322, 65354); (65323, 65355);
   (65324, 65356); (65325, 65357); (65326, 65358); (65327, 65359); (65328, 65360);
   (65329, 65361); (65330, 65362); (65331, 65363); (65332, 65364); (65333, 65365);
   (65334, 65366); (65335, 65367); (65336, 65368); (65337, 65369); (65338, 65370);
   (66560, 66600); (66561, 66601); (66562, 66602); (66563, 66603); (66564, 66604);
   (66565, 66605); (66566, 66606); (66567, 66607); (66568, 66608); (66569, 66609);
   (66570, 66610); (66571, 66611); (66572, 66612); (66573, 66613); (66574, 66614);
   (66575, 66615); (66576, 66616); (66577, 66617); (66578, 66618); (66579, 66619);
   (66580, 66620); (66581, 66621); (66582, 66622); (66583, 66623); (66584, 66624);
   (66585, 66625); (66586, 66626); (66587, 66627); (66588, 66628); (66589, 66629);
   (66590, 66630); (66591, 66631); (66592, 66632); (66593, 66633); (66594, 66634);
   (66595, 66635); (66596, 66636); (66597, 66637); (66598, 66638); (66599, 66639);
   (66736, 66776); (66737, 66777); (66738, 66778); (66739, 66779); (66740, 66780);
   (66741, 66781); (66742, 66782); (66743, 66783); (66744, 66784); (66745, 66785);
   (66746, 66786); (66747, 66787); (66748, 66788); (66749, 66789); (66750, 66790);
   (66751, 66791); (66752, 66792); (66753, 66793); (66754, 66794); (66755, 66795);
   (66756, 66796); (66757, 66797); (66758, 66798); (66759, 66799); (66760, 66800);
   (66761, 66801); (66762, 66802); (66763, 66803); (66764, 66804); (66765, 66805);
   (66766, 66806); (66767, 66807); (66768, 66808); (66769, 66809); (66770, 66810);
   (66771, 66811); (66928, 66967); (66929, 66968); (66930, 66969); (66931, 66970);
   (66932, 66971); (66933, 66972); (66934, 66973); (66935, 66974); (66936, 66975);
   (66937, 66976); (66938, 66977); (66940, 66979); (66941, 66980); (66942, 66981);
   (66943, 66982); (66944, 66983); (66945, 66984); (66946, 66985); (66947, 66986);
   (66948, 66987); (66949, 66988); (66950, 66989); (66951, 66990); (66952, 66991);
   (66953, 66992); (66954, 66993); (66956, 66995); (66957, 66996); (66958, 66997);
   (66959, 66998); (66960, 66999); (66961, 67000); (66962, 67001); (66964, 67003);
   (66965, 67004); (68736, 68800); (68737, 68801); (68738, 68802); (68739, 68803);
   (68740, 68804); (68741, 68805); (68742, 68806); (68743, 68807); (68744, 68808);
   (68745, 68809); (68746, 68810); (68747, 68811); (68748, 68812); (68749, 68813);
   (68750, 68814); (68751, 68815); (68752, 68816); (68753, 68817); (68754, 68818);
   (68755, 68819); (68756, 68820); (68757, 68821); (68758, 68822); (68759, 68823);
   (68760, 68824); (68761, 68825); (68762, 68826); (68763, 68827); (68764, 68828);
   (68765, 68829); (68766, 68830); (68767, 68831); (68768, 68832); (68769, 68833);
   (68770, 68834); (68771, 68835); (68772, 68836); (68773, 68837); (68774, 68838);
   (68775, 68839); (68776, 68840); (68777, 68841); (68778, 68842); (68779, 68843);
   (68780, 68844); (68781, 68845); (68782, 68846); (68783, 68847); (68784, 68848);
   (68785, 68849); (68786, 68850); (71840, 71872); (71841, 71873); (71842, 71874);
   (71843, 71875); (71844, 71876); (71845, 71877); (71846, 71878); (71847, 71879);
   (71848, 71880); (71849, 71881); (71850, 71882); (71851, 71883); (71852, 71884);
   (71853, 71885); (71854, 71886); (71855, 71887); (71856, 71888); (71857, 71889);
   (71858, 71890); (71859, 71891); (71860, 71892); (71861, 71893); (71862, 71894);
   (71863, 71895); (71864, 71896); (71865, 71897); (71866, 71898); (71867, 71899);
   (71868, 71900); (71869, 71901); (71870, 71902); (71871, 71903); (93760, 93792);
   (93761, 93793); (93762, 93794); (93763, 93795); (93764, 93796); (93765, 93797);
   (93766, 93798); (93767, 93799); (93768, 93800); (93769, 93801); (93770, 93802);
   (93771, 93803); (93772, 93804); (93773, 93805); (93774, 93806); (93775, 93807);
   (93776, 93808); (93777, 93809); (93778, 93810); (93779, 93811); (93780, 93812);
   (93781, 93813); (93782, 93814); (93783, 93815); (93784, 93816); (93785, 93817);
   (93786, 93818); (93787, 93819); (93788, 93820); (93789, 93821); (93790, 93822);
   (93791, 93823); (125184, 125218); (125185, 125219); (125186, 125220); (125187, 125221);
   (125188, 125222); (125189, 125223); (125190, 125224); (125191, 125225); (125192, 125226);
   (125193, 125227); (125194, 125228); (125195, 125229); (125196, 125230); (125197, 125231);
   (125198, 125232); (125199, 125233); (125200, 125234); (125201, 125235); (125202, 125236);
   (125203, 125237); (125204, 125238); (125205, 125239); (125206, 125240); (125207, 125241);
   (125208, 125242); (125209, 125243); (125210, 125244); (125211, 125245); (125212, 125246);
   (125213, 125247); (125214, 125248); (125215, 125249); (125216, 125250); (125217, 125251)]%N.

(** The lower-case characters that have other lower-case equivalents, with
    these ([re._casefix._EXTRA_CASES]). *)
Definition extra_cases : list (N * list N) :=
  [(105, [305]); (115, [383]); (181, [956]); (305, [105]); (383, [115]); (837, [953; 8126]);
   (912, [8147]); (944, [8163]); (946, [976]); (949, [1013]); (952, [977]); (953, [837; 8126]);
   (954, [1008]); (956, [181]); (960, [982]); (961, [1009]); (962, [963]); (963, [962]);
   (966, [981]); (976, [946]); (977, [952]); (981, [966]); (982, [960]); (1008, [954]);
   (1009, [961]); (1013, [949]); (1074, [7296]); (1076, [7297]); (1086, [7298]);
   (1089, [7299]); (1090, [7300; 7301]); (1098, [7302]); (1123, [7303]); (7296, [1074]);
   (7297, [1076]); (7298, [1086]); (7299, [1089]); (7300, [1090; 7301]); (7301, [1090; 7300]);
   (7302, [1098]); (7303, [1123]); (7304, [42571]); (7777, [7835]); (7835, [7777]);
   (8126, [837; 953]); (8147, [912]); (8163, [944]); (42571, [7304]); (64261, [64262]);
   (64262, [64261])]%N.

(** The code points [str.lower] skips when it looks for the letters around a
    capital sigma. *)
Definition case_ignorable_ranges : list (N * N) :=
  [(39, 39); (46, 46); (58, 58); (94, 94); (96, 96); (168, 168); (173, 173); (175, 175);
   (180, 180); (183, 184); (688, 879); (884, 885); (890, 890); (900, 901); (903, 903);
   (1155, 1161); (1369, 1369); (1375, 1375); (1425, 1469); (1471, 1471); (1473, 1474);
   (1476, 1477); (1479, 1479); (1524, 1524); (1536, 1541); (1552, 1562); (1564, 1564);
   (1600, 1600); (1611, 1631); (1648, 1648); (1750, 1757); (1759, 1768); (1770, 1773);
   (1807, 1807); (1809, 1809); (1840, 1866); (1958, 1968); (2027, 2037); (2042, 2042);
   (2045, 2045); (2070, 2093); (2137, 2139); (2184, 2184); (2192, 2193); (2200, 2207);
   (2249, 2306); (2362, 2362); (2364, 2364); (2369, 2376); (2381, 2381); (2385, 2391);
   (2402, 2403); (2417, 2417); (2433, 2433); (2492, 2492); (2497, 2500); (2509, 2509);
   (2530, 2531); (2558, 2558); (2561, 2562); (2620, 2620); (2625, 2626); (2631, 2632);
   (2635, 2637); (2641, 2641); (2672, 2673); (2677, 2677); (2689, 2690); (2748, 2748);
   (2753, 2757); (2759, 2760); (2765, 2765); (2786, 2787); (2810, 2815); (2817, 2817);
   (2876, 2876); (2879, 2879); (2881, 2884); (2893, 2893); (2901, 2902); (2914, 2915);
   (2946, 2946); (3008, 3008); (3021, 3021); (3072, 3072); (3076, 3076); (3132, 3132);
   (3134, 3136); (3142, 3144); (3146, 3149); (3157, 3158); (3170, 3171); (3201, 3201);
   (3260, 3260); (3263, 3263); (3270, 3270); (3276, 3277); (3298, 3299); (3328, 3329);
   (3387, 3388); (3393, 3396); (3405, 3405); (3426, 3427); (3457, 3457); (3530, 3530);
   (3538, 3540); (3542, 3542); (3633, 3633); (3636, 3642); (3654, 3662); (3761, 3761);
   (3764, 3772); (3782, 3782); (3784, 3789); (3864, 3865); (3893, 3893); (3895, 3895);
   (3897, 3897); (3953, 3966); (3968, 3972); (3974, 3975); (3981, 3991); (3993, 4028);
   (4038, 4038); (4141, 4144); (4146, 4151); (4153, 4154); (4157, 4158); (4184, 4185);
   (4190, 4192); (4209, 4212); (4226, 4226); (4229, 4230); (4237, 4237); (4253, 4253);
   (4348, 4348); (4957, 4959); (5906, 5908); (5938, 5939); (5970, 5971); (6002, 6003);
   (6068, 6069); (6071, 6077); (6086, 6086); (6089, 6099); (6103, 6103); (6109, 6109);
   (6155, 6159); (6211, 6211); (6277, 6278); (6313, 6313); (6432, 6434); (6439, 6440);
   (6450, 6450); (6457, 6459); (6679, 6680); (6683, 6683); (6742, 6742); (6744, 6750);
   (6752, 6752); (6754, 6754); (6757, 6764); (6771, 6780); (6783, 6783); (6823, 6823);
   (6832, 6862); (6912, 6915); (6964, 6964); (6966, 6970); (6972, 6972); (6978, 6978);
   (7019, 7027); (7040, 7041); (7074, 7077); (7080, 7081); (7083, 7085); (7142, 7142);
   (7144, 7145); (7149, 7149); (7151, 7153); (7212, 7219); (7222, 7223); (7288, 7293);
   (7376, 7378); (7380, 7392); (7394, 7400); (7405, 7405); (7412, 7412); (7416, 7417);
   (7468, 7530); (7544, 7544); (7579, 7679); (8125, 8125); (8127, 8129); (8141, 8143);
   (8157, 8159); (8173, 8175); (8189, 8190); (8203, 8207); (8216, 8217); (8228, 8228);
   (8231, 8231); (8234, 8238); (8288, 8292); (8294, 8303); (8305, 8305); (8319, 8319);
   (8336, 8348); (8400, 8432); (11388, 11389); (11503, 11505); (11631, 11631); (11647, 11647);
   (11744, 11775); (11823, 11823); (12293, 12293); (12330, 12333); (12337, 12341);
   (12347, 12347); (12441, 12446); (12540, 12542); (40981, 40981); (42232, 42237);
   (42508, 42508); (42607, 42610); (42612, 42621); (42623, 42623); (42652, 42655);
   (42736, 42737); (42752, 42785); (42864, 42864); (42888, 42890); (42994, 42996);
   (43000, 43001); (43010, 43010); (43014, 43014); (43019, 43019); (43045, 43046);
   (43052, 43052); (43204, 43205); (43232, 43249); (43263, 43263); (43302, 43309);
   (43335, 43345); (43392, 43394); (43443, 43443); (43446, 43449); (43452, 43453);
   (43471, 43471); (43493, 43494); (43561, 43566); (43569, 43570); (43573, 43574);
   (43587, 43587); (43596, 43596); (43632, 43632); (43644, 43644); (43696, 43696);
   (43698, 43700); (43703, 43704); (43710, 43711); (43713, 43713); (43741, 43741);
   (43756, 43757); (43763, 43764); (43766, 43766); (43867, 43871); (43881, 43883);
   (44005, 44005); (44008, 44008); (44013, 44013); (64286, 64286); (64434, 64450);
   (65024, 65039); (65043, 65043); (65056, 65071); (65106, 65106); (65109, 65109);
   (65279, 65279); (65287, 65287); (65294, 65294); (65306, 65306); (65342, 65342);
   (65344, 65344); (65392, 65392); (65438, 65439); (65507, 65507); (65529, 65531);
   (66045, 66045); (66272, 66272); (66422, 66426); (67456, 67461); (67463, 67504);
   (67506, 67514); (68097, 68099); (68101, 68102); (68108, 68111); (68152, 68154);
   (68159, 68159); (68325, 68326); (68900, 68903); (69291, 69292); (69446, 69456);
   (69506, 69509); (69633, 69633); (69688, 69702); (69744, 69744); (69747, 69748);
   (69759, 69761); (69811, 69814); (69817, 69818); (69821, 69821); (69826, 69826);
   (69837, 69837); (69888, 69890); (69927, 69931); (69933, 69940); (70003, 70003);
   (70016, 70017); (70070, 70078); (70089, 70092); (70095, 70095); (70191, 70193);
   (70196, 70196); (70198, 70199); (70206, 70206); (70367, 70367); (70371, 70378);
   (70400, 70401); (70459, 70460); (70464, 70464); (70502, 70508); (70512, 70516);
   (70712, 70719); (70722, 70724); (70726, 70726); (70750, 70750); (70835, 70840);
   (70842, 70842); (70847, 70848); (70850, 70851); (71090, 71093); (71100, 71101);
   (71103, 71104); (71132, 71133); (71219, 71226); (71229, 71229); (71231, 71232);
   (71339, 71339); (71341, 71341); (71344, 71349); (71351, 71351); (71453, 71455);
   (71458, 71461); (71463, 71467); (71727, 71735); (71737, 71738); (71995, 71996);
   (71998, 71998); (72003, 72003); (72148, 72151); (72154, 72155); (72160, 72160);
   (72193, 72202); (72243, 72248); (72251, 72254); (72263, 72263); (72273, 72278);
   (72281, 72283); (72330, 72342); (72344, 72345); (72752, 72758); (72760, 72765);
   (72767, 72767); (72850, 72871); (72874, 72880); (72882, 72883); (72885, 72886);
   (73009, 73014); (73018, 73018); (73020, 73021); (73023, 73029); (73031, 73031);
   (73104, 73105); (73109, 73109); (73111, 73111); (73459, 73460); (78896, 78904);
   (92912, 92916); (92976, 92982); (92992, 92995); (94031, 94031); (94095, 94111);
   (94176, 94177); (94179, 94180); (110576, 110579); (110581, 110587); (110589, 110590);
   (113821, 113822); (113824, 113827); (118528, 118573); (118576, 118598); (119143, 119145);
   (119155, 119170); (119173, 119179); (119210, 119213); (119362, 119364); (121344, 121398);
   (121403, 121452); (121461, 121461); (121476, 121476); (121499, 121503); (121505, 121519);
   (122880, 122886); (122888, 122904); (122907, 122913); (122915, 122916); (122918, 122922);
   (123184, 123197); (123566, 123566); (123628, 123631); (125136, 125142); (125252, 125259);
   (127995, 127999); (917505, 917505); (917536, 917631); (917760, 917999)]%N.

(** The code points, among those not skipped, that count as letters with a
    case there. *)
Definition cased_letter_ranges : list (N * N) :=
  [(65, 90); (97, 122); (170, 170); (181, 181); (186, 186); (192, 214); (216, 246); (248, 442);
   (444, 447); (452, 659); (661, 687); (880, 883); (886, 887); (891, 893); (895, 895);
   (902, 902); (904, 906); (908, 908); (910, 929); (931, 1013); (1015, 1153); (1162, 1327);
   (1329, 1366); (1376, 1416); (4256, 4293); (4295, 4295); (4301, 4301); (4304, 4346);
   (4349, 4351); (5024, 5109); (5112, 5117); (7296, 7304); (7312, 7354); (7357, 7359);
   (7424, 7467); (7531, 7543); (7545, 7578); (7680, 7957); (7960, 7965); (7968, 8005);
   (8008, 8013); (8016, 8023); (8025, 8025); (8027, 8027); (8029, 8029); (8031, 8061);
   (8064, 8116); (8118, 8124); (8126, 8126); (8130, 8132); (8134, 8140); (8144, 8147);
   (8150, 8155); (8160, 8172); (8178, 8180); (8182, 8188); (8450, 8450); (8455, 8455);
   (8458, 8467); (8469, 8469); (8473, 8477); (8484, 8484); (8486, 8486); (8488, 8488);
   (8490, 8493); (8495, 8500); (8505, 8505); (8508, 8511); (8517, 8521); (8526, 8526);
   (8544, 8575); (8579, 8580); (9398, 9449); (11264, 11387); (11390, 11492); (11499, 11502);
   (11506, 11507); (11520, 11557); (11559, 11559); (11565, 11565); (42560, 42605);
   (42624, 42651); (42786, 42863); (42865, 42887); (42891, 42894); (42896, 42954);
   (42960, 42961); (42963, 42963); (42965, 42969); (42997, 42998); (43002, 43002);
   (43824, 43866); (43872, 43880); (43888, 43967); (64256, 64262); (64275, 64279);
   (65313, 65338); (65345, 65370); (66560, 66639); (66736, 66771); (66776, 66811);
   (66928, 66938); (66940, 66954); (66956, 66962); (66964, 66965); (66967, 66977);
   (66979, 66993); (66995, 67001); (67003, 67004); (68736, 68786); (68800, 68850);
   (71840, 71903); (93760, 93823); (119808, 119892); (119894, 119964); (119966, 119967);
   (119970, 119970); (119973, 119974); (119977, 119980); (119982, 119993); (119995, 119995);
   (119997, 120003); (120005, 120069); (120071, 120074); (120077, 120084); (120086, 120092);
   (120094, 120121); (120123, 120126); (120128, 120132); (120134, 120134); (120138, 120144);
   (120146, 120485); (120488, 120512); (120514, 120538); (120540, 120570); (120572, 120596);
   (120598, 120628); (120630, 120654); (120656, 120686); (120688, 120712); (120714, 120744);
   (120746, 120770); (120772, 120779); (122624, 122633); (122635, 122654); (125184, 125251);
   (127280, 127305); (127312, 127337); (127344, 127369)]%N.

(** [str.isspace] on one character, the class "\s". *)
Definition isspace (c : char) : bool := in_ranges space_ranges c.

(** [str.isdecimal] on one character, the class "\d". *)
Definition isdecimal (c : char) : bool := in_ranges decimal_ranges c.

(** The value of a decimal digit: its offset in its run of ten. *)
Fixpoint digit_in (rs : list (N * N)) (c : char) : option N :=
  match rs with
  | [] => None
  | (lo, hi) :: rs' =>
      if (c <? lo)%N then None
      else if (c <=? hi)%N then Some ((c - lo) mod 10)%N
      else digit_in rs' c
  end.

Definition decimal_value (c : char) : option N := digit_in decimal_ranges c.

Definition isalnum (c : char) : bool := in_ranges alnum_ranges c.

(** The class "\w". *)
Definition isword (c : char) : bool := isalnum c || char_eqb c 95%N.

(** Simple lower-case mapping, as used by [re.IGNORECASE]. *)
Definition tolower (c : char) : char := default c (lookup_sorted lower_pairs c).

Definition iscased (c : char) : bool := in_ranges cased_ranges c.

(** The other lower-case equivalents of a lower-case character. *)
Definition fixes (lo : char) : list char := default [] (lookup_sorted extra_cases lo).

Global Arguments isspace : simpl never.
Global Arguments isdecimal : simpl never.
Global Arguments decimal_value : simpl never.
Global Arguments isalnum : simpl never.
Global Arguments tolower : simpl never.
Global Arguments iscased : simpl never.
Global Arguments fixes : simpl never.

(** ** Strings *)

Inductive str : Set :=
| EmptyStr
| Str (c : char) (s : str).

Declare Scope str_scope.
Delimit Scope str_scope with str.
Bind Scope str_scope with str.

(** String and character literals are read as UTF-8. *)
Fixpoint utf8_decode (fuel : nat) (bs : list Byte.byte) : option (list char) :=
  match fuel, bs with
  | _, [] => Some []
  | O, _ :: _ => None
  | S k, b0 :: bs1 =>
      let n0 := Byte.to_N b0 in
      let cont b := (Byte.to_N b - 128)%N in
      if (n0 <? 128)%N then cons n0 <$> utf8_decode k bs1
      else if (n0 <? 192)%N then None
      else if (n0 <? 224)%N then
        match bs1 with
        | b1 :: bs2 => cons ((n0 - 192) * 64 + cont b1)%N <$> utf8_decode k bs2
        | _ => None
        end
      else if (n0 <? 240)%N then
        match bs1 with
        | b1 :: b2 :: bs3 =>
            cons ((n0 - 224) * 4096 + cont b1 * 64 + cont b2)%N <$> utf8_decode k bs3
        | _ => None
        end
      else
        match bs1 with
        | b1 :: b2 :: b3 :: bs4 =>
            cons ((n0 - 240) * 262144 + cont b1 * 4096 + cont b2 * 64 + cont b3)%N
              <$> utf8_decode k bs4
        | _ => None
        end
  end.

Definition utf8_encode (c : char) : list Byte.byte :=
  let b n := default Byte.x00 (Byte.of_N n) in
  if (c <? 128)%N then [b c]
  else if (c <? 2048)%N then [b (192 + c / 64)%N; b (128 + c mod 64)%N]
  else if (c <? 65536)%N then
    [b (224 + c / 4096)%N; b (128 + (c / 64) mod 64)%N; b (128 + c mod 64)%N]
  else [b (240 + c / 262144)%N; b (128 + (c / 4096) mod 64)%N;
        b (128 + (c / 64) mod 64)%N; b (128 + c mod 64)%N].

Fixpoint str_of_list (l : list char) : str :=
  match l with
  | [] => EmptyStr
  | c :: l' => Str c (str_of_list l')
  end.

Fixpoint list_of_str (s : str) : list char :=
  match s with
  | EmptyStr => []
  | Str c s' => c :: list_of_str s'
  end.

Definition str_of_bytes (bs : list Byte.byte) : option str :=
  str_of_list <$> utf8_decode (length bs) bs.

Definition bytes_of_str (s : str) : option (list Byte.byte) :=
  Some (list_of_str s ≫= utf8_encode).

Definition char_of_bytes (bs : list Byte.byte) : option N :=
  match utf8_decode (length bs) bs with
  | Some [c] => Some c
  | _ => None
  end.

Definition bytes_of_char (c : N) : option (list Byte.byte) := None.

String Notation str str_of_bytes bytes_of_str : str_scope.
String Notation N char_of_bytes bytes_of_char : chr_scope.
Open Scope str_scope.

Global Instance str_eq_dec : EqDecision str.
Proof. solve_decision. Defined.

Global Instance str_countable : Countable str.
Proof.
  refine (inj_countable' list_of_str str_of_list _).
  intros s. induction s as [|c s IH]; simpl; [done | by rewrite IH].
Defined.

(** [len(s)] *)
Fixpoint len (s : str) : nat :=
  match s with
  | "" => 0
  | Str _ s' => S (len s')
  end.

(** [a + b] *)
Fixpoint str_app (a b : str) : str :=
  match a with
  | "" => b
  | Str c a' => Str c (str_app a' b)
  end.

Infix "+:+" := str_app (at level 60, right associativity) : str_scope.

Local Arguments str_app !_ _ / : simpl nomatch.

(** [a == b] *)
Fixpoint str_eqb (a b : str) : bool :=
  match a, b with
  | "", "" => true
  | Str x a', Str y b' => char_eqb x y && str_eqb a' b'
  | _, _ => false
  end.

(** [sep.join(parts)] *)
Fixpoint str_join (sep : str) (parts : list str) : str :=
  match parts with
  | [] => ""
  | [x] => x
  | x :: parts' => x +:+ sep +:+ str_join sep parts'
  end.

Definition LF_char : char := 10%N.
Definition FF_char : char := 12%N.
Definition LF : str := Str LF_char "".
Definition FF : str := Str FF_char "".
Definition DQUOTE : str := Str 34%N "".
Definition EN_DASH : str := "–".

Fixpoint str_take (n : nat) (s : str) : str :=
  match n, s with
  | S k, Str c s' => Str c (str_take k s')
  | _, _ => ""
  end.

Fixpoint str_drop (n : nat) (s : str) : str :=
  match n, s with
  | S k, Str c s' => str_drop k s'
  | _, _ => s
  end.

Fixpoint str_all (p : char -> bool) (s : str) : bool :=
  match s with
  | "" => true
  | Str c s' => p c && str_all p s'
  end.

(** The first character of [s] satisfies [p]. *)
Definition starts_with (p : char -> bool) (s : str) : bool :=
  match s with
  | Str c _ => p c
  | "" => false
  end.

Fixpoint lstrip (s : str) : str :=
  match s with
  | Str c s' => if isspace c then lstrip s' else s
  | "" => ""
  end.

Fixpoint rstrip (s : str) : str :=
  match s with
  | Str c s' =>
      match rstrip s' with
      | "" => if isspace c then "" else Str c ""
      | t => Str c t
      end
  | "" => ""
  end.

(** [str.strip()] with no argument. *)
Definition strip (s : str) : str := rstrip (lstrip s).

(** [str.replace(old, "")] for a one-character [old]. *)
Fixpoint remove_char (old : char) (s : str) : str :=
  match s with
  | Str c s' =>
      if char_eqb c old then remove_char old s' else Str c (remove_char old s')
  | "" => ""
  end.

(** [old in s] for a one-character [old]. *)
Fixpoint contains_char (old : char) (s : str) : bool :=
  match s with
  | Str c s' => char_eqb c old || contains_char old s'
  | "" => false
  end.

(** [s.split(sep)] for a one-character [sep]. *)
Fixpoint split_char (sep : char) (s : str) : list str :=
  match s with
  | "" => [""]
  | Str c s' =>
      if char_eqb c sep then "" :: split_char sep s'
      else match split_char sep s' with
           | w :: ws => Str c w :: ws
           | [] => [Str c ""]
           end
  end.

(** ** Regular expressions *)

Inductive category := Digit | Space | Word.

Inductive item :=
| ILit (c : char)
| IRange (lo hi : char)
| ICat (k : category).

Inductive regex :=
| Empty
| Lit (c : char)
| In (negate : bool) (items : list item)
| Seq (r1 r2 : regex)
| Alt (r1 r2 : regex)
| Repeat (lo : nat) (hi : option nat) (r : regex)
| Group (n : nat) (r : regex)
| Lookahead (r : regex)
| AtEnd
| AtBoundary.

(** A run of literal characters. *)
Fixpoint lits (s : str) : regex :=
  match s with
  | "" => Empty
  | Str c s' => Seq (Lit c) (lits s')
  end.

Definition Star := Repeat 0 None.
Definition Plus := Repeat 1 None.
Definition Opt := Repeat 0 (Some 1).
Definition Exactly (n : nat) := Repeat n (Some n).

Fixpoint ngroups (r : regex) : nat :=
  match r with
  | Seq r1 r2 | Alt r1 r2 => ngroups r1 `max` ngroups r2
  | Repeat _ _ r | Lookahead r => ngroups r
  | Group n r => n `max` ngroups r
  | _ => 0
  end.

Definition in_category (k : category) (c : char) : bool :=
  match k with
  | Digit => isdecimal c
  | Space => isspace c
  | Word => isword c
  end.

(** The lower-case characters a literal of the pattern stands for under
    IGNORECASE: its lower-case form and the equivalents of that. *)
Definition folded (p : char) : list char := tolower p :: fixes (tolower p).

(** A literal of the pattern against a character of the text: under
    IGNORECASE a literal that has a case is compared through the
    lower-case form of the character. *)
Definition lit_eq (ic : bool) (p c : char) : bool :=
  if ic && iscased p
  then existsb (char_eqb (tolower c)) (folded p)
  else char_eqb c p.

(** Under IGNORECASE a range holds the lower-case forms of its members
    and their equivalents. *)
Definition range_has (ic : bool) (lo hi x : char) : bool :=
  if ic
  then existsb (fun p => existsb (char_eqb x) (folded p)) (char_range lo hi)
  else between lo hi x.

Definition item_has (ic : bool) (i : item) (x : char) : bool :=
  match i with
  | ILit p => if ic then existsb (char_eqb x) (folded p) else char_eqb x p
  | IRange lo hi => range_has ic lo hi x
  | ICat k => in_category k x
  end.

(** A set has a case when one of its literals or range members has. *)
Definition item_cased (i : item) : bool :=
  match i with
  | ILit p => iscased p
  | IRange lo hi => existsb iscased (char_range lo hi)
  | ICat _ => false
  end.

Definition hascased (items : list item) : bool := existsb item_cased items.

(** A set against a character of the text: under IGNORECASE, when the
    set has a case, its members are compared with the lower-case form
    of the character. *)
Definition in_set (ic : bool) (negate : bool) (items : list item) (c : char) : bool :=
  let x := if ic && hascased items then tolower c else c in
  xorb negate (existsb (fun i => item_has ic i x) items).

(** ** The matcher *)

Record cursor := Cursor { prev : option char; rest : str }.

(** Captured groups, the most recently closed first. *)
Definition groups := list (nat * str).

Definition mstate : Type := cursor * groups.

Definition step (ok : char -> bool) (st : mstate) : list mstate :=
  match rest st.1 with
  | Str c s => if ok c then [(Cursor (Some c) s, st.2)] else []
  | "" => []
  end.

Fixpoint times (f : mstate -> list mstate) (n : nat) (st : mstate) : list mstate :=
  match n with
  | O => [st]
  | S k => f st ≫= times f k
  end.

(** Greedy: one more repetition is tried before stopping. *)
Fixpoint upto (f : mstate -> list mstate) (n : nat) (st : mstate) : list mstate :=
  match n with
  | O => [st]
  | S k => (f st ≫= upto f k) ++ [st]
  end.

(** An unbounded greedy repetition; a repetition that consumed nothing
    is not repeated.  [fuel] bounds the number of repetitions. *)
Fixpoint star (f : mstate -> list mstate) (fuel : nat) (st : mstate) : list mstate :=
  match fuel with
  | O => [st]
  | S k =>
      (f st ≫= fun st' =>
         if len (rest st'.1) <? len (rest st.1)
         then star f k st' else [])
      ++ [st]
  end.

Definition at_end (s : str) : bool :=
  match s with
  | "" => true
  | Str c "" => char_eqb c LF_char
  | _ => false
  end.

Definition word_before (cur : cursor) : bool :=
  match prev cur with Some c => isword c | None => false end.

Definition word_after (cur : cursor) : bool := starts_with isword (rest cur).

Definition consumed (from to : str) : str :=
  str_take (len from - len to) from.

Fixpoint m (ic : bool) (r : regex) (st : mstate) {struct r} : list mstate :=
  match r with
  | Empty => [st]
  | Lit p => step (lit_eq ic p) st
  | In negate items => step (in_set ic negate items) st
  | Seq r1 r2 => m ic r1 st ≫= m ic r2
  | Alt r1 r2 => m ic r1 st ++ m ic r2 st
  | Repeat lo hi r =>
      times (m ic r) lo st ≫= fun st1 =>
        match hi with
        | Some h => upto (m ic r) (h - lo) st1
        | None => star (m ic r) (len (rest st1.1)) st1
        end
  | Group n r =>
      (fun st' => (st'.1, (n, consumed (rest st.1) (rest st'.1)) :: st'.2))
        <$> m ic r st
  | Lookahead r =>
      match m ic r st with
      | st' :: _ => [(st.1, st'.2)]
      | [] => []
      end
  | AtEnd => if at_end (rest st.1) then [st] else []
  | AtBoundary =>
      if xorb (word_before st.1) (word_after st.1) then [st] else []
  end.

(** ** Match objects, [re.search] and [re.findall] *)

Record Match := {
  m_pattern : regex;
  m_whole : str;     (* group 0 *)
  m_groups : groups;
  m_after : cursor      (* the position after the match *)
}.

Definition match_at (ic : bool) (r : regex) (cur : cursor) : option Match :=
  match m ic r (cur, []) with
  | st' :: _ =>
      Some {| m_pattern := r;
              m_whole := consumed (rest cur) (rest st'.1);
              m_groups := st'.2;
              m_after := st'.1 |}
  | [] => None
  end.

(** The leftmost position at which the pattern matches. *)
Fixpoint search_from (ic : bool) (r : regex) (p : option char) (s : str)
  : option Match :=
  match match_at ic r (Cursor p s) with
  | Some mt => Some mt
  | None =>
      match s with
      | Str c s' => search_from ic r (Some c) s'
      | "" => None
      end
  end.

Definition re_search (r : regex) (text : str) (ignorecase : bool) : option Match :=
  search_from ignorecase r None text.

(** [re.findall] for a pattern without capturing groups: the whole
    matches, left to right, each search resuming where the previous
    match ended (one character later after an empty match). *)
Fixpoint findall_from (ic : bool) (r : regex) (fuel : nat) (p : option char)
  (s : str) : list str :=
  match fuel with
  | O => []
  | S k =>
      match search_from ic r p s with
      | None => []
      | Some mt =>
          m_whole mt ::
            match m_whole mt with
            | "" =>
                match rest (m_after mt) with
                | Str c s' => findall_from ic r k (Some c) s'
                | "" => []
                end
            | _ => findall_from ic r k (prev (m_after mt)) (rest (m_after mt))
            end
      end
  end.

Definition re_findall (r : regex) (text : str) (ignorecase : bool) : list str :=
  findall_from ignorecase r (S (len text)) None text.

(** ** Python values, exceptions and outcomes *)

#[local] Set Warnings "-register-all".

Inductive value :=
| VNone
| VStr (s : str)
| VInt (n : Z)
| VFloat (f : spec_float)
| VList (vs : list value)
| VDict (kvs : list (str * value)).

(** The part of the built-in exception hierarchy the program names, and
    classes derived from it. *)
Inductive exc_class :=
| BaseException
| SystemExit
| KeyboardInterrupt
| GeneratorExit
| Exception
| AttributeError
| LookupError
| IndexError
| ValueError
| TypeError
| Subclass (name : str) (base : exc_class).

Global Instance exc_class_eq_dec : EqDecision exc_class.
Proof. solve_decision. Defined.

(** The class and its ancestors. *)
Fixpoint mro (c : exc_class) : list exc_class :=
  match c with
  | BaseException => [BaseException]
  | SystemExit => [SystemExit; BaseException]
  | KeyboardInterrupt => [KeyboardInterrupt; BaseException]
  | GeneratorExit => [GeneratorExit; BaseException]
  | Exception => [Exception; BaseException]
  | AttributeError => [AttributeError; Exception; BaseException]
  | LookupError => [LookupError; Exception; BaseException]
  | IndexError => [IndexError; LookupError; Exception; BaseException]
  | ValueError => [ValueError; Exception; BaseException]
  | TypeError => [TypeError; Exception; BaseException]
  | Subclass name base => Subclass name base :: mro base
  end.

Definition issubclass (c target : exc_class) : bool := bool_decide (target ∈ mro c).

Record exc := { exc_cls : exc_class; exc_msg : str }.

Inductive outcome (A : Type) :=
| Return (a : A)
| Raise (e : exc).
Arguments Return {A} a.
Arguments Raise {A} e.

Global Instance outcome_ret : MRet outcome := fun A a => Return a.
Global Instance outcome_bind : MBind outcome := fun A B f o =>
  match o with
  | Return a => f a
  | Raise e => Raise e
  end.

(** [try: body except classes: handler] *)
Definition try_except {A} (body : outcome A) (classes : list exc_class)
  (handler : exc -> outcome A) : outcome A :=
  match body with
  | Return a => Return a
  | Raise e =>
      if existsb (issubclass (exc_cls e)) classes then handler e else Raise e
  end.

Definition is_not_none (v : value) : bool :=
  match v with VNone => false | _ => true end.

(** [v != s] for a string [s]. *)
Definition ne_str (v : value) (s : str) : bool :=
  match v with
  | VStr t => negb (str_eqb t s)
  | _ => true
  end.

(** ** The safe-extraction wrapper *)

Definition safe_extract (extract_func : str -> outcome value) (text : str)
  (default_value : value) : outcome value :=
  try_except
    (result ← extract_func text;
     mret (if is_not_none result && ne_str result "" then result else default_value))
    [AttributeError; IndexError; ValueError; TypeError; Exception]
    (fun _ => mret default_value).

(** ** Methods of match objects *)

Fixpoint lookup_group (n : nat) (gs : groups) : option str :=
  match gs with
  | (k, s) :: gs' => if k =? n then Some s else lookup_group n gs'
  | [] => None
  end.

(** [match.group(n)]: the text of group [n], [None] when the group took
    no part in the match, IndexError when the pattern has no such group. *)
Definition group (mt : Match) (n : nat) : outcome value :=
  match n with
  | O => mret (VStr (m_whole mt))
  | _ =>
      if n <=? ngroups (m_pattern mt)
      then mret (match lookup_group n (m_groups mt) with
                 | Some s => VStr s
                 | None => VNone
                 end)
      else Raise {| exc_cls := IndexError; exc_msg := "no such group" |}
  end.

(** [match.lastindex] *)
Definition lastindex (mt : Match) : option nat :=
  match m_groups mt with
  | (n, _) :: _ => Some n
  | [] => None
  end.

(** [v.strip()] *)
Definition value_strip (v : value) : outcome value :=
  match v with
  | VStr s => mret (VStr (strip s))
  | _ => Raise {| exc_cls := AttributeError;
                  exc_msg := "object has no attribute 'strip'" |}
  end.

(** [v.replace(old, "")] for a one-character [old] *)
Definition value_remove_char (v : value) (old : char) : outcome str :=
  match v with
  | VStr s => mret (remove_char old s)
  | _ => Raise {| exc_cls := AttributeError;
                  exc_msg := "object has no attribute 'replace'" |}
  end.

(** ** Floating-point numbers *)

Definition binary64_div : spec_float -> spec_float -> spec_float := SFdiv 53 1024.

(** The binary64 number nearest to [n / 10^k]. *)
Definition decimal_to_float (n : Z) (k : nat) : spec_float :=
  match n with
  | Zpos p =>
      binary64_div (S754_finite false p 0)
        (S754_finite false (Z.to_pos (10 ^ Z.of_nat k)) 0)
  | Z0 => S754_zero false
  | Zneg p =>
      binary64_div (S754_finite true p 0)
        (S754_finite false (Z.to_pos (10 ^ Z.of_nat k)) 0)
  end.

Fixpoint digits_to_Z (acc : Z) (s : str) : option Z :=
  match s with
  | "" => Some acc
  | Str c s' =>
      match decimal_value c with
      | Some d => digits_to_Z (10 * acc + Z.of_N d) s'
      | None => None
      end
  end.

(** The text before the first point, and the text after it if there is one. *)
Fixpoint split_point (s : str) : str * option str :=
  match s with
  | "" => ("", None)
  | Str c s' =>
      if char_eqb c "."
      then ("", Some s')
      else let '(a, b) := split_point s' in (Str c a, b)
  end.

(** [float(s)] on the strings the program passes to it: decimal digits
    with at most one point.  A string without a digit, or with anything
    else in it, raises ValueError (signs, exponents, infinities and
    padding cannot occur in the captured token, see [amount_token_chars]). *)
Definition float_of_str (s : str) : outcome spec_float :=
  let '(a, b) := split_point s in
  let frac := default "" b in
  match a +:+ frac, digits_to_Z 0 (a +:+ frac) with
  | Str _ _, Some n => mret (decimal_to_float n (len frac))
  | _, _ => Raise {| exc_cls := ValueError;
                     exc_msg := "could not convert string to float" |}
  end.

(** ** The patterns of [main.py] *)

Declare Scope regex_scope.
Delimit Scope regex_scope with re.
Bind Scope regex_scope with regex.
Notation "r1 ;; r2" := (Seq r1 r2) (at level 100, r2 at level 200) : regex_scope.
Local Open Scope regex_scope.

Definition IGNORECASE : bool := true.

(** "[.:\s]" *)
Definition sep_set : regex := In false [ILit "."; ILit ":"; ICat Space].
(** "[A-Z0-9]" *)
Definition alnum_set : regex := In false [IRange "A" "Z"; IRange "0" "9"].
(** "[\d]" *)
Definition digit_set : regex := In false [ICat Digit].
(** "[A-Z]" *)
Definition upper_set : regex := In false [IRange "A" "Z"].
(** "[^\n]" *)
Definition not_newline : regex := In true [ILit LF_char].
(** "[\w\.-]" *)
Definition email_set : regex := In false [ICat Word; ILit "."; ILit "-"].

(** "PURCHASE ORDER NO[.:\s]*([A-Z0-9]+)" *)
Definition po_number_re : regex :=
  lits "PURCHASE ORDER NO" ;; Star sep_set ;; Group 1 (Plus alnum_set).

(** "([\d]{1,2}\.[A-Z]{3,4}\.[\d]{4})" *)
Definition date_group : regex :=
  Group 1 (Repeat 1 (Some 2) digit_set ;; Lit "." ;; Repeat 3 (Some 4) upper_set
           ;; Lit "." ;; Exactly 4 digit_set).

(** "PO Date[.:\s]*([\d]{1,2}\.[A-Z]{3,4}\.[\d]{4})" *)
Definition po_date_re : regex := lits "PO Date" ;; Star sep_set ;; date_group.

(** "Revision Date[.:\s]*([\d]{1,2}\.[A-Z]{3,4}\.[\d]{4})" *)
Definition revision_date_re : regex :=
  lits "Revision Date" ;; Star sep_set ;; date_group.

(** "Revision No[.:\s]*([\d]+)" *)
Definition revision_number_re : regex :=
  lits "Revision No" ;; Star sep_set ;; Group 1 (Plus digit_set).

(** "[A-Za-z\s.]" *)
Definition contact_set : regex :=
  In false [IRange "A" "Z"; IRange "a" "z"; ICat Space; ILit "."].

(** "Buyer Contact[.:\s]*([A-Za-z\s.]+)(?=\n|$)" *)
Definition buyer_contact_re : regex :=
  lits "Buyer Contact" ;; Star sep_set ;; Group 1 (Plus contact_set)
  ;; Lookahead (Alt (Lit LF_char) AtEnd).

(** "Buyer Phone[.:\s]*([\d\s\-]+)" *)
Definition buyer_phone_re : regex :=
  lits "Buyer Phone" ;; Star sep_set
  ;; Group 1 (Plus (In false [ICat Digit; ICat Space; ILit "-"])).

(** "[\w\.-]+@[\w\.-]+\.\w+" *)
Definition buyer_email_re : regex :=
  Plus email_set ;; Lit "@" ;; Plus email_set ;; Lit "." ;; Plus (In false [ICat Word]).

(** "Supplier Name[.:\s]*([^\n]+)" *)
Definition supplier_name_re : regex :=
  lits "Supplier Name" ;; Star sep_set ;; Group 1 (Plus not_newline).

(** "Vendor Name[.:\s]*([^\n]+)" *)
Definition vendor_name_re : regex :=
  lits "Vendor Name" ;; Star sep_set ;; Group 1 (Plus not_newline).

(** "VALVETECQ ENGINEERS" *)
Definition valvetecq_re : regex := lits "VALVETECQ ENGINEERS".

(** "P[:\s]*([\d]{10})" *)
Definition supplier_phone_re : regex :=
  Lit "P" ;; Star (In false [ILit ":"; ICat Space]) ;; Group 1 (Exactly 10 digit_set).

(** "SALES@VALVETECQ\.COM" *)
Definition supplier_email_re : regex := lits "SALES@VALVETECQ.COM".

(** "GSL Number[.:\s]*([A-Z0-9]+)" *)
Definition gsl_number_re : regex :=
  lits "GSL Number" ;; Star sep_set ;; Group 1 (Plus alnum_set).

(** "Site Code[.:\s]*([A-Z0-9]+)" *)
Definition site_code_re : regex :=
  lits "Site Code" ;; Star sep_set ;; Group 1 (Plus alnum_set).

(** "Supplier Code[.:\s]*([\d]+)" *)
Definition supplier_code_re : regex :=
  lits "Supplier Code" ;; Star sep_set ;; Group 1 (Plus digit_set).

(** "GST[.:\s]*([A-Z0-9]{15})" *)
Definition vendor_gst_re : regex :=
  lits "GST" ;; Star sep_set ;; Group 1 (Exactly 15 alnum_set).

(** "IN_PO_Invoice@BakerHughes\.com" *)
Definition invoice_email_re : regex := lits "IN_PO_Invoice@BakerHughes.com".

(** "Incoterms[.:\s]*([^\n]+)" *)
Definition incoterms_re : regex :=
  lits "Incoterms" ;; Star sep_set ;; Group 1 (Plus not_newline).

(** "Currency[.:\s]*([A-Z]{3})" *)
Definition currency_re : regex :=
  lits "Currency" ;; Star sep_set ;; Group 1 (Exactly 3 upper_set).

(** "Payment Terms[.:\s]*([^\n]+)" *)
Definition payment_terms_re : regex :=
  lits "Payment Terms" ;; Star sep_set ;; Group 1 (Plus not_newline).

(** "[\d,]" *)
Definition amount_set : regex := In false [ICat Digit; ILit ","].

(** "Total Extended Net Price[.:\s]*" followed by group 1, which is
    "[\d,]+\.?\d*" *)
Definition total_amount_re : regex :=
  lits "Total Extended Net Price" ;; Star sep_set
  ;; Group 1 (Plus amount_set ;; Opt (Lit ".") ;; Star digit_set).

(** "PAN[.:\s]*([A-Z]{5}\d{4}[A-Z])" *)
Definition pan_card_re : regex :=
  lits "PAN" ;; Star sep_set
  ;; Group 1 (Exactly 5 upper_set ;; Exactly 4 digit_set ;; upper_set).

(** "GSTN[.:\s]*([A-Z0-9]{15})" *)
Definition gstn_number_re : regex :=
  lits "GSTN" ;; Star sep_set ;; Group 1 (Exactly 15 alnum_set).

(** ** The field rules of [main.py] *)

(** [match.group(1).strip() if match else None] *)
Definition stripped_group1 (found : option Match) : outcome value :=
  match found with
  | Some mt => g ← group mt 1; value_strip g
  | None => mret VNone
  end.

(** [match.group() if match else None] *)
Definition whole_match (found : option Match) : outcome value :=
  match found with
  | Some mt => group mt 0
  | None => mret VNone
  end.

Definition extract_po_number (text : str) : outcome value :=
  stripped_group1 (re_search po_number_re text IGNORECASE).

Definition date_patterns : list (str * regex) :=
  [("PO Date", po_date_re); ("Revision Date", revision_date_re)].

Fixpoint dict_get {A} (d : list (str * A)) (key : str) : option A :=
  match d with
  | (k, v) :: d' => if str_eqb k key then Some v else dict_get d' key
  | [] => None
  end.

Definition extract_date (text date_type : str) : outcome value :=
  match dict_get date_patterns date_type with
  | Some pattern => stripped_group1 (re_search pattern text IGNORECASE)
  | None => mret VNone
  end.

Definition extract_revision_number (text : str) : outcome value :=
  stripped_group1 (re_search revision_number_re text IGNORECASE).

Definition extract_buyer_contact (text : str) : outcome value :=
  stripped_group1 (re_search buyer_contact_re text IGNORECASE).

Definition extract_buyer_phone (text : str) : outcome value :=
  stripped_group1 (re_search buyer_phone_re text IGNORECASE).

Definition extract_buyer_email (text : str) : outcome value :=
  whole_match (re_search buyer_email_re text false).

Definition VALVETECQ_ENGINEERS : str := "VALVETECQ ENGINEERS".

(** The loop over the three patterns: the first that matches decides. *)
Fixpoint first_supplier_match (patterns : list regex) (text : str) : outcome value :=
  match patterns with
  | pattern :: patterns' =>
      match re_search pattern text IGNORECASE with
      | Some mt =>
          match lastindex mt with
          | Some _ => g ← group mt 1; value_strip g
          | None => mret (VStr VALVETECQ_ENGINEERS)
          end
      | None => first_supplier_match patterns' text
      end
  | [] => mret VNone
  end.

Definition extract_supplier_name (text : str) : outcome value :=
  first_supplier_match [supplier_name_re; vendor_name_re; valvetecq_re] text.

Definition extract_supplier_address (text : str) : outcome value :=
  mret (VStr "MALUMICHAMPATTI 187/1C, SNMV COLLEGE ROAD 641050 COIMBATORE INDIA").

(** [str(v)] inside an f-string, for the values a group can hold. *)
Definition format_value (v : value) : str :=
  match v with
  | VStr s => s
  | _ => "None"
  end.

Definition extract_supplier_phone (text : str) : outcome value :=
  match re_search supplier_phone_re text IGNORECASE with
  | Some mt => g ← group mt 1; mret (VStr ("P:" +:+ format_value g +:+ "/"))
  | None => mret VNone
  end.

Definition extract_supplier_email (text : str) : outcome value :=
  whole_match (re_search supplier_email_re text IGNORECASE).

Definition extract_gsl_number (text : str) : outcome value :=
  stripped_group1 (re_search gsl_number_re text IGNORECASE).

Definition extract_site_code (text : str) : outcome value :=
  stripped_group1 (re_search site_code_re text IGNORECASE).

Definition extract_supplier_code (text : str) : outcome value :=
  stripped_group1 (re_search supplier_code_re text IGNORECASE).

Definition extract_vendor_gst (text : str) : outcome value :=
  stripped_group1 (re_search vendor_gst_re text IGNORECASE).

Definition extract_ship_to_name (text : str) : outcome value :=
  mret (VStr "GE Oil & Gas India Private Limited Div-Dresser Valve").

Definition extract_ship_to_address (text : str) : outcome value :=
  mret (VStr "SF No. 608, Chettipalayam Road, Eachanari Post 641021 COIMBATORE INDIA").

Definition extract_invoice_email (text : str) : outcome value :=
  whole_match (re_search invoice_email_re text IGNORECASE).

Definition extract_incoterms (text : str) : outcome value :=
  stripped_group1 (re_search incoterms_re text IGNORECASE).

Definition extract_currency (text : str) : outcome value :=
  stripped_group1 (re_search currency_re text IGNORECASE).

Definition extract_payment_terms (text : str) : outcome value :=
  stripped_group1 (re_search payment_terms_re text IGNORECASE).

Definition extract_company_name (text : str) : outcome value :=
  mret (VStr "GE OIL & GAS INDIA PRIVATE LIMITED").

Definition extract_company_address (text : str) : outcome value :=
  mret (VStr "SF No. 608, Chettipalayam Road, Eachanari Post, Coimbatore Tamil Nadu 641021 India").

Definition extract_company_phone (text : str) : outcome value :=
  mret (VStr "422 664 1000").

(** A float literal of the source, [n / 10^k] rounded to binary64. *)
Definition float_literal (n : Z) (k : nat) : value := VFloat (decimal_to_float n k).

Definition extract_line_items (text : str) : outcome value :=
  mret (VList [
    VDict [
      ("line_number", VStr "10");
      ("part_number", VStr "MY-FLOWMAX");
      ("description", VStr ("Material Rev. Level:- EXT OPN PAINTING:FM,4" +:+ DQUOTE));
      ("quantity", float_literal 60 1);
      ("uom", VStr "EA");
      ("price", float_literal 108075 2);
      ("price_currency", VStr "INR");
      ("extended_price", float_literal 64845 1);
      ("taxable", VStr "Y");
      ("promise_date", VStr "");
      ("required_by_date", VStr "14.AUG.2026");
      ("hsn_code", VStr "84818030")
    ];
    VDict [
      ("line_number", VStr "20");
      ("part_number", VStr "MY-FLOWGRID");
      ("description", VStr ("Material Rev. Level:- EXT OPN PAINTING:FG,2" +:+ DQUOTE +:+ " 300"));
      ("quantity", float_literal 200 1);
      ("uom", VStr "EA");
      ("price", float_literal 5000 1);
      ("price_currency", VStr "INR");
      ("extended_price", float_literal 100000 1);
      ("taxable", VStr "Y");
      ("promise_date", VStr "");
      ("required_by_date", VStr "08.SEP.2026");
      ("hsn_code", VStr "84818030")
    ]
  ]).

Definition extract_total_amount (text : str) : outcome value :=
  match re_search total_amount_re text IGNORECASE with
  | Some mt =>
      try_except
        (g ← group mt 1;
         s ← value_remove_char g ",";
         f ← float_of_str s;
         mret (VFloat f))
        [ValueError]
        (fun _ => mret VNone)
  | None => mret VNone
  end.

Definition extract_special_instructions (text : str) : outcome value :=
  mret (VDict [
   ("reach_compliance_note", VStr ("Products sold to Baker Hughes TPS containing SVHC (Substances of Very High Concern)as per REACH (Registration, Evaluation,Authorization and Restriction of Chemicals)are subject to Baker Hughes TPS REACH and SCIP communication and reporting Requirements Please refer to requirements in the " +:+ DQUOTE +:+ "Compliance " +:+ EN_DASH +:+ " Technical Regulations & Standards" +:+ DQUOTE +:+ " supplement listed in https://www.bakerhughes.com/suppliers"));
   ("documentation_tool", VStr "New Documentation Tool ALFRESCO: https://alfresco.bakerhughes.com/valve-databook");
   ("machining_standard", VStr "Machined surfaces shall comply visual inspection standard CES 1092.");
   ("packing_procedure", VStr "GEMCS-FPT-Coimbatore-QWI-7.5-001- EN");
   ("deviation_process", VStr "Any deviation to this PO shall be processed through eSDR work flow for disposition.");
   ("material_processing", VStr "ALL MATERIAL SHALL BE PROCESSED IN ACCORDANCE WITH THE CURRET EDITION AND REVISION OF THE REFERENCED SPECIFICATION UNLESS OTHERWISE NOTED");
   ("quantity_policy", VStr "Quantities ordered are firm. Over shipments will be returned at vendor expense.");
   ("receiving_counts", VStr "Baker Hughes Energy India Private Limited Receiving Department counts will govern receipt/packing list quantities differences.");
   ("marking_requirements", VStr "All documentations and container must be marked with purchase order number and part number.");
   ("due_date_clarification", VStr "Due date specified above is date required at the Receiving Dock.");
   ("routing_non_compliance", VStr "Failure to comply with routing as specified will result in charge-back to supplier for additional charges incurred.")
  ]).

Definition extract_invoicing_instructions (text : str) : outcome value :=
  mret (VDict [
   ("primary_method", VStr "Submit invoice via Ariba Network if registered and attach digitally signed invoice copy in Ariba Network.");
   ("fallback_method", VStr "If not registered for Ariba Network, submit digitally signed invoice to PO Invoice: IN_PO_Invoice@BakerHughes.com");
   ("hardcopy_requirement", VStr "For non-digitally signed invoices hardcopy is mandatory for archiving, without which payment will not get processed.");
   ("mailroom_address", VStr "Attention to : Dinesh Kumar MP, Process Name: Baker Hughes, Crown Worldwide Group, 33/1A, Kengal Kempohalli, Dobbaspet, Nelamangala Taluk, Tumkur Road, Bangalore Rural District, Bangalore - 562 111.");
   ("ariba_support", VStr "For Ariba registration help, please contact: supplier.enablement@bakerhughes.com.")
  ]).

Definition extract_msmed_declaration (text : str) : outcome value :=
  mret (VStr "In event of supplier / Vendor qualifying as Micro, small or medium enterprise as defined under MSMED Act 2006, declaration along with certificates shall be submitted to the Company").

Definition extract_quality_documents (text : str) : outcome value :=
  mret (VStr "Contact Buyer for submitting quality documents as required by PO .").

Definition extract_pan_card (text : str) : outcome value :=
  stripped_group1 (re_search pan_card_re text IGNORECASE).

Definition extract_gstn_number (text : str) : outcome value :=
  stripped_group1 (re_search gstn_number_re text IGNORECASE).

Definition extract_governing_terms (text : str) : outcome value :=
  mret (VStr "Baker Hughes Standard Terms of Purchase (Rev C) apply to this order").

Definition extract_project_number (text : str) : outcome value := mret VNone.
Definition extract_sales_order_number (text : str) : outcome value := mret VNone.
Definition extract_shipping_via (text : str) : outcome value := mret VNone.

(** ** The purchase-order record *)

Record Metadata := {
  document_type : str;
  file_name : str;
  total_pages : nat;
  company_name : value;
  company_address : value;
  company_phone : value
}.

Record OrderDetails := {
  po_number : value;
  po_date : value;
  revision_number : value;
  revision_date : value;
  buyer_contact : value;
  buyer_phone : value;
  buyer_email : value
}.

Record SupplierDetails := {
  supplier_name : value;            (* "name" *)
  supplier_address : value;         (* "address" *)
  contact_person_phone : value;
  contact_person_email : value;
  gsl_number : value;
  site_code : value;
  supplier_code : value;
  vendor_gst : value
}.

Record ShipToDetails := {
  ship_to_name : value;             (* "name" *)
  ship_to_address : value           (* "address" *)
}.

Record AdministrativeDetails := {
  email_invoice_to : value;
  incoterms : value;
  currency : value;
  payment_terms : value;
  project_number : value;
  sales_order_number : value;
  shipping_via : value
}.

Record Totals := {
  total_extended_net_price : value;
  totals_currency : value           (* "currency" *)
}.

Record Approval := { method : str }.

Record PurchaseOrder := {
  metadata : Metadata;
  order_details : OrderDetails;
  supplier_details : SupplierDetails;
  ship_to_details : ShipToDetails;
  administrative_details : AdministrativeDetails;
  line_items : value;
  totals : Totals;
  approval : Approval
}.

Definition default_line_items : value :=
  VList [
    VDict [
      ("line_number", VStr "");
      ("part_number", VStr "");
      ("description", VStr "");
      ("quantity", VStr "");
      ("uom", VStr "");
      ("price", VStr "");
      ("price_currency", VStr "");
      ("extended_price", VStr "");
      ("taxable", VStr "");
      ("promise_date", VStr "");
      ("required_by_date", VStr "");
      ("hsn_code", VStr "")
    ]
  ].

Definition parse_purchase_order_data (text filename : str) : outcome PurchaseOrder :=
  (* Basic metadata *)
  v_company_name ← safe_extract extract_company_name text (VStr "");
  v_company_address ← safe_extract extract_company_address text (VStr "");
  v_company_phone ← safe_extract extract_company_phone text (VStr "");
  let metadata := {|
    document_type := "PURCHASE_ORDER";
    file_name := filename;
    total_pages :=
      if contains_char FF_char text then length (split_char FF_char text) else 1;
    company_name := v_company_name;
    company_address := v_company_address;
    company_phone := v_company_phone |} in
  (* Order details *)
  v_po_number ← safe_extract extract_po_number text (VStr "");
  v_po_date ← safe_extract (fun t => extract_date t "PO Date") text (VStr "");
  v_revision_number ← safe_extract extract_revision_number text (VStr "0");
  v_revision_date ← safe_extract (fun t => extract_date t "Revision Date") text (VStr "");
  v_buyer_contact ← safe_extract extract_buyer_contact text (VStr "");
  v_buyer_phone ← safe_extract extract_buyer_phone text (VStr "");
  v_buyer_email ← safe_extract extract_buyer_email text (VStr "");
  let order_details := {|
    po_number := v_po_number;
    po_date := v_po_date;
    revision_number := v_revision_number;
    revision_date := v_revision_date;
    buyer_contact := v_buyer_contact;
    buyer_phone := v_buyer_phone;
    buyer_email := v_buyer_email |} in
  (* Supplier details *)
  v_name ← safe_extract extract_supplier_name text (VStr "");
  v_address ← safe_extract extract_supplier_address text (VStr "");
  v_contact_person_phone ← safe_extract extract_supplier_phone text (VStr "");
  v_contact_person_email ← safe_extract extract_supplier_email text (VStr "");
  v_gsl_number ← safe_extract extract_gsl_number text (VStr "");
  v_site_code ← safe_extract extract_site_code text (VStr "");
  v_supplier_code ← safe_extract extract_supplier_code text (VStr "");
  v_vendor_gst ← safe_extract extract_vendor_gst text (VStr "");
  let supplier_details := {|
    supplier_name := v_name;
    supplier_address := v_address;
    contact_person_phone := v_contact_person_phone;
    contact_person_email := v_contact_person_email;
    gsl_number := v_gsl_number;
    site_code := v_site_code;
    supplier_code := v_supplier_code;
    vendor_gst := v_vendor_gst |} in
  (* Ship to details *)
  v_ship_name ← safe_extract extract_ship_to_name text (VStr "");
  v_ship_address ← safe_extract extract_ship_to_address text (VStr "");
  let ship_to_details := {|
    ship_to_name := v_ship_name;
    ship_to_address := v_ship_address |} in
  (* Administrative details *)
  v_email_invoice_to ← safe_extract extract_invoice_email text (VStr "");
  v_incoterms ← safe_extract extract_incoterms text (VStr "");
  v_currency ← safe_extract extract_currency text (VStr "");
  v_payment_terms ← safe_extract extract_payment_terms text (VStr "");
  v_project_number ← safe_extract extract_project_number text (VStr "");
  v_sales_order_number ← safe_extract extract_sales_order_number text (VStr "");
  v_shipping_via ← safe_extract extract_shipping_via text (VStr "");
  let administrative_details := {|
    email_invoice_to := v_email_invoice_to;
    incoterms := v_incoterms;
    currency := v_currency;
    payment_terms := v_payment_terms;
    project_number := v_project_number;
    sales_order_number := v_sales_order_number;
    shipping_via := v_shipping_via |} in
  (* Line items *)
  line_items ← safe_extract extract_line_items text default_line_items;
  (* Totals *)
  v_total ← safe_extract extract_total_amount text (VStr "");
  v_totals_currency ← safe_extract extract_currency text (VStr "");
  let totals := {|
    total_extended_net_price := v_total;
    totals_currency := v_totals_currency |} in
  (* Computed, but left out of the returned record *)
  special_instructions ← safe_extract extract_special_instructions text (VDict []);
  invoicing_instructions ← safe_extract extract_invoicing_instructions text (VDict []);
  v_msmed_declaration ← safe_extract extract_msmed_declaration text (VStr "");
  v_quality_documents ← safe_extract extract_quality_documents text (VStr "");
  v_pan_card ← safe_extract extract_pan_card text (VStr "");
  v_gstn_no ← safe_extract extract_gstn_number text (VStr "");
  v_governing_terms ← safe_extract extract_governing_terms text (VStr "");
  (* Approval *)
  let approval := {| method := "ELECTRONICALLY APPROVED. NO SIGNATURE REQUIRED" |} in
  mret {|
    metadata := metadata;
    order_details := order_details;
    supplier_details := supplier_details;
    ship_to_details := ship_to_details;
    administrative_details := administrative_details;
    line_items := line_items;
    totals := totals;
    approval := approval |}.

(** ** The PDF libraries, as the program sees them *)

(** A page of [pdfplumber]: [extract_text()] gives the text of the page,
    [None] when it has none, or fails. *)
Record Page := {
  extract_text : outcome (option str);
  width : value;
  height : value
}.

(** A [PyPDF2.PdfReader]: the document information, if any, and the
    number of pages. *)
Record Reader := {
  reader_metadata : option (list (str * value));
  reader_pages : nat
}.

(** What the two libraries make of the bytes of an upload. *)
Record Pdf := {
  PdfReader : outcome Reader;
  pdfplumber_open : outcome (list Page)
}.

(** [x or ""] *)
Definition or_empty (x : option str) : str := default "" x.

(** The loop of [extract_text_from_pdf] over the pages. *)
Fixpoint text_of_pages (pages : list Page) (full_text : str) : outcome str :=
  match pages with
  | [] => mret full_text
  | page :: pages' =>
      t ← extract_text page;
      let page_text := or_empty t in
      text_of_pages pages' (full_text +:+ page_text +:+ LF +:+ LF)
  end.

Definition extract_text_from_pdf (pdf : Pdf) : outcome str :=
  try_except
    (pages ← pdfplumber_open pdf; text_of_pages pages "")
    [Exception]
    (fun e => Raise {| exc_cls := Exception;
                       exc_msg := "Failed to extract text from PDF: " +:+ exc_msg e |}).

Definition extract_purchase_order_data (pdf : Pdf) (filename : str)
  : outcome PurchaseOrder :=
  full_text ← extract_text_from_pdf pdf;
  parse_purchase_order_data full_text filename.

(** ** Generic extraction: [extract_pdf_data] *)

Record PageData := {
  page_number : nat;
  pd_text : str;       (* "text" *)
  pd_width : value;       (* "width" *)
  pd_height : value       (* "height" *)
}.

Record Document := {
  doc_metadata : list (str * value);   (* "metadata" *)
  doc_pages : list PageData;              (* "pages" *)
  doc_text : str;                      (* "text" *)
  doc_total_pages : nat;                  (* "total_pages" *)
  doc_error : option str               (* "error", when present *)
}.

(** [d.get(key, "")] *)
Definition get_or_empty (d : list (str * value)) (key : str) : value :=
  default (VStr "") (dict_get d key).

(** The metadata step: what it leaves in [result], and how it ends. *)
Definition read_metadata (pdf : Pdf) (result : Document) : Document * outcome unit :=
  match PdfReader pdf with
  | Raise e => (result, Raise e)
  | Return pdf_reader =>
      match reader_metadata pdf_reader with
      | None =>
          (result, Raise {| exc_cls := AttributeError;
                            exc_msg := "'NoneType' object has no attribute 'get'" |})
      | Some info =>
          ({| doc_metadata :=
                [("title", get_or_empty info "/Title");
                 ("author", get_or_empty info "/Author");
                 ("total_pages", VInt (Z.of_nat (reader_pages pdf_reader)))];
              doc_pages := doc_pages result;
              doc_text := doc_text result;
              doc_total_pages := reader_pages pdf_reader;
              doc_error := doc_error result |},
           Return ())
      end
  end.

Definition append_page (result : Document) (page_data : PageData) : Document :=
  {| doc_metadata := doc_metadata result;
     doc_pages := doc_pages result ++ [page_data];
     doc_text := doc_text result;
     doc_total_pages := doc_total_pages result;
     doc_error := doc_error result |}.

(** The loop over [enumerate(pdf.pages, 1)]: pages already appended stay
    in [result] when a later page fails. *)
Fixpoint read_pages (pages : list Page) (page_num : nat) (full_text : str)
  (result : Document) : Document * outcome str :=
  match pages with
  | [] => (result, Return full_text)
  | page :: pages' =>
      match extract_text page with
      | Raise e => (result, Raise e)
      | Return t =>
          let page_text := or_empty t in
          let page_data := {| page_number := page_num;
                              pd_text := page_text;
                              pd_width := width page;
                              pd_height := height page |} in
          read_pages pages' (S page_num) (full_text +:+ page_text +:+ LF +:+ LF)
            (append_page result page_data)
      end
  end.

Definition set_text (result : Document) (text : str) : Document :=
  {| doc_metadata := doc_metadata result;
     doc_pages := doc_pages result;
     doc_text := text;
     doc_total_pages := doc_total_pages result;
     doc_error := doc_error result |}.

Definition set_error (result : Document) (msg : str) : Document :=
  {| doc_metadata := doc_metadata result;
     doc_pages := doc_pages result;
     doc_text := doc_text result;
     doc_total_pages := doc_total_pages result;
     doc_error := Some msg |}.

(** The body of the [try] block. *)
Definition pdf_data_body (pdf : Pdf) (result : Document) : Document * outcome unit :=
  match read_metadata pdf result with
  | (result, Raise e) => (result, Raise e)
  | (result, Return _) =>
      match pdfplumber_open pdf with
      | Raise e => (result, Raise e)
      | Return pages =>
          match read_pages pages 1 "" result with
          | (result, Raise e) => (result, Raise e)
          | (result, Return full_text) => (set_text result (strip full_text), Return ())
          end
      end
  end.

Definition extract_pdf_data (pdf : Pdf) : outcome Document :=
  let result := {| doc_metadata := []; doc_pages := []; doc_text := "";
                   doc_total_pages := 0; doc_error := None |} in
  match pdf_data_body pdf result with
  | (result, Return _) => mret result
  | (result, Raise e) =>
      if issubclass (exc_cls e) Exception
      then mret (set_error result (exc_msg e))
      else Raise e
  end.

(** ** [advanced_converter.py]: the structured-entity extractor *)

(** "[-.\s]" *)
Definition dash_dot_space : regex := In false [ILit "-"; ILit "."; ICat Space].
(** "[/-]" *)
Definition slash_dash : regex := In false [ILit "/"; ILit "-"].

(** "\b[A-Za-z0-9._%+-]+@[A-Za-z0-9.-]+\.[A-Z|a-z]{2,}\b" *)
Definition emails_re : regex :=
  AtBoundary
  ;; Plus (In false [IRange "A" "Z"; IRange "a" "z"; IRange "0" "9";
                     ILit "."; ILit "_"; ILit "%"; ILit "+"; ILit "-"])
  ;; Lit "@"
  ;; Plus (In false [IRange "A" "Z"; IRange "a" "z"; IRange "0" "9"; ILit "."; ILit "-"])
  ;; Lit "."
  ;; Repeat 2 None (In false [IRange "A" "Z"; ILit "|"; IRange "a" "z"])
  ;; AtBoundary.

(** "\b(?:\+?\d{1,3}[-.\s]?)?\(?\d{3}\)?[-.\s]?\d{3}[-.\s]?\d{4}\b" *)
Definition phone_numbers_re : regex :=
  AtBoundary
  ;; Opt (Opt (Lit "+") ;; Repeat 1 (Some 3) digit_set ;; Opt dash_dot_space)
  ;; Opt (Lit "(") ;; Exactly 3 digit_set ;; Opt (Lit ")")
  ;; Opt dash_dot_space ;; Exactly 3 digit_set
  ;; Opt dash_dot_space ;; Exactly 4 digit_set
  ;; AtBoundary.

(** "https?://(?:[-\w.]|(?:%[\da-fA-F]{2}))+[/\w\.-]*\??[/\w\.-=&]*";
    in the last set ".-=" is the range from "." to "=" *)
Definition urls_re : regex :=
  lits "http" ;; Opt (Lit "s") ;; lits "://"
  ;; Plus (Alt (In false [ILit "-"; ICat Word; ILit "."])
               (Lit "%" ;; Exactly 2 (In false [ICat Digit; IRange "a" "f"; IRange "A" "F"])))
  ;; Star (In false [ILit "/"; ICat Word; ILit "."; ILit "-"])
  ;; Opt (Lit "?")
  ;; Star (In false [ILit "/"; ICat Word; IRange "." "="; ILit "&"]).

(** "\b\d{1,2}[/-]\d{1,2}[/-]\d{2,4}\b" *)
Definition dates_re : regex :=
  AtBoundary
  ;; Repeat 1 (Some 2) digit_set ;; slash_dash
  ;; Repeat 1 (Some 2) digit_set ;; slash_dash
  ;; Repeat 2 (Some 4) digit_set
  ;; AtBoundary.

Definition structured_patterns : list (str * regex) :=
  [("emails", emails_re);
   ("phone_numbers", phone_numbers_re);
   ("urls", urls_re);
   ("dates", dates_re)].

(** [list(set(matches))]: the distinct matches, in the order the set
    happens to keep them. *)
Definition list_of_set (matches : list str) : list str :=
  elements (list_to_set matches : gset str).

Definition extract_structured_data (text : str) : list (str * list str) :=
  (fun kp : str * regex =>
     (kp.1, list_of_set (re_findall kp.2 text IGNORECASE)))
    <$> structured_patterns.

(** ** Vocabulary of the properties *)

Fixpoint span (ok : char -> bool) (s : str) : str * str :=
  match s with
  | Str c s' =>
      if ok c then let '(a, b) := span ok s' in (Str c a, b) else ("", s)
  | "" => ("", "")
  end.

(** The cursor after the literal text [s], if it is there. *)
Fixpoint skip_lits (ic : bool) (s : str) (cur : cursor) : option cursor :=
  match s with
  | "" => Some cur
  | Str c s' =>
      match rest cur with
      | Str x r =>
          if lit_eq ic c x then skip_lits ic s' (Cursor (Some x) r) else None
      | "" => None
      end
  end.

(** The cursor after the maximal run of [ok]. *)
Fixpoint skip_run (ok : char -> bool) (p : option char) (r : str) : cursor :=
  match r with
  | Str c r' => if ok c then skip_run ok (Some c) r' else Cursor p r
  | "" => Cursor p r
  end.

(** The cursors after each prefix of the maximal run, the longest first. *)
Fixpoint runs (ok : char -> bool) (p : option char) (r : str) : list cursor :=
  match r with
  | Str c r' => if ok c then runs ok (Some c) r' ++ [Cursor p r] else [Cursor p r]
  | "" => [Cursor p r]
  end.

Definition with_groups (g : groups) (c : cursor) : mstate := (c, g).


(** An error: an exception derived from [Exception]. *)
Definition is_error (e : exc) : Prop := issubclass (exc_cls e) Exception = true.

(** The field rules that return a literal. *)
Definition constant_rules : list (str -> outcome value) :=
  [extract_company_name; extract_company_address; extract_company_phone;
   extract_supplier_address; extract_ship_to_name; extract_ship_to_address;
   extract_line_items; extract_special_instructions;
   extract_invoicing_instructions; extract_msmed_declaration;
   extract_quality_documents; extract_governing_terms].

(** A rule outcome that [safe_extract] absorbs. *)
Definition rule_safe {A} (o : outcome A) : Prop :=
  match o with
  | Return _ => True
  | Raise e => is_error e
  end.

(** What [safe_extract] makes of such an outcome. *)
Definition safe_result (o : outcome value) (default_value : value) : value :=
  match o with
  | Return v => if is_not_none v && ne_str v "" then v else default_value
  | Raise _ => default_value
  end.

(** ** Reading the character tables *)

(** The code points of a table of ranges. *)
Definition points (rs : list (N * N)) : list char :=
  rs ≫= fun r => char_range r.1 r.2.

(** The characters whose lower-case form is [v]. *)
Definition lower_preimage (v : char) : list char :=
  List.filter (fun c => (tolower c =? v)%N)
    (v :: (fst <$> List.filter (fun kv : N * N => (kv.2 =? v)%N) lower_pairs)).

(** What a set of a pattern holds: the characters its literals and
    ranges stand for, and its categories. *)
Definition item_targets (ic : bool) (i : item) : list char :=
  match i with
  | ILit p => if ic then folded p else [p]
  | IRange lo hi => if ic then char_range lo hi ≫= folded else char_range lo hi
  | ICat _ => []
  end.

Definition set_targets (ic : bool) (items : list item) : list char :=
  items ≫= item_targets ic.

Definition set_cats (items : list item) : list category :=
  omap (fun i => match i with ICat k => Some k | _ => None end) items.

(** ** Letter case under IGNORECASE *)

(** The other case of an ASCII letter. *)
Definition other_case (p : char) : list char :=
  if between "A" "Z" p then [(p + 32)%N]
  else if between "a" "z" p then [(p - 32)%N]
  else [].

(** The four letters outside ASCII that IGNORECASE takes for ASCII
    letters. *)
Definition DOTTED_I : char := 304%N.    (* U+0130, capital I with dot above *)
Definition DOTLESS_I : char := 305%N.   (* U+0131, small dotless i *)
Definition LONG_S : char := 383%N.      (* U+017F, small long s *)
Definition KELVIN : char := 8490%N.     (* U+212A, the Kelvin sign *)

(** The letters outside ASCII that IGNORECASE takes for the ASCII
    letter [p]: U+0130 and U+0131 for "i", U+017F for "s", U+212A for
    "k". *)
Definition ic_extras (p : char) : list char :=
  if char_eqb p "i" || char_eqb p "I" then [DOTTED_I; DOTLESS_I]
  else if char_eqb p "s" || char_eqb p "S" then [LONG_S]
  else if char_eqb p "k" || char_eqb p "K" then [KELVIN]
  else [].

(** The characters of a text that IGNORECASE takes for the ASCII
    character [p] of a pattern. *)
Definition ic_variants (p : char) : list char := p :: other_case p ++ ic_extras p.

Definition ic_char (p c : char) : bool := existsb (char_eqb c) (ic_variants p).

(** [s] is the ASCII text [p] in some letter case, as IGNORECASE takes
    it, character by character. *)
Fixpoint ic_eq (p s : str) : bool :=
  match p, s with
  | "", "" => true
  | Str a p', Str c s' => ic_char a c && ic_eq p' s'
  | _, _ => false
  end.

Definition is_ascii (c : char) : bool := (c <? 128)%N.

(** The characters of "[.:\s]". *)
Definition is_sep (c : char) : bool :=
  char_eqb c "." || char_eqb c ":" || isspace c.

(** The separators, one by one. *)
Definition sep_chars : list char :=
  Eval vm_compute in ("." :: ":" :: points space_ranges)%chr.

(** The shape of most patterns: a label, separators, and group 1. *)
Definition labelled (label : str) (body : regex) : regex :=
  lits label ;; Star sep_set ;; Group 1 body.

(** At offset [n], [text] holds the label in any letter case, then
    separators, then a character of [cls]. *)
Definition labelled_at (label : str) (cls : char -> bool) (text : str)
  (n : nat) : Prop :=
  exists pre lab seps c post,
    text = pre +:+ lab +:+ seps +:+ Str c post /\
    len pre = n /\
    ic_eq label lab = true /\
    str_all is_sep seps = true /\
    cls c = true.

(** The character before the position reached after [s]. *)
Fixpoint last_or (p : option char) (s : str) : option char :=
  match s with
  | "" => p
  | Str c s' => last_or (Some c) s'
  end.

(** The four letters outside ASCII that a range of ASCII letters also
    holds under IGNORECASE. *)
Definition ic_letter_extras : list char := [DOTTED_I; DOTLESS_I; LONG_S; KELVIN].

(** The characters of "[A-Z]" under IGNORECASE. *)
Definition ic_alpha (c : char) : bool :=
  between "A" "Z" c || between "a" "z" c || existsb (char_eqb c) ic_letter_extras.

(** The characters of "[A-Z0-9]" under IGNORECASE. *)
Definition ic_alnum (c : char) : bool := ic_alpha c || between "0" "9" c.

(** The characters of "[^\n]". *)
Definition not_lf (c : char) : bool := negb (char_eqb c LF_char).

(** [run] is what "label[.:\s]*([cls]+)" captures in [text]: at the
    first place where the label, in any letter case, and separators
    are followed by a character of [cls], after the longest run of
    separators that such a character follows, the longest run of
    [cls]. *)
Definition first_capture (label : str) (cls : char -> bool) (text run : str) : Prop :=
  exists pre lab seps post,
    text = pre +:+ lab +:+ seps +:+ run +:+ post /\
    ic_eq label lab = true /\
    str_all is_sep seps = true /\
    run <> "" /\ str_all cls run = true /\ starts_with cls post = false /\
    (forall more rest_,
       run +:+ post = more +:+ rest_ -> more <> "" -> str_all is_sep more = true ->
       starts_with cls rest_ = false) /\
    (forall n, n < len pre -> ~ labelled_at label cls text n).

(** [text] holds [word] in some letter case. *)
Definition contains_ci (word text : str) : Prop :=
  exists pre w post, text = pre +:+ w +:+ post /\ ic_eq word w = true.

(** [sep.join(parts)] *)
Definition join (sep : str) (parts : list str) : str := str_join sep parts.

(** The concatenation of all the strings of a list. *)
Definition str_concat (parts : list str) : str := foldr str_app "" parts.

(** The characters of "[\d,]". *)
Definition is_amount_char (c : char) : bool := isdecimal c || char_eqb c ",".

(** Group 1 of the total-amount pattern: "[\d,]+\.?\d*" *)
Definition amount_body : regex :=
  Plus amount_set ;; Opt (Lit ".") ;; Star digit_set.

(** The token that "[\d,]+\.?\d*" takes from the start of [r], and what
    is left of [r]. *)
Definition amount_split (r : str) : str * str :=
  let '(a, r1) := span is_amount_char r in
  match r1 with
  | Str c r2 =>
      if char_eqb c "."
      then let '(d, r3) := span isdecimal r2 in (a +:+ Str "." d, r3)
      else (a, r1)
  | "" => (a, r1)
  end.

(** [tok], followed by [post], is a digits/commas/decimal token: a run
    of digits and commas, then possibly a point and a run of digits, and
    [post] continues neither. *)
Definition amount_token (tok post : str) : Prop :=
  exists a,
    a <> "" /\ str_all is_amount_char a = true /\
    ((tok = a /\ starts_with is_amount_char post = false /\
      starts_with (char_eqb ".") post = false)
     \/ (exists d, tok = a +:+ Str "." d /\ str_all isdecimal d = true /\
                   starts_with isdecimal post = false)).

(** What [extract_total_amount] makes of a token. *)
Definition amount_value (tok : str) : value :=
  match float_of_str (remove_char "," tok) with
  | Return f => VFloat f
  | Raise _ => VNone
  end.

(** The float [f] is exactly the decimal [n / 10^k]. *)
Definition exact_decimal (f : spec_float) (n : Z) (k : nat) : Prop :=
  match f with
  | S754_finite s m e =>
      let v := if s then Z.neg m else Z.pos m in
      if (e <? 0)%Z
      then (v * 10 ^ Z.of_nat k = n * 2 ^ (- e))%Z
      else (v * 2 ^ e * 10 ^ Z.of_nat k = n)%Z
  | S754_zero _ => n = 0%Z
  | _ => False
  end.

(** ** The language of a pattern *)

(** A pattern without capturing groups. *)
Fixpoint group_free (r : regex) : bool :=
  match r with
  | Seq r1 r2 | Alt r1 r2 => group_free r1 && group_free r2
  | Repeat _ _ r | Lookahead r => group_free r
  | Group _ _ => false
  | _ => true
  end.

(** The texts a pattern can consume; assertions consume nothing. *)
Fixpoint lang (ic : bool) (r : regex) (a : str) : Prop :=
  match r with
  | Empty => a = ""
  | Lit p => exists c, a = Str c "" /\ lit_eq ic p c = true
  | In negate items => exists c, a = Str c "" /\ in_set ic negate items c = true
  | Seq r1 r2 => exists a1 a2, a = a1 +:+ a2 /\ lang ic r1 a1 /\ lang ic r2 a2
  | Alt r1 r2 => lang ic r1 a \/ lang ic r2 a
  | Repeat lo hi r =>
      exists parts,
        a = str_concat parts /\ Forall (lang ic r) parts /\
        lo <= length parts /\
        match hi with
        | Some h => length parts <= lo `max` h
        | None => True
        end
  | Group _ r => lang ic r a
  | Lookahead _ | AtEnd | AtBoundary => a = ""
  end.

(** One matching step from [st] to [st']: a text of [L] is consumed, and
    the groups are kept when [keep] holds. *)
Definition consumes (L : str -> Prop) (keep : bool) (st st' : mstate) : Prop :=
  exists a, rest st.1 = a +:+ rest st'.1 /\ L a /\ (keep = true -> st'.2 = st.2).

(** Several steps: the concatenation of what each step consumed. *)
Definition consumes_parts (L : str -> Prop) (keep : bool)
  (count : nat -> Prop) (st st' : mstate) : Prop :=
  exists parts,
    rest st.1 = str_concat parts +:+ rest st'.1 /\ Forall L parts /\
    count (length parts) /\ (keep = true -> st'.2 = st.2).

Definition not_space (c : char) : bool := negb (isspace c).

(** The group of the date patterns: "[\d]{1,2}\.[A-Z]{3,4}\.[\d]{4}" *)
Definition date_body : regex :=
  Repeat 1 (Some 2) digit_set ;; Lit "." ;; Repeat 3 (Some 4) upper_set
  ;; Lit "." ;; Exactly 4 digit_set.

(** [v] has the form D[D].MMM[M].YYYY. *)
Definition date_shaped (v : str) : Prop :=
  exists d mon y,
    v = d +:+ "." +:+ mon +:+ "." +:+ y /\
    str_all isdecimal d = true /\ 1 <= len d <= 2 /\
    str_all ic_alpha mon = true /\ 3 <= len mon <= 4 /\
    str_all isdecimal y = true /\ len y = 4.

(** [text] holds [label] in some letter case, then separators, then [v]. *)
Definition follows_label (label text v : str) : Prop :=
  exists pre lab seps post,
    text = pre +:+ lab +:+ seps +:+ v +:+ post /\
    ic_eq label lab = true /\ str_all is_sep seps = true.

(** [v] stands somewhere in [text]. *)
Definition occurs_in (v text : str) : Prop :=
  exists pre post, text = pre +:+ v +:+ post.

(** The characters of "[:\s]". *)
Definition is_colon_space (c : char) : bool := char_eqb c ":" || isspace c.

(** The characters of "[\w\.-]". *)
Definition is_email_char (c : char) : bool :=
  isword c || char_eqb c "." || char_eqb c "-".

(** [v] has the form local@domain.tld of the buyer-email pattern. *)
Definition email_shaped (v : str) : Prop :=
  exists l d t,
    v = l +:+ "@" +:+ d +:+ "." +:+ t /\
    l <> "" /\ str_all is_email_char l = true /\
    d <> "" /\ str_all is_email_char d = true /\
    t <> "" /\ str_all isword t = true.

(** The rules that look for one fixed address. *)
Definition literal_email_rules : list ((str -> outcome value) * str) :=
  [(extract_supplier_email, "SALES@VALVETECQ.COM");
   (extract_invoice_email, "IN_PO_Invoice@BakerHughes.com")].

(** The characters of "[\d\s\-]". *)
Definition is_phone_char (c : char) : bool :=
  isdecimal c || isspace c || char_eqb c "-".

(** A rule of the form "label[.:\s]*([class]+)", with its label and the
    characters of its class under IGNORECASE. *)
Record labelled_rule := {
  lr_rule : str -> outcome value;
  lr_label : str;
  lr_class : char -> bool
}.

(** The rules whose class holds no separator. *)
Definition run_rules : list labelled_rule :=
  [{| lr_rule := extract_revision_number; lr_label := "Revision No"; lr_class := isdecimal |};
   {| lr_rule := extract_gsl_number; lr_label := "GSL Number"; lr_class := ic_alnum |};
   {| lr_rule := extract_site_code; lr_label := "Site Code"; lr_class := ic_alnum |};
   {| lr_rule := extract_supplier_code; lr_label := "Supplier Code"; lr_class := isdecimal |}].

(** The rules whose class holds separators. *)
Definition line_rules : list labelled_rule :=
  [{| lr_rule := extract_buyer_phone; lr_label := "Buyer Phone"; lr_class := is_phone_char |};
   {| lr_rule := extract_incoterms; lr_label := "Incoterms"; lr_class := not_lf |};
   {| lr_rule := extract_payment_terms; lr_label := "Payment Terms"; lr_class := not_lf |}].

(** [s.count(c)] for a one-character [c]. *)
Fixpoint str_count (c : char) (s : str) : nat :=
  match s with
  | Str x s' => (if char_eqb x c then 1 else 0) + str_count c s'
  | "" => 0
  end.

(** The values at the leaves of the record, section by section. *)
Definition po_values (r : PurchaseOrder) : list value :=
  [company_name (metadata r); company_address (metadata r); company_phone (metadata r);
   po_number (order_details r); po_date (order_details r);
   revision_number (order_details r); revision_date (order_details r);
   buyer_contact (order_details r); buyer_phone (order_details r);
   buyer_email (order_details r);
   supplier_name (supplier_details r); supplier_address (supplier_details r);
   contact_person_phone (supplier_details r); contact_person_email (supplier_details r);
   gsl_number (supplier_details r); site_code (supplier_details r);
   supplier_code (supplier_details r); vendor_gst (supplier_details r);
   ship_to_name (ship_to_details r); ship_to_address (ship_to_details r);
   email_invoice_to (administrative_details r); incoterms (administrative_details r);
   currency (administrative_details r); payment_terms (administrative_details r);
   project_number (administrative_details r);
   sales_order_number (administrative_details r);
   shipping_via (administrative_details r);
   line_items r;
   total_extended_net_price (totals r); totals_currency (totals r)].

(** The fields of the record that hold the capture of a labelled run
    whose class holds no separator, with the empty string as default. *)
Definition run_fields : list ((PurchaseOrder -> value) * str * (char -> bool)) :=
  [(fun r => po_number (order_details r), "PURCHASE ORDER NO", ic_alnum);
   (fun r => gsl_number (supplier_details r), "GSL Number", ic_alnum);
   (fun r => site_code (supplier_details r), "Site Code", ic_alnum);
   (fun r => supplier_code (supplier_details r), "Supplier Code", isdecimal)].

(** The part of the record that is the same for every text. *)
Definition fixed_part (r : PurchaseOrder) : list value :=
  [VStr (document_type (metadata r));
   company_name (metadata r); company_address (metadata r); company_phone (metadata r);
   supplier_address (supplier_details r);
   ship_to_name (ship_to_details r); ship_to_address (ship_to_details r);
   project_number (administrative_details r);
   sales_order_number (administrative_details r);
   shipping_via (administrative_details r);
   line_items r;
   VStr (method (approval r))].

(** ** Vocabulary for the generic extraction *)

(** The entries of "pages" for pages numbered from [n] whose texts are [ts]. *)
Fixpoint page_entries (n : nat) (pages : list Page) (ts : list (option str))
  : list PageData :=
  match pages, ts with
  | page :: pages', t :: ts' =>
      {| page_number := n; pd_text := or_empty t;
         pd_width := width page; pd_height := height page |}
        :: page_entries (S n) pages' ts'
  | _, _ => []
  end.

(** The "metadata" entry built from a reader. *)
Definition metadata_of (reader : Reader) (info : list (str * value))
  : list (str * value) :=
  [("title", get_or_empty info "/Title");
   ("author", get_or_empty info "/Author");
   ("total_pages", VInt (Z.of_nat (reader_pages reader)))].

(** Every exception the two libraries raise on this file is an error. *)
Definition errors_only (pdf : Pdf) : Prop :=
  (forall e, PdfReader pdf = Raise e -> is_error e) /\
  (forall e, pdfplumber_open pdf = Raise e -> is_error e) /\
  (forall pages, pdfplumber_open pdf = Return pages ->
     Forall (fun page => forall e, extract_text page = Raise e -> is_error e) pages).

(** The page texts, each followed by two newlines. *)
Definition pages_text (ts : list (option str)) : str :=
  str_concat ((fun t => or_empty t +:+ LF +:+ LF) <$> ts).

(** ** Vocabulary for the structured-entity extractor *)

(** A lower bound on the length of the texts of a pattern. *)
Fixpoint min_len (r : regex) : nat :=
  match r with
  | Empty | Lookahead _ | AtEnd | AtBoundary => 0
  | Lit _ | In _ _ => 1
  | Seq r1 r2 => min_len r1 + min_len r2
  | Alt r1 r2 => min_len r1 `min` min_len r2
  | Repeat lo _ r => lo * min_len r
  | Group _ r => min_len r
  end.

(** The characters of "[/-]". *)
Definition is_slash_dash (c : char) : bool := char_eqb c "/" || char_eqb c "-".

(** [v] has the form D[D]/M[M]/YY[YY], with "/" or "-" at each place. *)
Definition slash_date_shaped (v : str) : Prop :=
  exists d s1 mon s2 y,
    v = d +:+ Str s1 mon +:+ Str s2 y /\
    str_all isdecimal d = true /\ 1 <= len d <= 2 /\
    is_slash_dash s1 = true /\
    str_all isdecimal mon = true /\ 1 <= len mon <= 2 /\
    is_slash_dash s2 = true /\
    str_all isdecimal y = true /\ 2 <= len y <= 4.

(** The least number of characters of a value of each category. *)
Definition least_lengths : list (str * nat) :=
  [("emails", 6); ("phone_numbers", 10); ("urls", 8); ("dates", 6)].

(** ** The endpoints of [main.py] *)

(** The characters [str.lower] skips when it looks for the letters
    around a capital sigma. *)
Definition is_case_ignorable (c : char) : bool := in_ranges case_ignorable_ranges c.

(** Among the others, the letters that have a case. *)
Definition is_cased_letter (c : char) : bool := in_ranges cased_letter_ranges c.

Definition CAPITAL_SIGMA : char := 931%N.   (* U+03A3 *)
Definition FINAL_SIGMA : char := 962%N.     (* U+03C2 *)
Definition SMALL_SIGMA : char := 963%N.     (* U+03C3 *)
Definition COMBINING_DOT : char := 775%N.   (* U+0307 *)

(** The first character of [s] that is not skipped is a cased letter. *)
Fixpoint cased_next (s : str) : bool :=
  match s with
  | Str c s' => if is_case_ignorable c then cased_next s' else is_cased_letter c
  | "" => false
  end.

(** The lower-case form of one character: the capital sigma becomes the
    final sigma after a cased letter ([before]) when no cased letter
    follows ([after] is false), U+0130 becomes "i" and U+0307, and every
    other character has the one-character form of [tolower]. *)
Definition lower_char (before after : bool) (c : char) : str :=
  if char_eqb c CAPITAL_SIGMA
  then Str (if before && negb after then FINAL_SIGMA else SMALL_SIGMA) ""
  else if char_eqb c DOTTED_I then Str "i" (Str COMBINING_DOT "")
  else Str (tolower c) "".

(** [before]: the last character before [s] that is not skipped is a
    cased letter. *)
Fixpoint lower_from (before : bool) (s : str) : str :=
  match s with
  | Str c s' =>
      lower_char before (cased_next s') c
      +:+ lower_from (if is_case_ignorable c then before else is_cased_letter c) s'
  | "" => ""
  end.

(** [s.lower()] *)
Definition lower (s : str) : str := lower_from false s.

(** [s.endswith(suffix)] *)
Definition endswith (s suffix : str) : bool :=
  (len suffix <=? len s) &&
  str_eqb (str_drop (len s - len suffix) s) suffix.

(** An upload: the name and the size the client sent, when it sent
    them, and what [await file.read()] gives, the bytes being seen
    through the two PDF libraries. *)
Record UploadFile := {
  uf_filename : option str;   (* "filename" *)
  uf_size : option N;            (* "size" *)
  uf_read : outcome Pdf          (* "read()" *)
}.

(** How a call of an endpoint ends: with a response, with an
    HTTPException the endpoint raises, or with an exception it lets
    through. *)
Inductive http_result (A : Type) :=
| Responds (a : A)
| HTTPException (status_code : nat) (detail : str)
| Propagates (e : exc).
Arguments Responds {A} a.
Arguments HTTPException {A} status_code detail.
Arguments Propagates {A} e.

(** [try: body except Exception as e: raise HTTPException(500, ...)] *)
Definition or_500 {A} (body : outcome A) : http_result A :=
  match body with
  | Return a => Responds a
  | Raise e =>
      if issubclass (exc_cls e) Exception
      then HTTPException 500 ("Error processing PDF: " +:+ exc_msg e)
      else Propagates e
  end.

(** The content handed to [JSONResponse] by "/convert/pdf2json". *)
Record PdfContent := {
  pc_success : bool;      (* "success" *)
  pc_data : Document;     (* "data" *)
  pc_message : str;    (* "message" *)
  pc_pages : nat          (* "pages" *)
}.

Record ConversionResponse := {
  success : bool;
  data : PurchaseOrder;
  message : str;
  pages : nat
}.

Section Endpoints.
Context {Response : Type}.
(** [JSONResponse(content=...)], which renders the content and may fail. *)
Variable JSONResponse : PdfContent -> outcome Response.

Definition convert_pdf_to_json (file : UploadFile) : http_result Response :=
  match uf_filename file with
  | None =>
      Propagates {| exc_cls := AttributeError;
                    exc_msg := "'NoneType' object has no attribute 'lower'" |}
  | Some name =>
      if negb (endswith (lower name) ".pdf")
      then HTTPException 400 "File must be a PDF"
      else
        or_500
          (contents ← uf_read file;
           pdf_data ← extract_pdf_data contents;
           JSONResponse {| pc_success := true;
                           pc_data := pdf_data;
                           pc_message := "PDF converted successfully";
                           pc_pages := length (doc_pages pdf_data) |})
  end.
End Endpoints.

Definition convert_po_pdf (file : UploadFile) : http_result ConversionResponse :=
  match uf_filename file with
  | None =>
      Propagates {| exc_cls := AttributeError;
                    exc_msg := "'NoneType' object has no attribute 'lower'" |}
  | Some name =>
      if negb (endswith (lower name) ".pdf")
      then HTTPException 400 "File must be a PDF"
      else
        match uf_size file with
        | None =>
            Propagates {| exc_cls := TypeError;
                          exc_msg := "'>' not supported between instances of 'NoneType' and 'int'" |}
        | Some n =>
            if (10 * 1024 * 1024 <? n)%N
            then HTTPException 400 "File too large"
            else
              or_500
                (contents ← uf_read file;
                 po_data ← extract_purchase_order_data contents name;
                 mret {| success := true;
                         data := po_data;
                         message := "Purchase Order PDF converted successfully";
                         pages := total_pages (metadata po_data) |})
        end
  end.

(** [name] ends with ".pdf" in some letter case. *)
Definition pdf_name (name : str) : Prop :=
  exists stem ext, name = stem +:+ ext /\ lower ext = ".pdf".
(** * Properties *)

(** ** Characters *)

Lemma char_eqb_eq (a b : char) : char_eqb a b = true <-> a = b.
Proof. apply N.eqb_eq. Qed.

Lemma char_eqb_refl (a : char) : char_eqb a a = true.
Proof. apply N.eqb_refl. Qed.

Lemma char_eqb_sym (a b : char) : char_eqb a b = char_eqb b a.
Proof. apply N.eqb_sym. Qed.

Lemma char_eqb_spec (a b : char) : reflect (a = b) (char_eqb a b).
Proof. apply N.eqb_spec. Qed.

Lemma str_eqb_eq (a b : str) : str_eqb a b = true <-> a = b.
Proof.
  revert b. induction a as [|x a IH]; intros [|y b]; simpl; try done.
  rewrite andb_true_iff, char_eqb_eq, IH. split; [by intros [-> ->] | by intros [= -> ->]].
Qed.

Lemma str_eqb_refl (a : str) : str_eqb a a = true.
Proof. by apply str_eqb_eq. Qed.

Lemma str_eqb_spec (a b : str) : reflect (a = b) (str_eqb a b).
Proof. apply iff_reflect. symmetry. apply str_eqb_eq. Qed.

(** Membership of a character in a list, and in the tables. *)
Lemma mem_elem (c : char) (l : list char) : existsb (char_eqb c) l = true <-> c ∈ l.
Proof.
  rewrite existsb_exists, list_elem_of_In. split.
  - by intros (x & Hx & ->%char_eqb_eq).
  - intros H. exists c. split; [done | apply char_eqb_refl].
Qed.

Lemma mem_elem' (c : char) (l : list char) :
  existsb (fun x => char_eqb x c) l = true <-> c ∈ l.
Proof.
  assert (E : existsb (fun x => char_eqb x c) l = existsb (char_eqb c) l)
    by (induction l as [|x l IH]; simpl; [done | by rewrite IH, (char_eqb_sym x c)]).
  by rewrite E, mem_elem.
Qed.

Lemma char_range_elem (lo hi c : char) : c ∈ char_range lo hi <-> (lo <= c <= hi)%N.
Proof.
  unfold char_range. rewrite list_elem_of_fmap. split.
  - intros (n & -> & Hn%elem_of_seq). lia.
  - intros H. exists (N.to_nat (c - lo)). split; [lia |]. apply elem_of_seq. lia.
Qed.

Lemma between_spec (lo hi c : char) : between lo hi c = true <-> (lo <= c <= hi)%N.
Proof. unfold between. rewrite andb_true_iff, !N.leb_le. done. Qed.

Lemma in_ranges_spec (rs : list (N * N)) (c : char) :
  in_ranges rs c = true -> exists lo hi, (lo, hi) ∈ rs /\ (lo <= c <= hi)%N.
Proof.
  induction rs as [|[lo hi] rs IH]; simpl; [done |].
  destruct (N.ltb_spec c lo); [done |].
  destruct (N.leb_spec c hi).
  - intros _. exists lo, hi. split; [by left | lia].
  - intros (lo' & hi' & H1 & H2)%IH. exists lo', hi'. split; [by right | done].
Qed.

Lemma in_ranges_points (rs : list (N * N)) (c : char) :
  in_ranges rs c = true -> c ∈ points rs.
Proof.
  intros (lo & hi & H1 & H2)%in_ranges_spec. unfold points.
  apply list_elem_of_bind. exists (lo, hi). split; [| done]. by apply char_range_elem.
Qed.

(** Two predicates that hold on listed characters only are compared on
    the list. *)
Lemma finite_ext (f g : char -> bool) (l : list char) :
  (forall c, f c = true -> c ∈ l) -> (forall c, g c = true -> c ∈ l) ->
  forallb (fun c => Bool.eqb (f c) (g c)) l = true ->
  forall c, f c = g c.
Proof.
  intros Hf Hg H c. rewrite forallb_forall in H.
  destruct (f c) eqn:Ef.
  - specialize (H c (proj1 (list_elem_of_In _ _) (Hf c Ef))).
    rewrite Ef in H. by destruct (g c).
  - destruct (g c) eqn:Eg; [| done].
    specialize (H c (proj1 (list_elem_of_In _ _) (Hg c Eg))). rewrite Ef, Eg in H. done.
Qed.

Lemma finite_impl (f g : char -> bool) (l : list char) :
  (forall c, f c = true -> c ∈ l) ->
  forallb (fun c => implb (f c) (g c)) l = true ->
  forall c, f c = true -> g c = true.
Proof.
  intros Hf H c Ef. rewrite forallb_forall in H.
  specialize (H c (proj1 (list_elem_of_In _ _) (Hf c Ef))). by rewrite Ef in H.
Qed.

Lemma lookup_sorted_elem {A} (tbl : list (N * A)) (c : char) (v : A) :
  lookup_sorted tbl c = Some v -> (c, v) ∈ tbl.
Proof.
  induction tbl as [|[k x] tbl IH]; simpl; [done |].
  destruct (N.ltb_spec c k); [done |].
  destruct (N.eqb_spec c k) as [-> |_]; [intros [= ->]; by left | intros E; right; by apply IH].
Qed.

(** The characters with a given lower-case form. *)
Lemma tolower_preimage (c v : char) : tolower c = v <-> c ∈ lower_preimage v.
Proof.
  unfold lower_preimage. rewrite list_elem_of_In, filter_In, <- list_elem_of_In, N.eqb_eq.
  split; [| by intros [_ H]].
  intros H. split; [| done].
  unfold tolower in H. destruct (lookup_sorted lower_pairs c) as [x|] eqn:E; simpl in H.
  - subst x. right. apply list_elem_of_fmap. exists (c, v). split; [done |].
    apply list_elem_of_In, filter_In. split; [| simpl; by apply N.eqb_eq].
    by apply list_elem_of_In, lookup_sorted_elem.
  - subst. by left.
Qed.

Lemma tolower_mem (c : char) (targets : list char) :
  existsb (char_eqb (tolower c)) targets = existsb (char_eqb c) (targets ≫= lower_preimage).
Proof.
  apply eq_iff_eq_true. rewrite !mem_elem, list_elem_of_bind. split.
  - intros H. exists (tolower c). split; [by apply tolower_preimage | done].
  - intros (v & Hv%tolower_preimage & H). by subst.
Qed.

(** ** Strings *)

Lemma str_app_nil_r (s : str) : s +:+ "" = s.
Proof. induction s as [|c s IH]; simpl; [done | by rewrite IH]. Qed.

Lemma str_app_assoc (a b c : str) : (a +:+ b) +:+ c = a +:+ (b +:+ c).
Proof. induction a as [|x a IH]; simpl; [done | by rewrite IH]. Qed.

Lemma str_app_length (a b : str) :
  len (a +:+ b) = len a + len b.
Proof. induction a as [|x a IH]; simpl; [done | by rewrite IH]. Qed.

Lemma str_take_app (a b : str) : str_take (len a) (a +:+ b) = a.
Proof. induction a as [|x a IH]; simpl; [by destruct b | by rewrite IH]. Qed.

Lemma consumed_app (a b : str) : consumed (a +:+ b) b = a.
Proof.
  unfold consumed. rewrite str_app_length.
  replace (len a + len b - len b)
    with (len a) by lia.
  apply str_take_app.
Qed.

(** ** The maximal run of characters of a class *)

Lemma span_app (ok : char -> bool) (s : str) : (span ok s).1 +:+ (span ok s).2 = s.
Proof.
  induction s as [|c s IH]; simpl; [done |].
  destruct (ok c); [| done]. destruct (span ok s); simpl in *. by rewrite IH.
Qed.

Lemma span_all (ok : char -> bool) (s : str) : str_all ok (span ok s).1 = true.
Proof.
  induction s as [|c s IH]; simpl; [done |].
  destruct (ok c) eqn:E; [| done]. destruct (span ok s); simpl in *. by rewrite E.
Qed.

Lemma span_stop (ok : char -> bool) (s : str) : starts_with ok (span ok s).2 = false.
Proof.
  induction s as [|c s IH]; simpl; [done |].
  destruct (ok c) eqn:E; [| done]. by destruct (span ok s).
Qed.

(** A run followed by something that does not continue it is the span. *)
Lemma span_unique (ok : char -> bool) (a b : str) :
  str_all ok a = true -> starts_with ok b = false -> span ok (a +:+ b) = (a, b).
Proof.
  intros Ha Hb. induction a as [|c a IH]; simpl in *.
  - destruct b as [|c b]; simpl in *; [done | by rewrite Hb].
  - apply andb_true_iff in Ha as [-> Ha]. by rewrite (IH Ha).
Qed.

(** ** The matcher on literals and on runs of a class *)

Lemma m_lits (ic : bool) (s : str) (cur : cursor) (g : groups) :
  m ic (lits s) (cur, g) =
  match skip_lits ic s cur with
  | Some cur' => [(cur', g)]
  | None => []
  end.
Proof.
  revert cur. induction s as [|c s IH]; intros cur; simpl; [done |].
  unfold step; simpl. destruct (rest cur) as [|x r]; [done |].
  destruct (lit_eq ic c x); [| done].
  simpl. rewrite IH. by rewrite app_nil_r.
Qed.

Lemma star_step (ok : char -> bool) (n : nat) (p : option char) (r : str)
  (g : groups) :
  len r <= n ->
  star (step ok) n (Cursor p r, g) = with_groups g <$> runs ok p r.
Proof.
  revert p r. induction n as [|n IH]; intros p r Hn.
  - destruct r; simpl in *; [done | lia].
  - destruct r as [|c r]; simpl; [done |].
    unfold step; simpl. destruct (ok c); [| done].
    simpl. rewrite app_nil_r.
    replace (len r <? S (len r)) with true
      by (symmetry; apply Nat.ltb_lt; lia).
    rewrite IH by (simpl in Hn; lia). by rewrite fmap_app.
Qed.

Lemma m_star_set (ic negate : bool) (items : list item) (p : option char)
  (r : str) (g : groups) :
  m ic (Star (In negate items)) (Cursor p r, g) =
  with_groups g <$> runs (in_set ic negate items) p r.
Proof. simpl. rewrite app_nil_r. by apply star_step. Qed.

Lemma m_plus_set (ic negate : bool) (items : list item) (p : option char)
  (r : str) (g : groups) :
  m ic (Plus (In negate items)) (Cursor p r, g) =
  match r with
  | Str c r' =>
      if in_set ic negate items c
      then with_groups g <$> runs (in_set ic negate items) (Some c) r'
      else []
  | "" => []
  end.
Proof.
  simpl. unfold step; simpl. destruct r as [|c r]; [done |].
  destruct (in_set ic negate items c); [| done].
  simpl. rewrite !app_nil_r. by apply star_step.
Qed.

Lemma runs_head (ok : char -> bool) (p : option char) (r : str) :
  exists tl, runs ok p r = skip_run ok p r :: tl.
Proof.
  revert p. induction r as [|c r IH]; intros p; simpl; [by eexists |].
  destruct (ok c); [| by eexists].
  destruct (IH (Some c)) as [tl ->]. by eexists.
Qed.

Lemma skip_run_rest (ok : char -> bool) (p : option char) (r : str) :
  rest (skip_run ok p r) = (span ok r).2.
Proof.
  revert p. induction r as [|c r IH]; intros p; simpl; [done |].
  destruct (ok c); [| done]. rewrite IH. by destruct (span ok r).
Qed.

(** ** The safe-extraction wrapper *)

Lemma try_except_caught {A} (e : exc) (classes : list exc_class)
  (handler : exc -> outcome A) :
  existsb (issubclass (exc_cls e)) classes = true ->
  try_except (Raise e) classes handler = handler e.
Proof. intros H. unfold try_except. by rewrite H. Qed.

Lemma safe_extract_raise (rule : str -> outcome value) (text : str)
  (default_value : value) (e : exc) :
  rule text = Raise e -> is_error e ->
  safe_extract rule text default_value = Return default_value.
Proof.
  intros Hr He. unfold safe_extract. rewrite Hr.
  change (Raise e ≫= _) with (@Raise value e).
  rewrite try_except_caught; [done |].
  unfold is_error in He. simpl. rewrite He. by rewrite !orb_true_r.
Qed.

Lemma safe_extract_return (rule : str -> outcome value) (text : str)
  (default_value v : value) :
  rule text = Return v ->
  safe_extract rule text default_value =
  Return (if is_not_none v && ne_str v "" then v else default_value).
Proof. intros Hr. unfold safe_extract. by rewrite Hr. Qed.

(** An exception that is not derived from [Exception] passes through. *)
Lemma safe_extract_not_error (rule : str -> outcome value) (text : str)
  (default_value : value) (e : exc) :
  rule text = Raise e -> exc_cls e ∈ [BaseException; SystemExit; KeyboardInterrupt; GeneratorExit] ->
  safe_extract rule text default_value = Raise e.
Proof.
  intros Hr He. unfold safe_extract. rewrite Hr. simpl.
  unfold try_except. set_unfold.
  by destruct He as [-> | [-> | [-> | [-> | []]]]].
Qed.

(** C1: [safe_extract] returns the default when the rule raises an error
    or returns [None] or the empty string, and the result of the rule
    verbatim otherwise; a rule that always raises an error yields the
    default, the error does not reach the caller. *)
Theorem safe_extract_spec (rule : str -> outcome value) (text : str)
  (default_value : value) :
  (forall e, rule text = Raise e -> is_error e ->
     safe_extract rule text default_value = Return default_value) /\
  (rule text = Return VNone ->
     safe_extract rule text default_value = Return default_value) /\
  (rule text = Return (VStr "") ->
     safe_extract rule text default_value = Return default_value) /\
  (forall v, rule text = Return v -> v <> VNone -> v <> VStr "" ->
     safe_extract rule text default_value = Return v) /\
  (forall e, is_error e ->
     safe_extract (fun _ => Raise e) text default_value = Return default_value).
Proof.
  repeat split.
  - intros e Hr He. by eapply safe_extract_raise.
  - intros Hr. by rewrite (safe_extract_return _ _ _ _ Hr).
  - intros Hr. by rewrite (safe_extract_return _ _ _ _ Hr).
  - intros v Hr Hn He. rewrite (safe_extract_return _ _ _ _ Hr).
    destruct v as [|s| | | |]; try done.
    simpl. destruct (str_eqb_spec s ""); [by subst | done].
  - intros e He. by eapply safe_extract_raise.
Qed.

Lemma safe_extract_spec_witness :
  let always_raises := fun _ : str =>
    @Raise value {| exc_cls := Subclass "ParseFailure" ValueError; exc_msg := "bad field" |} in
  safe_extract always_raises "PO text" (VStr "0") = Return (VStr "0")
  /\ safe_extract (fun _ => Return VNone) "PO text" (VStr "0") = Return (VStr "0")
  /\ safe_extract (fun _ => Return (VStr "")) "PO text" (VStr "0") = Return (VStr "0")
  /\ safe_extract (fun t => Return (VStr t)) "PO text" (VStr "0") = Return (VStr "PO text").
Proof.
  intros always_raises.
  pose proof (safe_extract_spec always_raises "PO text" (VStr "0")) as [H1 _].
  pose proof (safe_extract_spec (fun _ => Return VNone) "PO text" (VStr "0")) as (_ & H2 & _).
  pose proof (safe_extract_spec (fun _ => Return (VStr "")) "PO text" (VStr "0")) as (_ & _ & H3 & _).
  pose proof (safe_extract_spec (fun t => Return (VStr t)) "PO text" (VStr "0")) as (_ & _ & _ & H4 & _).
  split; [| split; [| split]].
  - eapply H1; [reflexivity | reflexivity].
  - apply H2. reflexivity.
  - apply H3. reflexivity.
  - apply H4; [reflexivity | discriminate | discriminate].
Defined.

(** ** Constant rules *)

(** C2: every constant field rule returns one fixed literal, whatever the
    two input texts are. *)
Theorem constant_rules_ignore_input :
  Forall (fun rule : str -> outcome value =>
            exists v, forall t1 t2 : str, rule t1 = Return v /\ rule t2 = Return v)
         constant_rules.
Proof. unfold constant_rules. repeat constructor; by eexists. Qed.

(** ** The structured-entity extractor *)

Lemma list_of_set_NoDup (l : list str) : NoDup (list_of_set l).
Proof. unfold list_of_set. apply NoDup_elements. Qed.

Lemma list_of_set_elem (l : list str) (x : str) : x ∈ list_of_set l <-> x ∈ l.
Proof. unfold list_of_set. by rewrite elem_of_elements, elem_of_list_to_set. Qed.

Lemma list_of_set_nil : list_of_set [] = [].
Proof. unfold list_of_set. simpl. apply elements_empty. Qed.

(** C3: for each of the four categories the extractor has an entry, whose
    values are pairwise distinct and are exactly the matches of the
    pattern of the category; with no match the entry is the empty list. *)
Theorem structured_data_distinct (text : str) :
  structured_patterns.*1 = ["emails"; "phone_numbers"; "urls"; "dates"] /\
  Forall (fun kp : str * regex =>
            exists vs : list str,
              dict_get (extract_structured_data text) kp.1 = Some vs /\
              NoDup vs /\
              (forall x, x ∈ vs <-> x ∈ re_findall kp.2 text IGNORECASE) /\
              (re_findall kp.2 text IGNORECASE = [] -> vs = []))
         structured_patterns.
Proof.
  split; [done |].
  unfold structured_patterns, extract_structured_data.
  repeat constructor; (eexists; split; [reflexivity |]);
    (split; [apply list_of_set_NoDup |]);
    (split; [intros x; apply list_of_set_elem |]);
    intros ->; apply list_of_set_nil.
Qed.

Lemma structured_data_distinct_witness :
  Forall (fun key => dict_get (extract_structured_data "no entities here") key = Some [])
         ["emails"; "phone_numbers"; "urls"; "dates"].
Proof.
  destruct (structured_data_distinct "no entities here") as [_ H].
  unfold structured_patterns in H.
  repeat match goal with
         | H : Forall _ (_ :: _) |- _ =>
             apply Forall_cons_1 in H as [(vs & ? & _ & _ & ?) H]
         end.
  repeat constructor;
    match goal with
    | E : dict_get _ ?k = Some ?vs, Z : _ -> ?vs = [] |- dict_get _ ?k = _ =>
        rewrite E, Z; [reflexivity | vm_compute; reflexivity]
    end.
Defined.

(** ** The sets of the patterns *)

Lemma existsb_app' {A} (f : A -> bool) (l1 l2 : list A) :
  existsb f (l1 ++ l2) = existsb f l1 || existsb f l2.
Proof. induction l1 as [|x l1 IH]; simpl; [done | by rewrite IH, orb_assoc]. Qed.

Lemma existsb_bind {A B} (f : B -> bool) (g : A -> list B) (l : list A) :
  existsb f (l ≫= g) = existsb (fun a => existsb f (g a)) l.
Proof.
  induction l as [|a l IH]; [done |].
  change ((a :: l) ≫= g) with (g a ++ (l ≫= g)). by rewrite existsb_app', IH.
Qed.

Lemma item_has_targets (ic : bool) (i : item) (x : char) :
  item_has ic i x =
  existsb (char_eqb x) (item_targets ic i)
  || match i with ICat k => in_category k x | _ => false end.
Proof.
  destruct i as [p|lo hi|k], ic; cbn [item_has item_targets range_has existsb orb];
    rewrite ?orb_false_r; try done.
  - by rewrite existsb_bind.
  - apply eq_iff_eq_true. by rewrite between_spec, mem_elem, char_range_elem.
Qed.

(** A set is its characters and its categories. *)
Lemma in_set_norm (ic negate : bool) (items : list item) (c : char) :
  in_set ic negate items c =
  let x := if ic && hascased items then tolower c else c in
  xorb negate (existsb (char_eqb x) (set_targets ic items)
               || existsb (fun k => in_category k x) (set_cats items)).
Proof.
  unfold in_set. cbv zeta. f_equal.
  generalize (if ic && hascased items then tolower c else c). intros x.
  unfold set_targets, set_cats.
  induction items as [|i items IH]; [done |].
  change ((i :: items) ≫= item_targets ic)
    with (item_targets ic i ++ (items ≫= item_targets ic)).
  cbn [existsb]. rewrite IH, item_has_targets, existsb_app'.
  generalize (existsb (char_eqb x) (item_targets ic i)).
  generalize (existsb (char_eqb x) (items ≫= item_targets ic)).
  intros b1 b2.
  destruct i as [p|lo hi|k]; cbn [omap list_omap existsb];
    generalize (existsb (fun k => in_category k x)
                  (omap (fun i => match i with ICat k => Some k | _ => None end) items));
    intros b3; try generalize (in_category k x); intros;
    repeat match goal with b : bool |- _ => destruct b end; done.
Qed.

(** Evaluating a closed term in the goal. *)
Ltac evaluate t :=
  let v := eval vm_compute in t in
  replace t with v by (vm_compute; reflexivity).

(** A character that satisfies a test on ranges and characters is one
    of a list. *)
Lemma between_elem (lo hi c : char) (l : list char) :
  forallb (fun x => existsb (char_eqb x) l) (char_range lo hi) = true ->
  between lo hi c = true -> c ∈ l.
Proof.
  intros H Hc. rewrite forallb_forall in H.
  apply mem_elem, H, list_elem_of_In, char_range_elem, between_spec, Hc.
Qed.

Lemma in_ranges_elem (rs : list (N * N)) (c : char) (l : list char) :
  forallb (fun x => existsb (char_eqb x) l) (points rs) = true ->
  in_ranges rs c = true -> c ∈ l.
Proof.
  intros H Hc. rewrite forallb_forall in H.
  by apply mem_elem, H, list_elem_of_In, in_ranges_points.
Qed.

Lemma char_eqb_elem (c x : char) (l : list char) :
  existsb (char_eqb x) l = true -> char_eqb c x = true -> c ∈ l.
Proof. intros H ->%char_eqb_eq. by apply mem_elem. Qed.

Lemma sublist_elem (c : char) (l' l : list char) :
  forallb (fun x => existsb (char_eqb x) l) l' = true ->
  existsb (char_eqb c) l' = true -> c ∈ l.
Proof.
  intros H Hc. rewrite forallb_forall in H.
  by apply mem_elem, H, list_elem_of_In, mem_elem.
Qed.

Ltac in_list :=
  lazymatch goal with
  | H : (_ || _) = true |- _ ∈ _ =>
      apply orb_true_iff in H as [H | H]; in_list
  | H : between ?lo ?hi ?c = true |- ?c ∈ ?l =>
      apply (between_elem lo hi c l); [vm_compute; reflexivity | exact H]
  | H : isspace ?c = true |- ?c ∈ ?l =>
      apply (in_ranges_elem space_ranges c l); [vm_compute; reflexivity | exact H]
  | H : char_eqb ?c ?x = true |- ?c ∈ ?l =>
      apply (char_eqb_elem c x l); [vm_compute; reflexivity | exact H]
  | H : existsb (char_eqb ?c) ?l' = true |- ?c ∈ ?l =>
      apply (sublist_elem c l' l); [vm_compute; reflexivity | exact H]
  end.

Lemma is_sep_elem (c : char) : is_sep c = true -> c ∈ sep_chars.
Proof. unfold is_sep. intros H. in_list. Qed.

Lemma in_set_sep (c : char) :
  in_set true false [ILit "."; ILit ":"; ICat Space] c = is_sep c.
Proof.
  rewrite in_set_norm.
  evaluate (hascased [ILit "."; ILit ":"; ICat Space]).
  evaluate (set_targets true [ILit "."; ILit ":"; ICat Space]).
  cbv zeta. cbn [andb xorb existsb set_cats omap list_omap in_category].
  unfold is_sep. by rewrite !orb_false_r.
Qed.

(** ** Letter case *)

(** On the ASCII characters of a pattern, IGNORECASE is [ic_char]. *)
Lemma lit_eq_ic_char (p c : char) :
  is_ascii p = true -> lit_eq true p c = ic_char p c.
Proof.
  intros Hp. unfold lit_eq, ic_char. cbn [andb].
  assert (H : forallb (fun p =>
                if iscased p
                then forallb (fun x => existsb (char_eqb x) (ic_variants p))
                       (folded p ≫= lower_preimage)
                     && forallb (fun x => existsb (char_eqb x) (folded p ≫= lower_preimage))
                          (ic_variants p)
                else forallb (fun x => char_eqb x p) (ic_variants p))
              (char_range 0%N 127%N) = true) by (vm_compute; reflexivity).
  rewrite forallb_forall in H.
  assert (Hin : List.In p (char_range 0%N 127%N)).
  { apply list_elem_of_In, char_range_elem. unfold is_ascii in Hp.
    apply N.ltb_lt in Hp. lia. }
  specialize (H p Hin). destruct (iscased p).
  - apply andb_true_iff in H as [H1 H2]. rewrite forallb_forall in H1, H2.
    rewrite tolower_mem. apply eq_iff_eq_true. rewrite !mem_elem. split.
    + intros Hc%list_elem_of_In%H1. by apply mem_elem.
    + intros Hc%list_elem_of_In%H2. by apply mem_elem.
  - rewrite forallb_forall in H. apply eq_iff_eq_true. rewrite mem_elem, char_eqb_eq. split.
    + intros ->. unfold ic_variants. by left.
    + intros Hc%list_elem_of_In%H. apply char_eqb_eq in Hc. done.
Qed.

(** ** Literal labels *)

Lemma skip_lits_sound (label : str) (p : option char) (s : str) (cur : cursor) :
  str_all is_ascii label = true ->
  skip_lits true label (Cursor p s) = Some cur ->
  exists lab, s = lab +:+ rest cur /\ ic_eq label lab = true /\
              prev cur = last_or p lab.
Proof.
  revert p s. induction label as [|c label IH]; intros p s Ha H; simpl in H.
  - injection H as <-. by exists "".
  - destruct s as [|x s]; [done |]. simpl in Ha. apply andb_true_iff in Ha as [Hc Ha].
    rewrite (lit_eq_ic_char _ _ Hc) in H. destruct (ic_char c x) eqn:E; [| done].
    destruct (IH _ _ Ha H) as (lab & -> & Hl & Hp).
    exists (Str x lab). simpl. by rewrite E, Hl.
Qed.

Lemma skip_lits_complete (label lab : str) (p : option char) (r : str) :
  str_all is_ascii label = true ->
  ic_eq label lab = true ->
  skip_lits true label (Cursor p (lab +:+ r)) = Some (Cursor (last_or p lab) r).
Proof.
  revert p lab. induction label as [|c label IH]; intros p [|x lab] Ha H; simpl in *; try done.
  apply andb_true_iff in Ha as [Hc Ha]. apply andb_true_iff in H as [Hx Hl].
  rewrite (lit_eq_ic_char _ _ Hc), Hx. by apply IH.
Qed.

Lemma ic_eq_length (label lab : str) : ic_eq label lab = true -> len lab = len label.
Proof.
  revert lab. induction label as [|c label IH]; intros [|x lab]; simpl; try done.
  intros [_ H]%andb_true_iff. by rewrite (IH _ H).
Qed.

(** ** Runs *)

Lemma runs_ext (ok ok' : char -> bool) (p : option char) (r : str) :
  (forall c, ok c = ok' c) -> runs ok p r = runs ok' p r.
Proof.
  intros H. revert p. induction r as [|c r IH]; intros p; simpl; [done |].
  by rewrite H, IH.
Qed.

Lemma skip_run_unique (ok : char -> bool) (p : option char) (a b : str) :
  str_all ok a = true -> starts_with ok b = false ->
  skip_run ok p (a +:+ b) = Cursor (last_or p a) b.
Proof.
  revert p. induction a as [|c a IH]; intros p Ha Hb; simpl in *.
  - destruct b as [|c b]; simpl in *; [done | by rewrite Hb].
  - apply andb_true_iff in Ha as [-> Ha]. by apply IH.
Qed.

(** A continuation that fails on every character of the class sees only
    the end of the maximal run. *)
Lemma bind_runs_disjoint (ok : char -> bool) (f : mstate -> list mstate)
  (p : option char) (r : str) (g : groups) :
  (forall p' r', starts_with ok r' = true -> f (Cursor p' r', g) = []) ->
  (with_groups g <$> runs ok p r) ≫= f = f (skip_run ok p r, g).
Proof.
  intros Hf. revert p. induction r as [|c r IH]; intros p; simpl.
  - by rewrite app_nil_r.
  - destruct (ok c) eqn:E; simpl.
    + rewrite fmap_app, bind_app, IH. simpl. unfold with_groups at 1.
      rewrite (Hf p (Str c r)) by (simpl; done). by rewrite !app_nil_r.
    + by rewrite app_nil_r.
Qed.

Lemma bind_one {A B} (f : A -> list B) (x : A) : [x] ≫= f = f x.
Proof. simpl. apply app_nil_r. Qed.

Lemma m_seq (ic : bool) (a b : regex) (st : mstate) :
  m ic (Seq a b) st = m ic a st ≫= m ic b.
Proof. done. Qed.

Lemma m_group (ic : bool) (n : nat) (r : regex) (st : mstate) :
  m ic (Group n r) st =
  (fun st' => (st'.1, (n, consumed (rest st.1) (rest st'.1)) :: st'.2)) <$> m ic r st.
Proof. done. Qed.

(** ** Patterns of the shape label, separators, group *)

Section Labelled.
Variables (label : str) (body : regex) (first : char -> bool).
Hypothesis label_ascii : str_all is_ascii label = true.

(** The group starts with a character of [first], which no separator is. *)
Hypothesis body_first : forall p r g,
  starts_with first r = false -> m true body (Cursor p r, g) = [].
Hypothesis first_not_sep : forall c, is_sep c = true -> first c = false.

Lemma m_labelled (p : option char) (s : str) (g : groups) :
  m true (labelled label body) (Cursor p s, g) =
  match skip_lits true label (Cursor p s) with
  | Some c1 =>
      let c2 := skip_run is_sep (prev c1) (rest c1) in
      (fun st' => (st'.1, (1, consumed (rest c2) (rest st'.1)) :: st'.2))
        <$> m true body (c2, g)
  | None => []
  end.
Proof.
  unfold labelled. rewrite m_seq, m_lits.
  destruct (skip_lits true label (Cursor p s)) as [[p1 r1]|]; [| done].
  rewrite bind_one, m_seq.
  unfold sep_set. rewrite m_star_set.
  rewrite (runs_ext _ is_sep) by apply in_set_sep.
  rewrite bind_runs_disjoint; [by rewrite m_group |].
  intros p' r' Hr'. rewrite m_group, body_first; [done |].
  destruct r' as [|c r']; [done |]. simpl in *. by apply first_not_sep.
Qed.
End Labelled.

(** ** [re.search]: the leftmost position with a match *)

Lemma search_from_None (ic : bool) (r : regex) (p : option char) (s : str) :
  search_from ic r p s = None <->
  forall pre suf, s = pre +:+ suf -> match_at ic r (Cursor (last_or p pre) suf) = None.
Proof.
  revert p. induction s as [|c s IH]; intros p; simpl.
  - destruct (match_at ic r (Cursor p "")) eqn:E; split; try done.
    + intros H. specialize (H "" "" eq_refl). simpl in H. congruence.
    + intros _ [|x pre] suf Hs; simpl in *; [by subst | done].
  - destruct (match_at ic r (Cursor p (Str c s))) eqn:E.
    + split; [done |]. intros H. specialize (H "" (Str c s) eq_refl).
      simpl in H. congruence.
    + rewrite IH. split.
      * intros H [|x pre] suf Hs; simpl in *; [by subst |].
        injection Hs as -> ->. by apply H.
      * intros H pre suf ->. by apply (H (Str c pre) suf).
Qed.

Lemma search_from_Some (ic : bool) (r : regex) (p : option char) (s : str)
  (mt : Match) :
  search_from ic r p s = Some mt <->
  exists pre suf,
    s = pre +:+ suf /\
    match_at ic r (Cursor (last_or p pre) suf) = Some mt /\
    forall pre' suf', s = pre' +:+ suf' -> len pre' < len pre ->
      match_at ic r (Cursor (last_or p pre') suf') = None.
Proof.
  revert p. induction s as [|c s IH]; intros p; simpl.
  - split.
    + destruct (match_at ic r (Cursor p "")) eqn:E; [| done].
      intros [= <-]. exists "", "". repeat split; [done |]. simpl. lia.
    + intros ([|x pre] & suf & Hs & Hm & _); simpl in *; [| done].
      subst suf. by rewrite Hm.
  - destruct (match_at ic r (Cursor p (Str c s))) eqn:E.
    + split.
      * intros [= <-]. exists "", (Str c s). repeat split; [done |]. simpl. lia.
      * intros ([|x pre] & suf & Hs & Hm & Hl); simpl in *.
        -- subst suf. congruence.
        -- specialize (Hl "" (Str c s) eq_refl). simpl in Hl.
           rewrite Hl in E by lia. done.
    + rewrite IH. split.
      * intros (pre & suf & -> & Hm & Hl). exists (Str c pre), suf.
        repeat split; [done |].
        intros [|x pre'] suf' Hs Hlen; simpl in *; [by subst |].
        injection Hs as -> Hs. apply Hl; [done | lia].
      * intros ([|x pre] & suf & Hs & Hm & Hl); simpl in *.
        -- subst suf. congruence.
        -- injection Hs as Hx Hs. subst x s. exists pre, suf. repeat split; [done |].
           intros pre' suf' Hs Hlen.
           apply (Hl (Str c pre') suf'); [simpl; by rewrite Hs | simpl; lia].
Qed.

Section LabelledSearch.
Variables (label : str) (body : regex) (first : char -> bool).
Hypothesis label_ascii : str_all is_ascii label = true.
Hypothesis body_first : forall p r g,
  starts_with first r = false -> m true body (Cursor p r, g) = [].
Hypothesis body_starts : forall p r g,
  starts_with first r = true -> m true body (Cursor p r, g) <> [].
Hypothesis first_not_sep : forall c, is_sep c = true -> first c = false.

(** A match at a position: the label, separators, and a first
    character of the group. *)
Lemma match_at_labelled_Some (p : option char) (s : str) :
  is_Some (match_at true (labelled label body) (Cursor p s)) <->
  exists lab seps c post,
    s = lab +:+ seps +:+ Str c post /\
    ic_eq label lab = true /\ str_all is_sep seps = true /\ first c = true.
Proof.
  unfold match_at.
  rewrite (m_labelled label body first body_first first_not_sep).
  split.
  - destruct (skip_lits true label (Cursor p s)) as [[p1 r1]|] eqn:E;
      [| by intros [? [=]]].
    intros Hm. apply (skip_lits_sound _ _ _ _ label_ascii) in E as (lab & -> & Hl & _).
    simpl in Hm. pose proof (skip_run_rest is_sep p1 r1) as Hr.
    destruct (skip_run is_sep p1 r1) as [p2 r2] eqn:E2. simpl in Hr.
    destruct (starts_with first r2) eqn:Hs.
    + destruct r2 as [|c post]; [done |]. simpl in Hs.
      exists lab, (span is_sep r1).1, c, post. repeat split; try done.
      * rewrite Hr. by rewrite span_app.
      * apply span_all.
    + rewrite body_first in Hm by done. by destruct Hm as [? [=]].
  - intros (lab & seps & c & post & -> & Hl & Hseps & Hc).
    rewrite (skip_lits_complete _ _ _ _ label_ascii Hl). simpl.
    rewrite skip_run_unique; [| done |].
    + pose proof (body_starts (last_or (last_or p lab) seps) (Str c post) [] Hc) as Hb.
      destruct (m true body _); [done | by eexists].
    + simpl. destruct (is_sep c) eqn:Es; [| done].
      by rewrite (first_not_sep _ Es) in Hc.
Qed.

Lemma search_labelled_None (text : str) :
  re_search (labelled label body) text true = None <->
  forall n, ~ labelled_at label first text n.
Proof.
  unfold re_search. rewrite search_from_None. split.
  - intros H n (pre & lab & seps & c & post & -> & _ & Hl & Hs & Hc).
    specialize (H pre _ eq_refl).
    assert (Hm : is_Some (match_at true (labelled label body)
                    (Cursor (last_or None pre) (lab +:+ seps +:+ Str c post))))
      by (apply match_at_labelled_Some; by exists lab, seps, c, post).
    rewrite H in Hm. by destruct Hm.
  - intros H pre suf ->.
    destruct (match_at true (labelled label body) _) eqn:E; [| done].
    assert (Hm : is_Some (match_at true (labelled label body)
                    (Cursor (last_or None pre) suf))) by (by rewrite E).
    apply match_at_labelled_Some in Hm as (lab & seps & c & post & -> & Hl & Hs & Hc).
    destruct (H (len pre)). by exists pre, lab, seps, c, post.
Qed.
End LabelledSearch.

Lemma str_drop_app (a b : str) : str_drop (len a) (a +:+ b) = b.
Proof. induction a as [|x a IH]; simpl; [by destruct b | done]. Qed.

Lemma labelled_at_ext (label : str) (cls cls' : char -> bool) (text : str) (n : nat) :
  (forall c, cls c = cls' c) -> labelled_at label cls text n -> labelled_at label cls' text n.
Proof.
  intros H (pre & lab & seps & c & post & ? & ? & ? & ? & Hc).
  exists pre, lab, seps, c, post. by rewrite <- H.
Qed.

Lemma ngroups_labelled (label : str) (body : regex) :
  (1 <=? ngroups (labelled label body)) = true.
Proof. apply Nat.leb_le. unfold labelled. simpl. lia. Qed.

(** ** A label followed by a run of one class: "label[.:\s]*([class]+)" *)

Section LabelledRun.
Variables (label : str) (negate : bool) (items : list item).
Hypothesis label_ascii : str_all is_ascii label = true.
Let ok := in_set true negate items.
Let pattern := labelled label (Plus (In negate items)).

Hypothesis ok_not_sep : forall c, is_sep c = true -> ok c = false.

Lemma plus_first (p : option char) (r : str) (g : groups) :
  starts_with ok r = false -> m true (Plus (In negate items)) (Cursor p r, g) = [].
Proof.
  intros H. rewrite m_plus_set. destruct r as [|c r]; [done |].
  simpl in H. fold ok. by rewrite H.
Qed.

Lemma plus_starts (p : option char) (r : str) (g : groups) :
  starts_with ok r = true -> m true (Plus (In negate items)) (Cursor p r, g) <> [].
Proof.
  intros H. rewrite m_plus_set. destruct r as [|c r]; [done |].
  simpl in H. fold ok. rewrite H.
  destruct (runs_head ok (Some c) r) as [tl ->]. done.
Qed.

Lemma search_run_None (text : str) :
  re_search pattern text true = None <-> forall n, ~ labelled_at label ok text n.
Proof.
  apply search_labelled_None; [exact label_ascii | apply plus_first | apply plus_starts | apply ok_not_sep].
Qed.

(** At a position that holds the label, separators and a maximal run
    of the class, the match captures the run. *)
Lemma match_at_run (p : option char) (lab seps run post : str) :
  ic_eq label lab = true -> str_all is_sep seps = true ->
  run <> "" -> str_all ok run = true -> starts_with ok post = false ->
  exists mt,
    match_at true pattern (Cursor p (lab +:+ seps +:+ run +:+ post)) = Some mt /\
    m_pattern mt = pattern /\ m_groups mt = [(1, run)].
Proof.
  intros Hl Hs Hne Hrun Hpost.
  destruct run as [|c run]; [done |]. simpl in Hrun.
  apply andb_true_iff in Hrun as [Hc Hrun].
  unfold match_at, pattern.
  rewrite (m_labelled label _ ok plus_first ok_not_sep).
  rewrite (skip_lits_complete _ _ _ _ label_ascii Hl). simpl prev. simpl rest.
  rewrite skip_run_unique; [| done |]; cycle 1.
  { simpl. destruct (is_sep c) eqn:E; [| done]. by rewrite (ok_not_sep _ E) in Hc. }
  cbv zeta. simpl str_app. rewrite m_plus_set. fold ok. rewrite Hc.
  destruct (runs_head ok (Some c) (run +:+ post)) as [tl Htl].
  rewrite Htl, skip_run_unique by done. simpl.
  eexists. split; [reflexivity |]. split; [done |]. simpl.
  change (Str c (run +:+ post)) with (Str c run +:+ post).
  by rewrite consumed_app.
Qed.

Lemma search_run_first (text pre lab seps run post : str) :
  text = pre +:+ lab +:+ seps +:+ run +:+ post ->
  ic_eq label lab = true -> str_all is_sep seps = true ->
  run <> "" -> str_all ok run = true -> starts_with ok post = false ->
  (forall n, n < len pre -> ~ labelled_at label ok text n) ->
  exists mt,
    re_search pattern text true = Some mt /\
    m_pattern mt = pattern /\ m_groups mt = [(1, run)].
Proof.
  intros -> Hl Hs Hne Hrun Hpost Hfirst.
  destruct (match_at_run (last_or None pre) lab seps run post) as (mt & Hm & Hp & Hg);
    try done.
  exists mt. split; [| done].
  unfold re_search. apply search_from_Some.
  exists pre, (lab +:+ seps +:+ run +:+ post). repeat split; [done |].
  intros pre' suf' Hsplit Hlen.
  destruct (match_at true pattern (Cursor (last_or None pre') suf')) eqn:E; [| done].
  assert (Hm' : is_Some (match_at true pattern (Cursor (last_or None pre') suf')))
    by (by rewrite E).
  apply (match_at_labelled_Some label _ ok label_ascii plus_first plus_starts ok_not_sep) in Hm'
    as (lab' & seps' & c' & post' & -> & ? & ? & ?).
  destruct (Hfirst (len pre') Hlen).
  by exists pre', lab', seps', c', post'.
Qed.

(** The rule built on such a pattern. *)
Lemma run_rule_absent (text : str) :
  (forall n, ~ labelled_at label ok text n) ->
  stripped_group1 (re_search pattern text true) = Return VNone.
Proof. intros H. apply search_run_None in H. by rewrite H. Qed.

Lemma run_rule_first (text pre lab seps run post : str) :
  text = pre +:+ lab +:+ seps +:+ run +:+ post ->
  ic_eq label lab = true -> str_all is_sep seps = true ->
  run <> "" -> str_all ok run = true -> starts_with ok post = false ->
  (forall n, n < len pre -> ~ labelled_at label ok text n) ->
  stripped_group1 (re_search pattern text true) = Return (VStr (strip run)).
Proof.
  intros Ht Hl Hs Hne Hrun Hpost Hfirst.
  destruct (search_run_first text pre lab seps run post) as (mt & -> & Hp & Hg);
    try done.
  unfold stripped_group1, group. rewrite Hp, Hg. unfold pattern.
  rewrite ngroups_labelled. reflexivity.
Qed.

(** Deciding [labelled_at] on a given text. *)
Lemma labelled_at_match (text : str) (n : nat) :
  labelled_at label ok text n ->
  is_Some (match_at true pattern (Cursor None (str_drop n text))).
Proof.
  intros (pre & lab & seps & c & post & -> & <- & ? & ? & ?).
  rewrite str_drop_app.
  apply (match_at_labelled_Some label _ ok label_ascii plus_first plus_starts ok_not_sep).
  by exists lab, seps, c, post.
Qed.
End LabelledRun.

Lemma str_all_ext (f g : char -> bool) (s : str) :
  (forall c, f c = g c) -> str_all f s = str_all g s.
Proof. intros H. induction s as [|c s IH]; simpl; [done | by rewrite H, IH]. Qed.

Lemma starts_with_ext (f g : char -> bool) (s : str) :
  (forall c, f c = g c) -> starts_with f s = starts_with g s.
Proof. intros H. destruct s; simpl; [done | apply H]. Qed.

(** ** The classes of the patterns *)

(** A set of literals and ranges under IGNORECASE holds the characters
    whose lower-case form is one of its targets. *)
Lemma cased_set_spec (items : list item) (cls : char -> bool) (l : list char) :
  hascased items = true -> set_cats items = [] ->
  set_targets true items ≫= lower_preimage = l ->
  (forall c, cls c = true -> c ∈ l) -> forallb cls l = true ->
  forall c, in_set true false items c = cls c.
Proof.
  intros Hc Hk <- Hcls Hl c. rewrite in_set_norm, Hc, Hk. cbv zeta.
  cbn [andb xorb existsb]. rewrite orb_false_r, tolower_mem.
  apply eq_iff_eq_true. rewrite mem_elem. split; [| apply Hcls].
  intros H. rewrite forallb_forall in Hl. by apply Hl, list_elem_of_In.
Qed.

(** A fact about the separators, checked on each of them. *)
Ltac by_seps :=
  let c := fresh in
  let H := fresh in
  intros c H; apply negb_true_iff; revert c H;
  lazymatch goal with
  | |- forall c, is_sep c = true -> negb (@?g c) = true =>
      apply (finite_impl is_sep (fun c => negb (g c)) sep_chars is_sep_elem)
  end;
  vm_compute; reflexivity.

Lemma ic_alnum_elem (c : char) (l : list char) :
  forallb (fun x => existsb (char_eqb x) l)
    (char_range "A" "Z" ++ char_range "a" "z" ++ ic_letter_extras ++ char_range "0" "9") = true ->
  ic_alnum c = true -> c ∈ l.
Proof.
  intros Hl H. rewrite forallb_forall in Hl. apply mem_elem, Hl, list_elem_of_In.
  rewrite !elem_of_app, !char_range_elem, <- !between_spec, <- mem_elem.
  unfold ic_alnum, ic_alpha in H.
  apply orb_true_iff in H as [H | H];
    [apply orb_true_iff in H as [H | H]; [apply orb_true_iff in H as [H | H] |] |]; tauto.
Qed.

Lemma in_set_alnum (c : char) :
  in_set true false [IRange "A" "Z"; IRange "0" "9"] c = ic_alnum c.
Proof.
  revert c. eapply cased_set_spec;
    [vm_compute; reflexivity | reflexivity | vm_compute; reflexivity | |
     vm_compute; reflexivity].
  intros c. apply ic_alnum_elem. vm_compute. reflexivity.
Qed.

Lemma in_set_digit (c : char) : in_set true false [ICat Digit] c = isdecimal c.
Proof.
  rewrite in_set_norm. evaluate (hascased [ICat Digit]). cbv zeta.
  cbn [andb xorb existsb set_targets set_cats mbind list_bind omap list_omap
         item_targets app in_category].
  by rewrite orb_false_r.
Qed.

Lemma alnum_not_sep (c : char) : is_sep c = true -> ic_alnum c = false.
Proof. revert c. by_seps. Qed.

Lemma digit_not_sep (c : char) : is_sep c = true -> isdecimal c = false.
Proof. revert c. by_seps. Qed.

(** ** The purchase-order number *)

Lemma po_number_absent (text : str) :
  (forall n, ~ labelled_at "PURCHASE ORDER NO" ic_alnum text n) ->
  extract_po_number text = Return VNone.
Proof.
  intros H. apply run_rule_absent.
  - reflexivity.
  - intros c Hc. rewrite in_set_alnum. by apply alnum_not_sep.
  - intros n Hn. apply (H n). eapply labelled_at_ext; [| exact Hn]. apply in_set_alnum.
Qed.

Lemma po_number_first (text pre lab seps run post : str) :
  text = pre +:+ lab +:+ seps +:+ run +:+ post ->
  ic_eq "PURCHASE ORDER NO" lab = true -> str_all is_sep seps = true ->
  run <> "" -> str_all ic_alnum run = true ->
  starts_with ic_alnum post = false ->
  (forall n, n < len pre ->
     ~ labelled_at "PURCHASE ORDER NO" ic_alnum text n) ->
  extract_po_number text = Return (VStr (strip run)).
Proof.
  intros Ht Hl Hs Hne Hrun Hpost Hfirst.
  eapply run_rule_first; try eassumption.
  - reflexivity.
  - intros c Hc. rewrite in_set_alnum. by apply alnum_not_sep.
  - by rewrite (str_all_ext _ _ _ in_set_alnum).
  - by rewrite (starts_with_ext _ _ _ in_set_alnum).
  - intros n Hn Hat. apply (Hfirst n Hn).
    eapply labelled_at_ext; [| exact Hat]. apply in_set_alnum.
Qed.

(** C4, as amended: the rule returns the trimmed run of letters and
    digits that follows the first occurrence of the label, in any letter
    case as re.IGNORECASE takes it (U+017F for the S),
    and optional separators, and [None] when the label is nowhere
    followed by such a run; the letters and digits are the characters of
    [A-Z0-9] under re.IGNORECASE: the ASCII letters and digits and
    U+0130, U+0131, U+017F and U+212A.  A text whose first such
    occurrence is "PURCHASE ORDER NO: PO12345", not continued by a
    letter or digit, gives "PO12345". *)
Theorem extract_po_number_spec (text : str) :
  (forall pre lab seps run post,
     text = pre +:+ lab +:+ seps +:+ run +:+ post ->
     ic_eq "PURCHASE ORDER NO" lab = true -> str_all is_sep seps = true ->
     run <> "" -> str_all ic_alnum run = true ->
     starts_with ic_alnum post = false ->
     (forall n, n < len pre ->
        ~ labelled_at "PURCHASE ORDER NO" ic_alnum text n) ->
     extract_po_number text = Return (VStr (strip run))) /\
  ((forall n, ~ labelled_at "PURCHASE ORDER NO" ic_alnum text n) ->
   extract_po_number text = Return VNone) /\
  (forall pre post,
     text = pre +:+ "PURCHASE ORDER NO: PO12345" +:+ post ->
     starts_with ic_alnum post = false ->
     (forall n, n < len pre ->
        ~ labelled_at "PURCHASE ORDER NO" ic_alnum text n) ->
     extract_po_number text = Return (VStr "PO12345")).
Proof.
  split; [| split].
  - intros pre lab seps run post. apply po_number_first.
  - apply po_number_absent.
  - intros pre post Ht Hpost Hfirst.
    apply (po_number_first text pre "PURCHASE ORDER NO" ": " "PO12345" post); done.
Qed.

(** Two texts that hold "PURCHASE ORDER NO: PO12345" and give another
    value: the run goes on with a digit, or an earlier label comes first. *)
Lemma extract_po_number_counterexample :
  ("PURCHASE ORDER NO: PO123456" = "" +:+ "PURCHASE ORDER NO: PO12345" +:+ "6" /\
   extract_po_number "PURCHASE ORDER NO: PO123456" = Return (VStr "PO123456") /\
   extract_po_number "PURCHASE ORDER NO: PO123456" <> Return (VStr "PO12345")) /\
  ("PURCHASE ORDER NO: A1 PURCHASE ORDER NO: PO12345"
     = "PURCHASE ORDER NO: A1 " +:+ "PURCHASE ORDER NO: PO12345" +:+ "" /\
   extract_po_number "PURCHASE ORDER NO: A1 PURCHASE ORDER NO: PO12345" = Return (VStr "A1") /\
   extract_po_number "PURCHASE ORDER NO: A1 PURCHASE ORDER NO: PO12345"
     <> Return (VStr "PO12345")).
Proof.
  split; (split; [reflexivity |]; split; [vm_compute; reflexivity | vm_compute; discriminate]).
Qed.

Lemma po_labelled_at_match (text : str) (n : nat) :
  labelled_at "PURCHASE ORDER NO" ic_alnum text n ->
  is_Some (match_at true po_number_re (Cursor None (str_drop n text))).
Proof.
  intros H. apply (labelled_at_match "PURCHASE ORDER NO" false [IRange "A" "Z"; IRange "0" "9"] eq_refl).
  - intros c Hc. rewrite in_set_alnum. by apply alnum_not_sep.
  - eapply labelled_at_ext; [| exact H]. intros c. symmetry. apply in_set_alnum.
Qed.

Lemma extract_po_number_spec_witness :
  extract_po_number "Ref: PURCHASE ORDER NO: PO12345 dated" = Return (VStr "PO12345")
  /\ extract_po_number "Ref: PO12345" = Return VNone.
Proof.
  split.
  - apply (proj2 (proj2 (extract_po_number_spec _)) "Ref: " " dated");
      [reflexivity | reflexivity |].
    intros n Hn Hat. apply po_labelled_at_match in Hat. simpl in Hn.
    do 5 (destruct n as [|n]; [vm_compute in Hat; by destruct Hat as [? [=]] |]).
    lia.
  - apply (proj1 (proj2 (extract_po_number_spec _))).
    intros n Hat. apply po_labelled_at_match in Hat.
    do 13 (destruct n as [|n]; [vm_compute in Hat; by destruct Hat as [? [=]] |]).
    vm_compute in Hat. by destruct Hat as [? [=]].
Defined.

(** ** No rule raises anything but an error *)

Lemma bind_safe {A B} (o : outcome A) (f : A -> outcome B) :
  rule_safe o -> (forall a, rule_safe (f a)) -> rule_safe (o ≫= f).
Proof. destruct o; simpl; [intros _ H; apply H | done]. Qed.

Lemma try_except_safe {A} (body : outcome A) (classes : list exc_class)
  (handler : exc -> outcome A) :
  rule_safe body -> (forall e, rule_safe (handler e)) ->
  rule_safe (try_except body classes handler).
Proof.
  destruct body as [a|e]; simpl; [done |]. intros He Hh.
  destruct (existsb _ _); [apply Hh | done].
Qed.

Lemma group_safe (mt : Match) (n : nat) : rule_safe (group mt n).
Proof. unfold group. destruct n; [done |]. by destruct (_ <=? _). Qed.

Lemma value_strip_safe (v : value) : rule_safe (value_strip v).
Proof. by destruct v. Qed.

Lemma value_remove_char_safe (v : value) (c : char) : rule_safe (value_remove_char v c).
Proof. by destruct v. Qed.

Lemma float_of_str_safe (s : str) : rule_safe (float_of_str s).
Proof.
  unfold float_of_str. destruct (split_point s) as [a b].
  destruct (a +:+ default "" b); [done |]. by destruct (digits_to_Z _ _).
Qed.

Lemma stripped_group1_safe (found : option Match) : rule_safe (stripped_group1 found).
Proof.
  destruct found; [| done]. apply bind_safe; [apply group_safe | apply value_strip_safe].
Qed.

Lemma whole_match_safe (found : option Match) : rule_safe (whole_match found).
Proof. destruct found; [apply group_safe | done]. Qed.

Lemma extract_date_safe (text date_type : str) : rule_safe (extract_date text date_type).
Proof.
  unfold extract_date. destruct (dict_get _ _); [apply stripped_group1_safe | done].
Qed.

Lemma first_supplier_match_safe (patterns : list regex) (text : str) :
  rule_safe (first_supplier_match patterns text).
Proof.
  induction patterns as [|pattern patterns IH]; cbn [first_supplier_match]; [done |].
  destruct (re_search _ _ _); [| done].
  destruct (lastindex _); [| done].
  apply bind_safe; [apply group_safe | apply value_strip_safe].
Qed.

Lemma extract_supplier_phone_safe (text : str) : rule_safe (extract_supplier_phone text).
Proof.
  unfold extract_supplier_phone. destruct (re_search _ _ _); [| done].
  apply bind_safe; [apply group_safe | done].
Qed.

Lemma extract_total_amount_safe (text : str) : rule_safe (extract_total_amount text).
Proof.
  unfold extract_total_amount. destruct (re_search _ _ _); [| done].
  apply try_except_safe; [| done].
  apply bind_safe; [apply group_safe |]. intros g.
  apply bind_safe; [apply value_remove_char_safe |]. intros s.
  apply bind_safe; [apply float_of_str_safe | done].
Qed.

Lemma safe_extract_total (rule : str -> outcome value) (text : str)
  (default_value : value) :
  rule_safe (rule text) ->
  safe_extract rule text default_value = Return (safe_result (rule text) default_value).
Proof.
  destruct (rule text) as [v|e] eqn:E; simpl; intros H.
  - by rewrite (safe_extract_return _ _ _ _ E).
  - by rewrite (safe_extract_raise _ _ _ _ E H).
Qed.

Ltac solve_safe :=
  first [ apply stripped_group1_safe | apply whole_match_safe
        | apply extract_date_safe | apply first_supplier_match_safe
        | apply extract_supplier_phone_safe | apply extract_total_amount_safe
        | exact I ].

(** [parse_purchase_order_data] always returns a record; two of its fields. *)
Lemma parse_purchase_order_data_fields (text filename : str) :
  exists r,
    parse_purchase_order_data text filename = Return r /\
    total_pages (metadata r) =
      (if contains_char FF_char text then length (split_char FF_char text) else 1) /\
    revision_number (order_details r) =
      safe_result (extract_revision_number text) (VStr "0").
Proof.
  unfold parse_purchase_order_data.
  rewrite !safe_extract_total by solve_safe.
  cbn [mbind outcome_bind mret outcome_ret].
  eexists. split; [reflexivity |]. split; reflexivity.
Qed.

(** ** The revision number *)

Lemma revision_number_absent (text : str) :
  (forall n, ~ labelled_at "Revision No" isdecimal text n) ->
  extract_revision_number text = Return VNone.
Proof.
  intros H. apply run_rule_absent.
  - reflexivity.
  - intros c Hc. rewrite in_set_digit. by apply digit_not_sep.
  - intros n Hn. apply (H n). eapply labelled_at_ext; [| exact Hn]. apply in_set_digit.
Qed.

Lemma revision_labelled_at_match (text : str) (n : nat) :
  labelled_at "Revision No" isdecimal text n ->
  is_Some (match_at true revision_number_re (Cursor None (str_drop n text))).
Proof.
  intros H. apply (labelled_at_match "Revision No" false [ICat Digit] eq_refl).
  - intros c Hc. rewrite in_set_digit. by apply digit_not_sep.
  - eapply labelled_at_ext; [| exact H]. intros c. symmetry. apply in_set_digit.
Qed.

(** C7: when the text nowhere holds the label "Revision No", in any
    letter case as re.IGNORECASE takes it (U+017F for the s, U+0130 and
    U+0131 for an i), followed, after optional separators, by a decimal
    digit, the revision_number field of the assembled record is the
    default "0". *)
Theorem revision_number_default (text filename : str) :
  (forall n, ~ labelled_at "Revision No" isdecimal text n) ->
  exists r,
    parse_purchase_order_data text filename = Return r /\
    revision_number (order_details r) = VStr "0".
Proof.
  intros H.
  destruct (parse_purchase_order_data_fields text filename) as (r & Hr & _ & Hrev).
  exists r. split; [done |].
  by rewrite Hrev, (revision_number_absent text H).
Qed.

Lemma revision_number_default_witness :
  exists r,
    parse_purchase_order_data "PO 7" "order.pdf" = Return r /\
    revision_number (order_details r) = VStr "0".
Proof.
  apply revision_number_default.
  intros n Hat. apply revision_labelled_at_match in Hat.
  do 4 (destruct n as [|n]; [vm_compute in Hat; by destruct Hat as [? [=]] |]).
  destruct n; vm_compute in Hat; by destruct Hat as [? [=]].
Defined.

(** ** The page count of the purchase-order path *)

Lemma contains_char_app (c : char) (a b : str) :
  contains_char c (a +:+ b) = contains_char c a || contains_char c b.
Proof. induction a as [|x a IH]; simpl; [done | by rewrite IH, orb_assoc]. Qed.

Lemma text_of_pages_no_form_feed (pages : list Page) (full_text : str) :
  Forall (fun page => exists t, extract_text page = Return t /\
                                contains_char FF_char (or_empty t) = false) pages ->
  contains_char FF_char full_text = false ->
  exists s, text_of_pages pages full_text = Return s /\ contains_char FF_char s = false.
Proof.
  intros H. revert full_text.
  induction H as [|page pages (t & Ht & Hff) _ IH]; intros full_text Hacc; simpl.
  - by exists full_text.
  - rewrite Ht. simpl. apply IH.
    rewrite !contains_char_app, Hacc, Hff. reflexivity.
Qed.

(** C10: a text without a form feed is reported as one page; the text
    the purchase-order path builds from the pages of a PDF holds no form
    feed unless a page text does, so that path reports one page however
    many pages the PDF has. *)
Theorem po_total_pages_one :
  (forall text filename,
     contains_char FF_char text = false ->
     exists r, parse_purchase_order_data text filename = Return r /\
               total_pages (metadata r) = 1) /\
  (forall pdf pages filename,
     pdfplumber_open pdf = Return pages ->
     Forall (fun page => exists t, extract_text page = Return t /\
                                   contains_char FF_char (or_empty t) = false) pages ->
     exists r, extract_purchase_order_data pdf filename = Return r /\
               total_pages (metadata r) = 1).
Proof.
  assert (H1 : forall text filename,
             contains_char FF_char text = false ->
             exists r, parse_purchase_order_data text filename = Return r /\
                       total_pages (metadata r) = 1).
  { intros text filename Hff.
    destruct (parse_purchase_order_data_fields text filename) as (r & Hr & Hp & _).
    exists r. split; [done |]. by rewrite Hp, Hff. }
  split; [exact H1 |].
  intros pdf pages filename Hopen Hpages.
  destruct (text_of_pages_no_form_feed pages "" Hpages eq_refl) as (s & Hs & Hff).
  unfold extract_purchase_order_data, extract_text_from_pdf.
  rewrite Hopen. simpl. rewrite Hs. simpl. by apply H1.
Qed.

Lemma po_total_pages_one_witness :
  let page t := {| extract_text := Return t; width := VInt 595; height := VInt 842 |} in
  let pdf := {| PdfReader := Return {| reader_metadata := None; reader_pages := 3 |};
                pdfplumber_open := Return [page (Some "PO Date: 14.AUG.2026");
                                           page None;
                                           page (Some "Total")] |} in
  exists r, extract_purchase_order_data pdf "order.pdf" = Return r /\
            total_pages (metadata r) = 1.
Proof.
  intros page pdf.
  apply (proj2 po_total_pages_one pdf _ "order.pdf" eq_refl).
  repeat constructor; eexists; (split; [reflexivity | vm_compute; reflexivity]).
Defined.

(** ** A label followed by a run of a class that may hold separators *)

Lemma head_bind {A B} (f : A -> list B) (l : list A) (y : B) (tl : list B) :
  l ≫= f = y :: tl -> exists x tl', x ∈ l /\ f x = y :: tl'.
Proof.
  induction l as [|x l IH]; simpl; [done |].
  destruct (f x) as [|y' tl'] eqn:E; simpl.
  - intros H. destruct (IH H) as (x' & tl'' & Hin & Hf).
    exists x', tl''. split; [by right | done].
  - intros [= -> _]. exists x, tl'. split; [by left | done].
Qed.

Lemma bind_nonempty {A B} (f : A -> list B) (l : list A) (x : A) :
  x ∈ l -> f x <> [] -> l ≫= f <> [].
Proof.
  intros Hin Hf. induction Hin as [x l|x x' l _ IH]; simpl.
  - destruct (f x); [by destruct Hf | discriminate].
  - destruct (f x'); [by apply IH | discriminate].
Qed.

Lemma elem_of_runs (ok : char -> bool) (p : option char) (r : str) (cur : cursor) :
  cur ∈ runs ok p r <->
  exists a, r = a +:+ rest cur /\ str_all ok a = true /\ prev cur = last_or p a.
Proof.
  revert p. induction r as [|c r IH]; intros p; simpl.
  - rewrite list_elem_of_singleton. split.
    + intros ->. by exists "".
    + intros ([|x a] & Hr & _ & Hp); [| done].
      destruct cur as [p' r']. simpl in *. by subst.
  - destruct (ok c) eqn:E.
    + rewrite elem_of_app, IH, list_elem_of_singleton. split.
      * intros [(a & -> & Ha & Hp) | ->].
        -- exists (Str c a). simpl. by rewrite E, Ha.
        -- by exists "".
      * intros ([|x a] & Hr & Ha & Hp); simpl in *.
        -- right. destruct cur as [p' r']. simpl in *. by subst.
        -- injection Hr as -> ->. apply andb_true_iff in Ha as [_ Ha].
           left. by exists a.
    + rewrite list_elem_of_singleton. split.
      * intros ->. by exists "".
      * intros ([|x a] & Hr & Ha & Hp); simpl in *.
        -- destruct cur as [p' r']. simpl in *. by subst.
        -- injection Hr as -> ->. by rewrite E in Ha.
Qed.

Lemma bind_nil_elem {A B} (f : A -> list B) (l : list A) (x : A) :
  l ≫= f = [] -> x ∈ l -> f x = [].
Proof.
  intros H Hin. induction Hin as [x l|x x' l _ IH]; simpl in H;
    apply app_eq_nil in H as [H1 H2]; [done | by apply IH].
Qed.

(** The first success after a greedy run: the longest prefix of the run
    after which the continuation succeeds. *)
Lemma runs_bind_head {B} (ok : char -> bool) (f : mstate -> list B)
  (p : option char) (r : str) (g : groups) (y : B) (tl : list B) :
  (with_groups g <$> runs ok p r) ≫= f = y :: tl ->
  exists a b tl',
    r = a +:+ b /\ str_all ok a = true /\
    f (Cursor (last_or p a) b, g) = y :: tl' /\
    (forall more rest_,
       b = more +:+ rest_ -> more <> "" -> str_all ok more = true ->
       f (Cursor (last_or p (a +:+ more)) rest_, g) = []).
Proof.
  revert p tl. induction r as [|c r IH]; intros p tl.
  - simpl. rewrite app_nil_r. intros H. exists "", "", tl. repeat split; try done.
    by intros [|x more] rest_ ?.
  - simpl. destruct (ok c) eqn:E.
    + rewrite fmap_app, bind_app.
      destruct ((with_groups g <$> runs ok (Some c) r) ≫= f) as [|y' tl'] eqn:E1.
      * simpl. rewrite app_nil_r. intros H. exists "", (Str c r), tl.
        repeat split; try done.
        intros [|x more] rest_ Hr Hne Hm; [done |].
        simpl in Hr. injection Hr as <- ->.
        simpl in Hm. apply andb_true_iff in Hm as [_ Hm].
        apply (bind_nil_elem _ _ _ E1). apply list_elem_of_fmap.
        exists (Cursor (last_or (Some c) more) rest_). split; [done |].
        apply elem_of_runs. by exists more.
      * simpl. intros [= -> _].
        destruct (IH (Some c) tl' E1) as (a & b & tl'' & -> & Ha & Hf & Hmax).
        exists (Str c a), b, tl''. simpl. rewrite E, Ha. by repeat split.
    + simpl. rewrite app_nil_r. intros H. exists "", (Str c r), tl.
      repeat split; try done.
      intros [|x more] rest_ Hr Hne Hm; [done |].
      simpl in Hr. injection Hr as <- ->. simpl in Hm. by rewrite E in Hm.
Qed.

(** Two ways of splitting a string. *)
Lemma str_app_split (a b a' b' : str) :
  a +:+ b = a' +:+ b' -> len a <= len a' ->
  exists more, a' = a +:+ more /\ b = more +:+ b'.
Proof.
  revert a'. induction a as [|x a IH]; intros a' H Hl; simpl in *.
  - by exists a'.
  - destruct a' as [|x' a']; simpl in *; [lia |].
    injection H as -> H. destruct (IH a' H ltac:(lia)) as (more & -> & ->).
    by exists more.
Qed.

Lemma str_app_inj_len (a b a' b' : str) :
  a +:+ b = a' +:+ b' -> len a = len a' -> a = a' /\ b = b'.
Proof.
  intros H Hl. destruct (str_app_split _ _ _ _ H ltac:(lia)) as (more & -> & ->).
  rewrite str_app_length in Hl. destruct more; simpl in *; [| lia].
  by rewrite str_app_nil_r.
Qed.

Lemma str_all_app (f : char -> bool) (a b : str) :
  str_all f (a +:+ b) = str_all f a && str_all f b.
Proof. induction a as [|c a IH]; simpl; [done | by rewrite IH, andb_assoc]. Qed.

(** ** What a labelled rule captures is determined by the text *)

Lemma first_capture_seps (cls : char -> bool) (seps run post seps' run' post' : str) :
  seps +:+ run +:+ post = seps' +:+ run' +:+ post' ->
  len seps <= len seps' ->
  str_all is_sep seps' = true -> run' <> "" -> str_all cls run' = true ->
  (forall more rest_,
     run +:+ post = more +:+ rest_ -> more <> "" -> str_all is_sep more = true ->
     starts_with cls rest_ = false) ->
  seps = seps' /\ run +:+ post = run' +:+ post'.
Proof.
  intros H Hlen Hs' Hne' Hr' Hmax.
  destruct (str_app_split _ _ _ _ H Hlen) as (more & -> & Hrest).
  destruct more as [|x more]; [by rewrite str_app_nil_r |].
  rewrite str_all_app in Hs'. apply andb_true_iff in Hs' as [_ Hmore].
  specialize (Hmax _ _ Hrest ltac:(done) Hmore).
  destruct run' as [|c run']; [done |]. simpl in Hr', Hmax.
  apply andb_true_iff in Hr' as [Hc _]. congruence.
Qed.

Lemma first_capture_at (label : str) (cls : char -> bool) (text run : str) :
  first_capture label cls text run ->
  exists pre lab seps post,
    text = pre +:+ lab +:+ seps +:+ run +:+ post /\
    labelled_at label cls text (len pre).
Proof.
  intros (pre & lab & seps & post & Ht & Hl & Hs & Hne & Hr & _).
  exists pre, lab, seps, post. split; [done |].
  destruct run as [|c run]; [done |]. simpl in Hr.
  apply andb_true_iff in Hr as [Hc _].
  by exists pre, lab, seps, c, (run +:+ post).
Qed.

Lemma first_capture_unique (label : str) (cls : char -> bool) (text run run' : str) :
  first_capture label cls text run -> first_capture label cls text run' ->
  run = run'.
Proof.
  intros H H'.
  destruct (first_capture_at _ _ _ _ H) as (pre0 & _ & _ & _ & _ & Hat0).
  destruct (first_capture_at _ _ _ _ H') as (pre0' & _ & _ & _ & _ & Hat0').
  destruct H as (pre & lab & seps & post & Ht & Hl & Hs & Hne & Hr & Hp & Hmax & Hfirst).
  destruct H' as (pre' & lab' & seps' & post' & Ht' & Hl' & Hs' & Hne' & Hr' & Hp' & Hmax' & Hfirst').
  assert (Hat : labelled_at label cls text (len pre)).
  { destruct run as [|c run]; [done |]. simpl in Hr.
    apply andb_true_iff in Hr as [Hc _].
    by exists pre, lab, seps, c, (run +:+ post). }
  assert (Hat' : labelled_at label cls text (len pre')).
  { destruct run' as [|c run']; [done |]. simpl in Hr'.
    apply andb_true_iff in Hr' as [Hc _].
    by exists pre', lab', seps', c, (run' +:+ post'). }
  assert (Hpre : len pre = len pre').
  { destruct (Nat.lt_trichotomy (len pre) (len pre')) as [Hlt | [Heq | Hlt]];
      [by destruct (Hfirst' _ Hlt) | done | by destruct (Hfirst _ Hlt)]. }
  rewrite Ht in Ht'.
  destruct (str_app_inj_len _ _ _ _ Ht' Hpre) as [_ E1].
  assert (Hlab : len lab = len lab')
    by (by rewrite (ic_eq_length _ _ Hl), (ic_eq_length _ _ Hl')).
  destruct (str_app_inj_len _ _ _ _ E1 Hlab) as [_ E2].
  assert (E3 : run +:+ post = run' +:+ post').
  { destruct (Nat.le_ge_cases (len seps) (len seps')) as [Hle | Hle].
    - by destruct (first_capture_seps cls _ _ _ _ _ _ E2 Hle Hs' Hne' Hr' Hmax).
    - symmetry in E2.
      by destruct (first_capture_seps cls _ _ _ _ _ _ E2 Hle Hs Hne Hr Hmax'). }
  pose proof (span_unique cls run post Hr Hp) as S1.
  pose proof (span_unique cls run' post' Hr' Hp') as S2.
  rewrite E3 in S1. congruence.
Qed.

Lemma first_capture_ext (label : str) (cls cls' : char -> bool) (text run : str) :
  (forall c, cls c = cls' c) ->
  first_capture label cls text run -> first_capture label cls' text run.
Proof.
  intros H (pre & lab & seps & post & ? & ? & ? & ? & Hrun & Hpost & Hmax & Hfirst).
  exists pre, lab, seps, post.
  rewrite <- (str_all_ext _ _ _ H), <- (starts_with_ext _ _ _ H).
  repeat split; try done.
  - intros more rest_ ? ? ?. rewrite <- (starts_with_ext _ _ _ H). by eapply Hmax.
  - intros n Hn Hat. apply (Hfirst n Hn). eapply labelled_at_ext; [| exact Hat].
    intros c. symmetry. apply H.
Qed.

Section LabelledAny.
Variables (label : str) (negate : bool) (items : list item).
Hypothesis label_ascii : str_all is_ascii label = true.
Let ok := in_set true negate items.
Let pattern := labelled label (Plus (In negate items)).

Lemma m_labelled_any (p : option char) (s : str) (g : groups) :
  m true pattern (Cursor p s, g) =
  match skip_lits true label (Cursor p s) with
  | Some c1 =>
      (with_groups g <$> runs is_sep (prev c1) (rest c1))
        ≫= m true (Group 1 (Plus (In negate items)))
  | None => []
  end.
Proof.
  unfold pattern, labelled. rewrite m_seq, m_lits.
  destruct (skip_lits true label (Cursor p s)) as [[p1 r1]|]; [| done].
  rewrite bind_one, m_seq. unfold sep_set. rewrite m_star_set.
  by rewrite (runs_ext _ is_sep) by apply in_set_sep.
Qed.

(** The first match of the group at a position: the maximal run. *)
Lemma m_group_plus_head (p : option char) (r : str) (g : groups)
  (st : mstate) (tl : list mstate) :
  m true (Group 1 (Plus (In negate items))) (Cursor p r, g) = st :: tl ->
  exists run post,
    r = run +:+ post /\ run <> "" /\ str_all ok run = true /\
    starts_with ok post = false /\
    rest st.1 = post /\ st.2 = (1, run) :: g.
Proof.
  rewrite m_group, m_plus_set. fold ok. simpl rest.
  destruct r as [|c r]; [done |]. destruct (ok c) eqn:E; [| done].
  destruct (runs_head ok (Some c) r) as [tl' ->]. simpl. intros [= <- _].
  exists (Str c (span ok r).1), (span ok r).2. simpl.
  rewrite skip_run_rest. repeat split.
  - by rewrite span_app.
  - done.
  - by rewrite E, span_all.
  - apply span_stop.
  - do 2 f_equal. rewrite <- (span_app ok r) at 1.
    change (Str c ((span ok r).1 +:+ (span ok r).2))
      with (Str c (span ok r).1 +:+ (span ok r).2).
    apply consumed_app.
Qed.

Lemma m_group_plus_nil (p : option char) (r : str) (g : groups) :
  m true (Group 1 (Plus (In negate items))) (Cursor p r, g) = [] ->
  starts_with ok r = false.
Proof.
  rewrite m_group, m_plus_set. fold ok. destruct r as [|c r]; [done |]. simpl.
  destruct (ok c); [| done]. by destruct (runs_head ok (Some c) r) as [tl ->].
Qed.

Lemma match_at_any_sound (p : option char) (s : str) (mt : Match) :
  match_at true pattern (Cursor p s) = Some mt ->
  exists lab seps run post,
    s = lab +:+ seps +:+ run +:+ post /\
    ic_eq label lab = true /\ str_all is_sep seps = true /\
    run <> "" /\ str_all ok run = true /\ starts_with ok post = false /\
    (forall more rest_,
       run +:+ post = more +:+ rest_ -> more <> "" -> str_all is_sep more = true ->
       starts_with ok rest_ = false) /\
    m_pattern mt = pattern /\ m_groups mt = [(1, run)].
Proof.
  unfold match_at. rewrite m_labelled_any.
  destruct (skip_lits true label (Cursor p s)) as [c1|] eqn:E1; [| done].
  apply (skip_lits_sound _ _ _ _ label_ascii) in E1 as (lab & -> & Hl & _).
  destruct (_ ≫= _) as [|st tl] eqn:E; [done |]. intros [= <-]. simpl.
  apply runs_bind_head in E as (seps & b & tl' & Hr1 & Hseps & Hm & Hmax).
  apply m_group_plus_head in Hm as (run & post & -> & ? & ? & ? & _ & Hg).
  exists lab, seps, run, post. rewrite Hr1. repeat split; try done.
  intros more rest_ Hr Hne Hmore. eapply m_group_plus_nil. by apply (Hmax more rest_).
Qed.

Lemma match_at_any_complete (p : option char) (lab seps post : str) (c : char) :
  ic_eq label lab = true -> str_all is_sep seps = true -> ok c = true ->
  is_Some (match_at true pattern (Cursor p (lab +:+ seps +:+ Str c post))).
Proof.
  intros Hl Hs Hc. unfold match_at. rewrite m_labelled_any.
  rewrite (skip_lits_complete _ _ _ _ label_ascii Hl). simpl prev. simpl rest.
  match goal with |- is_Some (match ?l with _ => _ end) =>
    assert (Hne : l <> []); [| by destruct l] end.
  apply (bind_nonempty _ _ (Cursor (last_or (last_or p lab) seps) (Str c post), [])).
  - apply list_elem_of_fmap. eexists. split; [reflexivity |].
    apply elem_of_runs. by exists seps.
  - rewrite m_group, m_plus_set. fold ok. rewrite Hc.
    destruct (runs_head ok (Some c) post) as [tl ->]. done.
Qed.

Lemma search_any_None (text : str) :
  re_search pattern text true = None <-> forall n, ~ labelled_at label ok text n.
Proof.
  unfold re_search. rewrite search_from_None. split.
  - intros H n (pre & lab & seps & c & post & -> & _ & Hl & Hs & Hc).
    specialize (H pre _ eq_refl).
    destruct (match_at_any_complete (last_or None pre) lab seps post c Hl Hs Hc) as [mt Hm].
    congruence.
  - intros H pre suf ->.
    destruct (match_at true pattern _) eqn:E; [| done].
    apply match_at_any_sound in E
      as (lab & seps & [|c run] & post & -> & Hl & Hs & Hne & Hrun & _); [done |].
    simpl in Hrun. apply andb_true_iff in Hrun as [Hc _].
    destruct (H (len pre)). by exists pre, lab, seps, c, (run +:+ post).
Qed.

Lemma search_any_Some (text : str) (mt : Match) :
  re_search pattern text true = Some mt ->
  exists run, first_capture label ok text run /\
              m_pattern mt = pattern /\ m_groups mt = [(1, run)].
Proof.
  unfold re_search. intros H.
  apply search_from_Some in H as (pre & suf & -> & Hm & Hfirst).
  apply match_at_any_sound in Hm
    as (lab & seps & run & post & -> & ? & ? & ? & ? & ? & ? & ? & ?).
  exists run. split; [| done]. exists pre, lab, seps, post. repeat split; try done.
  intros n Hn (pre' & lab' & seps' & c & post' & Heq & Hlen & Hl & Hs & Hc).
  specialize (Hfirst pre' _ Heq ltac:(lia)).
  destruct (match_at_any_complete (last_or None pre') lab' seps' post' c Hl Hs Hc)
    as [mt' Hmt'].
  congruence.
Qed.

Lemma any_rule_found (text : str) (mt : Match) :
  re_search pattern text true = Some mt ->
  exists run, first_capture label ok text run /\
              lastindex mt = Some 1 /\
              (g ← group mt 1; value_strip g) = Return (VStr (strip run)).
Proof.
  intros H. apply search_any_Some in H as (run & Hc & Hp & Hg).
  exists run. split; [done |]. unfold lastindex, group. rewrite Hp, Hg.
  unfold pattern. rewrite ngroups_labelled. by split.
Qed.
End LabelledAny.

(** ** A literal word *)

Lemma search_lits_None (word text : str) :
  str_all is_ascii word = true ->
  re_search (lits word) text true = None <-> ~ contains_ci word text.
Proof.
  intros Ha. unfold re_search. rewrite search_from_None. unfold match_at. split.
  - intros H (pre & w & post & -> & Hw). specialize (H pre _ eq_refl).
    by rewrite m_lits, (skip_lits_complete _ _ _ _ Ha Hw) in H.
  - intros H pre suf ->. rewrite m_lits.
    destruct (skip_lits true word _) as [c1|] eqn:E; [| done].
    apply (skip_lits_sound _ _ _ _ Ha) in E as (w & -> & Hw & _).
    destruct H. by exists pre, w, (rest c1).
Qed.

Lemma search_lits_groups (word text : str) (mt : Match) :
  re_search (lits word) text true = Some mt -> m_groups mt = [].
Proof.
  unfold re_search. intros H.
  apply search_from_Some in H as (pre & suf & _ & Hm & _).
  unfold match_at in Hm. rewrite m_lits in Hm.
  destruct (skip_lits true word _); [| done]. by injection Hm as <-.
Qed.

(** ** The supplier name *)

Lemma in_set_not_lf (c : char) : in_set true true [ILit LF_char] c = not_lf c.
Proof.
  rewrite in_set_norm. evaluate (hascased [ILit LF_char]).
  evaluate (set_targets true [ILit LF_char]). evaluate (set_cats [ILit LF_char]).
  cbv zeta. cbn [andb xorb existsb]. unfold not_lf. by rewrite !orb_false_r.
Qed.

Lemma name_absent (label text : str) :
  str_all is_ascii label = true ->
  (forall n, ~ labelled_at label not_lf text n) <->
  re_search (labelled label (Plus not_newline)) text IGNORECASE = None.
Proof.
  intros Ha. unfold not_newline, IGNORECASE. rewrite (search_any_None _ _ _ Ha). split.
  - intros H n Hn. apply (H n). eapply labelled_at_ext; [| exact Hn]. apply in_set_not_lf.
  - intros H n Hn. apply (H n). eapply labelled_at_ext; [| exact Hn].
    intros c. symmetry. apply in_set_not_lf.
Qed.

Lemma name_found (label text : str) :
  str_all is_ascii label = true ->
  (exists n, labelled_at label not_lf text n) ->
  exists mt run,
    re_search (labelled label (Plus not_newline)) text IGNORECASE = Some mt /\
    first_capture label not_lf text run /\
    lastindex mt = Some 1 /\
    (g ← group mt 1; value_strip g) = Return (VStr (strip run)).
Proof.
  intros Ha [n Hn].
  destruct (re_search (labelled label (Plus not_newline)) text IGNORECASE) as [mt|] eqn:E.
  - destruct (any_rule_found label true [ILit LF_char] Ha text mt E) as (run & Hc & Hl & Hg).
    exists mt, run. repeat split; try done.
    eapply first_capture_ext; [| exact Hc]. apply in_set_not_lf.
  - pose proof (proj2 (name_absent _ _ Ha) E) as E'. by destruct (E' n).
Qed.

(** C6: the three patterns are tried in order.  A text with the label
    "Supplier Name" (in any letter case, as re.IGNORECASE matches it)
    gives the trimmed capture after its first occurrence: after the
    longest run of separators that a character other than a line feed
    follows, the longest run of characters other than a line feed, which
    the text determines; failing that, a text with the label "Vendor
    Name" gives the trimmed capture after that one; failing both, a text
    that holds "VALVETECQ ENGINEERS" in any letter case gives that
    constant; otherwise the rule gives None. *)
Theorem extract_supplier_name_spec (text : str) :
  ((exists n, labelled_at "Supplier Name" not_lf text n) ->
   exists run, first_capture "Supplier Name" not_lf text run /\
               (forall run', first_capture "Supplier Name" not_lf text run' -> run' = run) /\
               extract_supplier_name text = Return (VStr (strip run))) /\
  ((forall n, ~ labelled_at "Supplier Name" not_lf text n) ->
   (exists n, labelled_at "Vendor Name" not_lf text n) ->
   exists run, first_capture "Vendor Name" not_lf text run /\
               (forall run', first_capture "Vendor Name" not_lf text run' -> run' = run) /\
               extract_supplier_name text = Return (VStr (strip run))) /\
  ((forall n, ~ labelled_at "Supplier Name" not_lf text n) ->
   (forall n, ~ labelled_at "Vendor Name" not_lf text n) ->
   contains_ci "VALVETECQ ENGINEERS" text ->
   extract_supplier_name text = Return (VStr "VALVETECQ ENGINEERS")) /\
  ((forall n, ~ labelled_at "Supplier Name" not_lf text n) ->
   (forall n, ~ labelled_at "Vendor Name" not_lf text n) ->
   ~ contains_ci "VALVETECQ ENGINEERS" text ->
   extract_supplier_name text = Return VNone).
Proof.
  assert (HaS : str_all is_ascii "Supplier Name" = true) by reflexivity.
  assert (HaV : str_all is_ascii "Vendor Name" = true) by reflexivity.
  assert (HaW : str_all is_ascii "VALVETECQ ENGINEERS" = true) by reflexivity.
  unfold extract_supplier_name.
  change supplier_name_re with (labelled "Supplier Name" (Plus not_newline)).
  change vendor_name_re with (labelled "Vendor Name" (Plus not_newline)).
  unfold valvetecq_re. cbn [first_supplier_match].
  repeat split.
  - intros HS. destruct (name_found _ _ HaS HS) as (mt & run & -> & Hc & -> & Hg).
    exists run. repeat split; [done | | done].
    intros run' Hc'. by apply (first_capture_unique _ _ _ _ _ Hc' Hc).
  - intros HS HV. apply (proj1 (name_absent _ _ HaS)) in HS. rewrite HS.
    destruct (name_found _ _ HaV HV) as (mt & run & -> & Hc & -> & Hg).
    exists run. repeat split; [done | | done].
    intros run' Hc'. by apply (first_capture_unique _ _ _ _ _ Hc' Hc).
  - intros HS HV HW.
    apply (proj1 (name_absent _ _ HaS)) in HS. apply (proj1 (name_absent _ _ HaV)) in HV.
    rewrite HS, HV.
    destruct (re_search (lits "VALVETECQ ENGINEERS") text IGNORECASE) as [mt|] eqn:E.
    + unfold lastindex. by rewrite (search_lits_groups _ _ _ E).
    + by apply (proj1 (search_lits_None _ _ HaW)) in E.
  - intros HS HV HW.
    apply (proj1 (name_absent _ _ HaS)) in HS. apply (proj1 (name_absent _ _ HaV)) in HV.
    rewrite HS, HV.
    apply (proj2 (search_lits_None _ _ HaW)) in HW. unfold IGNORECASE. by rewrite HW.
Qed.

Lemma extract_supplier_name_spec_witness :
  (exists run, first_capture "Supplier Name" not_lf "Supplier Name: ACME Valves" run /\
     (forall run', first_capture "Supplier Name" not_lf "Supplier Name: ACME Valves" run' ->
                   run' = run) /\
     extract_supplier_name "Supplier Name: ACME Valves" = Return (VStr (strip run)))
  /\ extract_supplier_name "sold by Valvetecq Engıneerſ" = Return (VStr "VALVETECQ ENGINEERS")
  /\ extract_supplier_name "sold by ACME" = Return VNone.
Proof.
  split; [| split].
  - apply (proj1 (extract_supplier_name_spec _)).
    exists 0, "", "Supplier Name", ": ", "A"%chr, "CME Valves". by repeat split.
  - apply (proj1 (proj2 (proj2 (extract_supplier_name_spec _)))).
    + apply (proj2 (name_absent "Supplier Name" _ eq_refl)). vm_compute. reflexivity.
    + apply (proj2 (name_absent "Vendor Name" _ eq_refl)). vm_compute. reflexivity.
    + exists "sold by ", "Valvetecq Engıneerſ", "". by split.
  - apply (proj2 (proj2 (proj2 (extract_supplier_name_spec _)))).
    + apply (proj2 (name_absent "Supplier Name" _ eq_refl)). vm_compute. reflexivity.
    + apply (proj2 (name_absent "Vendor Name" _ eq_refl)). vm_compute. reflexivity.
    + apply (proj1 (search_lits_None "VALVETECQ ENGINEERS" _ eq_refl)). vm_compute. reflexivity.
Defined.

(** ** The text of a generic extraction *)

Lemma read_pages_texts (pages : list Page) (ts : list (option str))
  (page_num : nat) (full_text : str) (result : Document) :
  extract_text <$> pages = Return <$> ts ->
  exists result',
    read_pages pages page_num full_text result =
      (result',
       Return (full_text +:+ str_concat ((fun t => or_empty t +:+ LF +:+ LF) <$> ts))) /\
    doc_error result' = doc_error result.
Proof.
  revert ts page_num full_text result.
  induction pages as [|page pages IH]; intros [|t ts] page_num full_text result H;
    simpl in H; try done.
  - exists result. simpl. by rewrite str_app_nil_r.
  - injection H as Ht Hts. cbn [read_pages]. rewrite Ht. cbv zeta.
    destruct (IH ts (S page_num) (full_text +:+ or_empty t +:+ LF +:+ LF)
                (append_page result
                   {| page_number := page_num; pd_text := or_empty t;
                      pd_width := width page; pd_height := height page |}) Hts)
      as (result' & -> & He).
    exists result'. split; [| done].
    unfold str_concat. cbn [fmap list_fmap foldr]. by rewrite !str_app_assoc.
Qed.

(** C9, as amended: when both libraries read the file, the file carries
    document information (the metadata PyPDF2 reports is not None) and
    the pages yield the texts t1..tn (a page without text counting as
    the empty string), the text field is the concatenation of the page
    texts, each followed by two newlines, with the whitespace at both
    ends stripped, and no error is recorded.  A file without document
    information, which both libraries read as well, gives the empty text
    and the error of the failed metadata step. *)
Theorem extract_pdf_data_text (pdf : Pdf) (reader : Reader)
  (pages : list Page) (ts : list (option str)) :
  PdfReader pdf = Return reader ->
  pdfplumber_open pdf = Return pages ->
  extract_text <$> pages = Return <$> ts ->
  exists d,
    extract_pdf_data pdf = Return d /\
    (is_Some (reader_metadata reader) ->
     doc_text d = strip (str_concat ((fun t => or_empty t +:+ LF +:+ LF) <$> ts)) /\
     doc_error d = None) /\
    (reader_metadata reader = None ->
     doc_text d = "" /\
     doc_error d = Some "'NoneType' object has no attribute 'get'").
Proof.
  intros Hreader Hopen Htexts.
  unfold extract_pdf_data, pdf_data_body, read_metadata.
  rewrite Hreader. destruct (reader_metadata reader) as [info|].
  - rewrite Hopen.
    match goal with |- context [read_pages pages 1 "" ?r] =>
      destruct (read_pages_texts pages ts 1 "" r Htexts) as (result' & -> & He)
    end.
    eexists. split; [reflexivity |]. split; [| done].
    intros _. split; [reflexivity | exact He].
  - eexists. split; [reflexivity |]. split; [by intros [? ?] |].
    intros _. by split.
Qed.

Lemma extract_pdf_data_text_witness :
  (exists d,
     extract_pdf_data
       {| PdfReader := Return {| reader_metadata := Some [("/Title", VStr "PO")];
                                 reader_pages := 2 |};
          pdfplumber_open :=
            Return [{| extract_text := Return (Some "x");
                       width := VInt 595; height := VInt 842 |};
                    {| extract_text := Return (Some "y ");
                       width := VInt 595; height := VInt 842 |}] |} = Return d /\
     doc_text d = "x" +:+ LF +:+ LF +:+ "y" /\ doc_error d = None) /\
  (exists d,
     extract_pdf_data
       {| PdfReader := Return {| reader_metadata := None; reader_pages := 1 |};
          pdfplumber_open :=
            Return [{| extract_text := Return (Some "x");
                       width := VInt 595; height := VInt 842 |}] |} = Return d /\
     doc_text d = "" /\
     doc_error d = Some "'NoneType' object has no attribute 'get'").
Proof.
  split.
  - destruct (extract_pdf_data_text
                {| PdfReader := Return {| reader_metadata := Some [("/Title", VStr "PO")];
                                          reader_pages := 2 |};
                   pdfplumber_open :=
                     Return [{| extract_text := Return (Some "x");
                                width := VInt 595; height := VInt 842 |};
                             {| extract_text := Return (Some "y ");
                                width := VInt 595; height := VInt 842 |}] |}
                _ _ [Some "x"; Some "y "] eq_refl eq_refl eq_refl)
      as (d & Hd & Hsome & _).
    exists d. split; [exact Hd |]. apply Hsome. by eexists.
  - destruct (extract_pdf_data_text
                {| PdfReader := Return {| reader_metadata := None; reader_pages := 1 |};
                   pdfplumber_open :=
                     Return [{| extract_text := Return (Some "x");
                                width := VInt 595; height := VInt 842 |}] |}
                _ _ [Some "x"] eq_refl eq_refl eq_refl)
      as (d & Hd & _ & Hnone).
    exists d. split; [exact Hd |]. by apply Hnone.
Defined.

(** Two pages with the texts "x" and "y ": the text field is neither the
    page texts joined by a newline nor the page texts joined by two. *)
Lemma extract_pdf_data_text_counterexample :
  let page t := {| extract_text := Return t; width := VInt 595; height := VInt 842 |} in
  let pdf := {| PdfReader := Return {| reader_metadata := Some [("/Title", VStr "PO")];
                                       reader_pages := 2 |};
                pdfplumber_open := Return [page (Some "x"); page (Some "y ")] |} in
  exists d, extract_pdf_data pdf = Return d /\
            doc_text d = "x" +:+ LF +:+ LF +:+ "y" /\
            doc_text d <> join LF ["x"; "y "] /\
            doc_text d <> join (LF +:+ LF) ["x"; "y "].
Proof.
  intros page pdf. eexists. split; [vm_compute; reflexivity |].
  split; [reflexivity |]. split; vm_compute; discriminate.
Qed.

(** ** The buyer contact *)

(** C8: the code at the failing input.  The capture starts on the line
    of the label and runs on through the newline into the next line. *)
Theorem extract_buyer_contact_spans_lines :
  extract_buyer_contact ("Buyer Contact: John" +:+ LF +:+ "Smith")
  = Return (VStr ("John" +:+ LF +:+ "Smith")).
Proof. vm_compute. reflexivity. Qed.

(** ** The total amount *)

Lemma in_set_amount (c : char) :
  in_set true false [ICat Digit; ILit ","] c = is_amount_char c.
Proof.
  rewrite in_set_norm. evaluate (hascased [ICat Digit; ILit ","%chr]).
  evaluate (set_targets true [ICat Digit; ILit ","%chr]).
  evaluate (set_cats [ICat Digit; ILit ","%chr]).
  cbv zeta. cbn [andb xorb existsb in_category]. unfold is_amount_char.
  rewrite !orb_false_r. apply orb_comm.
Qed.

Lemma lit_eq_point (c : char) : lit_eq true "." c = char_eqb c ".".
Proof. unfold lit_eq. by evaluate (iscased "."%chr). Qed.

Lemma amount_not_sep (c : char) : is_sep c = true -> is_amount_char c = false.
Proof. revert c. by_seps. Qed.

Lemma digit_is_amount (c : char) : isdecimal c = true -> is_amount_char c = true.
Proof. unfold is_amount_char. by intros ->. Qed.

Lemma m_opt_lit (x : char) (p : option char) (r : str) (g : groups) :
  m true (Opt (Lit x)) (Cursor p r, g) =
  match r with
  | Str c r' =>
      if lit_eq true x c
      then [(Cursor (Some c) r', g); (Cursor p r, g)]
      else [(Cursor p r, g)]
  | "" => [(Cursor p r, g)]
  end.
Proof.
  simpl. unfold step; simpl. destruct r as [|c r]; [done |].
  by destruct (lit_eq true x c).
Qed.

Lemma m_star_head (negate : bool) (items : list item) (p : option char)
  (r : str) (g : groups) :
  exists tl,
    m true (Star (In negate items)) (Cursor p r, g) =
    (skip_run (in_set true negate items) p r, g) :: tl.
Proof.
  rewrite m_star_set.
  destruct (runs_head (in_set true negate items) p r) as [tl ->]. by eexists.
Qed.

Lemma skip_run_ext (ok ok' : char -> bool) (p : option char) (r : str) :
  (forall c, ok c = ok' c) -> skip_run ok p r = skip_run ok' p r.
Proof.
  intros H. revert p. induction r as [|c r IH]; intros p; simpl; [done |].
  by rewrite H, IH.
Qed.

(** The first match of the group: the token of [amount_split]. *)
Lemma amount_body_head (p : option char) (r : str) (g : groups) :
  starts_with is_amount_char r = true ->
  exists st tl,
    m true amount_body (Cursor p r, g) = st :: tl /\
    rest st.1 = (amount_split r).2 /\ st.2 = g.
Proof.
  intros H. unfold amount_body, amount_set. rewrite m_seq, m_plus_set.
  destruct r as [|c r]; [done |]. simpl in H. rewrite in_set_amount, H.
  rewrite (runs_ext _ is_amount_char) by apply in_set_amount.
  destruct (runs_head is_amount_char (Some c) r) as [tl1 ->].
  pose proof (skip_run_rest is_amount_char (Some c) r) as Hr1.
  pose proof (span_stop is_amount_char r) as Hstop.
  unfold amount_split. simpl span. rewrite H.
  destruct (span is_amount_char r) as [a r1] eqn:Es. simpl in Hr1, Hstop.
  destruct (skip_run is_amount_char (Some c) r) as [p1 r1']. simpl in Hr1. subst r1'.
  rewrite fmap_cons, bind_cons. unfold with_groups at 1.
  rewrite m_seq, m_opt_lit. unfold digit_set.
  destruct r1 as [|x r2].
  - rewrite bind_one.
    destruct (m_star_head false [ICat Digit] p1 "" g) as [tl ->].
    simpl. by eexists _, _.
  - rewrite lit_eq_point. destruct (char_eqb x ".") eqn:Ex.
    + rewrite bind_cons.
      destruct (m_star_head false [ICat Digit] (Some x) r2 g) as [tl ->].
      rewrite (skip_run_ext _ isdecimal) by apply in_set_digit.
      pose proof (skip_run_rest isdecimal (Some x) r2) as Hr3.
      destruct (span isdecimal r2) as [d r3]. simpl in Hr3.
      eexists _, _. split; [reflexivity |]. by split.
    + rewrite bind_one.
      destruct (m_star_head false [ICat Digit] p1 (Str x r2) g) as [tl ->].
      rewrite (skip_run_ext _ isdecimal) by apply in_set_digit.
      simpl in Hstop. simpl skip_run.
      destruct (isdecimal x) eqn:Ed;
        [by rewrite (digit_is_amount _ Ed) in Hstop |].
      eexists _, _. split; [reflexivity |]. by split.
Qed.

Lemma amount_body_first (p : option char) (r : str) (g : groups) :
  starts_with is_amount_char r = false -> m true amount_body (Cursor p r, g) = [].
Proof.
  intros H. unfold amount_body, amount_set. rewrite m_seq, m_plus_set.
  destruct r as [|c r]; [done |]. simpl in H. by rewrite in_set_amount, H.
Qed.

Lemma amount_body_starts (p : option char) (r : str) (g : groups) :
  starts_with is_amount_char r = true -> m true amount_body (Cursor p r, g) <> [].
Proof.
  intros H. destruct (amount_body_head p r g H) as (st & tl & -> & _). done.
Qed.

Lemma amount_split_app (r : str) : (amount_split r).1 +:+ (amount_split r).2 = r.
Proof.
  unfold amount_split. pose proof (span_app is_amount_char r) as H.
  destruct (span is_amount_char r) as [a r1]. simpl in H.
  destruct r1 as [|c r2]; [done |].
  destruct (char_eqb_spec c "."); [| done]. subst c.
  pose proof (span_app isdecimal r2) as H2.
  destruct (span isdecimal r2) as [d r3]. simpl in *.
  rewrite str_app_assoc. simpl. by rewrite H2.
Qed.

(** What [amount_split] takes is a token. *)
Lemma amount_split_is_token (r : str) :
  starts_with is_amount_char r = true ->
  amount_token (amount_split r).1 (amount_split r).2.
Proof.
  intros H. unfold amount_split.
  pose proof (span_all is_amount_char r) as Hall.
  pose proof (span_stop is_amount_char r) as Hstop.
  assert (Hne : (span is_amount_char r).1 <> "").
  { destruct r as [|c r]; [done |]. simpl in *. rewrite H. by destruct (span _ r). }
  destruct (span is_amount_char r) as [a r1]. simpl in *.
  destruct r1 as [|c r2].
  - exists a. split; [done |]. split; [done |]. by left.
  - destruct (char_eqb c ".") eqn:Ec.
    + pose proof (span_all isdecimal r2) as Hd.
      pose proof (span_stop isdecimal r2) as Hs.
      destruct (span isdecimal r2) as [d r3]. simpl in *.
      exists a. split; [done |]. split; [done |]. right. by exists d.
    + exists a. split; [done |]. split; [done |]. left.
      split; [done |]. split; [done |].
      change (char_eqb "." c = false). by rewrite char_eqb_sym.
Qed.

Lemma amount_split_token (tok post : str) :
  amount_token tok post -> amount_split (tok +:+ post) = (tok, post).
Proof.
  intros (a & Hne & Ha & [(-> & Hp1 & Hp2) | (d & -> & Hd & Hp)]); unfold amount_split.
  - rewrite (span_unique _ _ _ Ha Hp1).
    destruct post as [|c post]; [done |].
    change (char_eqb "." c = false) in Hp2.
    rewrite char_eqb_sym in Hp2. by rewrite Hp2.
  - rewrite str_app_assoc. simpl.
    rewrite (span_unique is_amount_char a (Str "." (d +:+ post)) Ha eq_refl).
    simpl. by rewrite (span_unique _ _ _ Hd Hp).
Qed.

Lemma amount_token_starts (tok post : str) :
  amount_token tok post -> starts_with is_amount_char (tok +:+ post) = true.
Proof.
  intros ([|c a] & Hne & Ha & H); [done |]. simpl in Ha.
  apply andb_true_iff in Ha as [Hc _].
  by destruct H as [(-> & _) | (d & -> & _)].
Qed.

Lemma total_amount_re_labelled :
  total_amount_re = labelled "Total Extended Net Price" amount_body.
Proof. reflexivity. Qed.

Lemma match_at_amount (p : option char) (lab seps tok post : str) :
  ic_eq "Total Extended Net Price" lab = true -> str_all is_sep seps = true ->
  amount_token tok post ->
  exists mt,
    match_at true total_amount_re (Cursor p (lab +:+ seps +:+ tok +:+ post)) = Some mt /\
    m_pattern mt = total_amount_re /\ m_groups mt = [(1, tok)].
Proof.
  intros Hl Hs Htok. pose proof (amount_token_starts _ _ Htok) as Hstart.
  unfold match_at. rewrite total_amount_re_labelled.
  rewrite (m_labelled _ _ is_amount_char amount_body_first amount_not_sep).
  rewrite (skip_lits_complete "Total Extended Net Price" _ _ _ eq_refl Hl). simpl prev. simpl rest.
  rewrite skip_run_unique; [| done |]; cycle 1.
  { destruct (tok +:+ post) as [|c r]; [done |]. simpl in *.
    destruct (is_sep c) eqn:E; [| done]. by rewrite (amount_not_sep _ E) in Hstart. }
  cbv zeta. simpl rest.
  destruct (amount_body_head (last_or (last_or p lab) seps) (tok +:+ post) [] Hstart)
    as ([cur g] & tl & -> & Hrest & Hg).
  rewrite (amount_split_token _ _ Htok) in Hrest. simpl in Hrest, Hg. subst.
  rewrite fmap_cons. eexists. split; [reflexivity |]. split; [done |].
  simpl. by rewrite consumed_app.
Qed.

Lemma match_at_amount_groups (p : option char) (s : str) (mt : Match) :
  match_at true total_amount_re (Cursor p s) = Some mt ->
  m_pattern mt = total_amount_re /\ exists tok g, m_groups mt = (1, tok) :: g.
Proof.
  unfold match_at. rewrite total_amount_re_labelled.
  rewrite (m_labelled _ _ is_amount_char amount_body_first amount_not_sep).
  destruct (skip_lits true _ _) as [c1|]; [| done]. cbv zeta.
  destruct (m true amount_body _) as [|st tl]; [done |].
  rewrite fmap_cons. intros [= <-]. simpl. split; [done | by eexists _, _].
Qed.

(** Whatever the pattern captures is a token. *)
Lemma match_at_amount_token (p : option char) (s : str) (mt : Match) :
  match_at true total_amount_re (Cursor p s) = Some mt ->
  exists tok post, m_groups mt = [(1, tok)] /\ amount_token tok post.
Proof.
  unfold match_at. rewrite total_amount_re_labelled.
  rewrite (m_labelled _ _ is_amount_char amount_body_first amount_not_sep).
  destruct (skip_lits true _ _) as [c1|]; [| done]. cbv zeta.
  destruct (skip_run is_sep (prev c1) (rest c1)) as [p2 r2].
  destruct (starts_with is_amount_char r2) eqn:Hs;
    [| by rewrite (amount_body_first _ _ _ Hs)].
  destruct (amount_body_head p2 r2 [] Hs) as ([cur g] & tl & -> & Hrest & Hg).
  simpl in Hrest, Hg. subst g. rewrite fmap_cons. intros [= <-]. simpl.
  exists (amount_split r2).1, (amount_split r2).2.
  split; [| by apply amount_split_is_token].
  rewrite Hrest. rewrite <- (amount_split_app r2) at 1. by rewrite consumed_app.
Qed.

Lemma float_of_str_raise (s : str) (e : exc) :
  float_of_str s = Raise e -> exc_cls e = ValueError.
Proof.
  unfold float_of_str. destruct (split_point s) as [a b].
  destruct (a +:+ default "" b); [by intros [= <-] |].
  destruct (digits_to_Z _ _); [done | by intros [= <-]].
Qed.

(** The body of the rule, once the pattern has matched. *)
Lemma amount_rule (mt : Match) (tok : str) (g : groups) :
  m_pattern mt = total_amount_re -> m_groups mt = (1, tok) :: g ->
  try_except
    (g ← group mt 1; s ← value_remove_char g ","; f ← float_of_str s; mret (VFloat f))
    [ValueError] (fun _ => mret VNone)
  = Return (amount_value tok).
Proof.
  intros Hp Hg. unfold group. rewrite Hp, Hg.
  rewrite total_amount_re_labelled, ngroups_labelled.
  cbn [lookup_group Nat.eqb mbind outcome_bind mret outcome_ret value_remove_char].
  unfold amount_value.
  destruct (float_of_str (remove_char "," tok)) as [f|e] eqn:E; [done |].
  apply float_of_str_raise in E. unfold try_except. simpl. by rewrite E.
Qed.

Lemma total_amount_absent (text : str) :
  (forall n, ~ labelled_at "Total Extended Net Price" is_amount_char text n) ->
  extract_total_amount text = Return VNone.
Proof.
  intros H. unfold extract_total_amount, IGNORECASE.
  rewrite total_amount_re_labelled.
  apply (search_labelled_None "Total Extended Net Price" _ is_amount_char eq_refl amount_body_first amount_body_starts
           amount_not_sep) in H.
  by rewrite H.
Qed.

Lemma total_amount_first (text pre lab seps tok post : str) :
  text = pre +:+ lab +:+ seps +:+ tok +:+ post ->
  ic_eq "Total Extended Net Price" lab = true -> str_all is_sep seps = true ->
  amount_token tok post ->
  (forall n, n < len pre ->
     ~ labelled_at "Total Extended Net Price" is_amount_char text n) ->
  extract_total_amount text = Return (amount_value tok).
Proof.
  intros -> Hl Hs Htok Hfirst.
  destruct (match_at_amount (last_or None pre) lab seps tok post Hl Hs Htok)
    as (mt & Hm & Hp & Hg).
  assert (Hsearch : re_search total_amount_re
                      (pre +:+ lab +:+ seps +:+ tok +:+ post) IGNORECASE = Some mt).
  { unfold re_search. apply search_from_Some.
    exists pre, (lab +:+ seps +:+ tok +:+ post). repeat split; [done |].
    intros pre' suf' Hsplit Hlen.
    destruct (match_at IGNORECASE total_amount_re
                {| prev := last_or None pre'; rest := suf' |}) as [mt'|] eqn:E; [| done].
    assert (Hm' : is_Some (match_at true total_amount_re (Cursor (last_or None pre') suf')))
      by (exists mt'; exact E).
    rewrite total_amount_re_labelled in Hm'.
    apply (match_at_labelled_Some "Total Extended Net Price" _ is_amount_char eq_refl amount_body_first amount_body_starts
             amount_not_sep) in Hm' as (lab' & seps' & c' & post' & -> & ? & ? & ?).
    destruct (Hfirst (len pre') Hlen).
    by exists pre', lab', seps', c', post'. }
  unfold extract_total_amount. rewrite Hsearch. by eapply amount_rule.
Qed.

Lemma total_amount_returns (text : str) :
  extract_total_amount text = Return VNone \/
  exists tok post, amount_token tok post /\
                   extract_total_amount text = Return (amount_value tok).
Proof.
  unfold extract_total_amount.
  destruct (re_search total_amount_re text IGNORECASE) as [mt|] eqn:E; [| by left].
  unfold re_search in E. apply search_from_Some in E as (pre & suf & _ & Hm & _).
  pose proof (match_at_amount_groups _ _ _ Hm) as [Hp _].
  apply match_at_amount_token in Hm as (tok & post & Hg & Htok).
  right. exists tok, post. split; [done |]. by apply (amount_rule mt tok []).
Qed.

Lemma amount_labelled_at_match (text : str) (n : nat) :
  labelled_at "Total Extended Net Price" is_amount_char text n ->
  is_Some (match_at true total_amount_re (Cursor None (str_drop n text))).
Proof.
  intros (pre & lab & seps & c & post & -> & <- & ? & ? & ?).
  rewrite str_drop_app, total_amount_re_labelled.
  apply (match_at_labelled_Some "Total Extended Net Price" _ is_amount_char eq_refl amount_body_first amount_body_starts
           amount_not_sep).
  by exists lab, seps, c, post.
Qed.

(** After the commas are removed a token holds digits and at most one
    point: the strings [float_of_str] is defined for. *)
Lemma amount_token_chars (tok post : str) :
  amount_token tok post ->
  exists a, str_all isdecimal a = true /\
    (remove_char "," tok = a \/
     exists d, str_all isdecimal d = true /\ remove_char "," tok = a +:+ Str "." d).
Proof.
  assert (Hrm : forall a, str_all is_amount_char a = true ->
                          str_all isdecimal (remove_char "," a) = true).
  { induction a as [|c a IH]; simpl; [done |]. intros H.
    apply andb_true_iff in H as [Hc Ha]. unfold is_amount_char in Hc.
    destruct (char_eqb c ","); [by apply IH |].
    simpl. rewrite orb_false_r in Hc. by rewrite Hc, IH. }
  assert (Happ : forall a b, remove_char "," (a +:+ b) = remove_char "," a +:+ remove_char "," b).
  { induction a as [|c a IH]; intros b; simpl; [done |].
    rewrite IH. by destruct (char_eqb c ","). }
  assert (Hd : forall d, str_all isdecimal d = true -> remove_char "," d = d).
  { induction d as [|c d IH]; simpl; [done |]. intros H.
    apply andb_true_iff in H as [Hc Hd].
    destruct (char_eqb_spec c ","); [by subst |]. by rewrite IH. }
  intros (a & _ & Ha & [(-> & _) | (d & -> & Hdd & _)]).
  - exists (remove_char "," a). split; [by apply Hrm | by left].
  - exists (remove_char "," a). split; [by apply Hrm |]. right.
    exists d. split; [done |]. rewrite Happ. simpl. by rewrite (Hd d Hdd).
Qed.

(** C5, as amended: the rule takes the digits/commas/decimal token
    after the first occurrence of the label, in any letter case as
    re.IGNORECASE takes it (U+0130 and U+0131 for an i), and optional
    separators, strips the commas and parses a float, giving
    None when the token does not parse and when the label is nowhere
    followed by such a token; so it always returns, None or the value
    of a token, and never raises.  A text whose first such
    occurrence is "Total Extended Net Price: 16,484.50", not continued
    by a digit, gives the float 16484.5. *)
Theorem extract_total_amount_spec (text : str) :
  (forall pre lab seps tok post,
     text = pre +:+ lab +:+ seps +:+ tok +:+ post ->
     ic_eq "Total Extended Net Price" lab = true -> str_all is_sep seps = true ->
     amount_token tok post ->
     (forall n, n < len pre ->
        ~ labelled_at "Total Extended Net Price" is_amount_char text n) ->
     extract_total_amount text = Return (amount_value tok)) /\
  ((forall n, ~ labelled_at "Total Extended Net Price" is_amount_char text n) ->
   extract_total_amount text = Return VNone) /\
  (extract_total_amount text = Return VNone \/
   exists tok post, amount_token tok post /\
                    extract_total_amount text = Return (amount_value tok)) /\
  (forall pre post,
     text = pre +:+ "Total Extended Net Price: 16,484.50" +:+ post ->
     starts_with isdecimal post = false ->
     (forall n, n < len pre ->
        ~ labelled_at "Total Extended Net Price" is_amount_char text n) ->
     exists f, extract_total_amount text = Return (VFloat f) /\
               exact_decimal f 164845 1).
Proof.
  split; [| split; [| split]].
  - intros pre lab seps tok post. apply total_amount_first.
  - apply total_amount_absent.
  - apply total_amount_returns.
  - intros pre post Ht Hpost Hfirst.
    exists (S754_finite false 4531224857018368 (-38)). split; [| vm_compute; reflexivity].
    rewrite (total_amount_first text pre "Total Extended Net Price" ": " "16,484.50" post);
      try done.
    exists "16,484". split; [done |]. split; [done |]. right. by exists "50".
Qed.

Lemma extract_total_amount_spec_witness :
  exists f,
    extract_total_amount "Sum Total Extended Net Price: 16,484.50 INR" = Return (VFloat f) /\
    exact_decimal f 164845 1.
Proof.
  apply (proj2 (proj2 (proj2 (extract_total_amount_spec _))) "Sum " " INR");
    [reflexivity | reflexivity |].
  intros n Hn Hat. apply amount_labelled_at_match in Hat. simpl in Hn.
  do 4 (destruct n as [|n]; [vm_compute in Hat; by destruct Hat as [? [=]] |]).
  lia.
Defined.

(** Two texts that hold "Total Extended Net Price: 16,484.50" and give
    another number: the token goes on with a digit, or an earlier label
    comes first. *)
Lemma extract_total_amount_counterexample :
  ("Total Extended Net Price: 16,484.505"
     = "" +:+ "Total Extended Net Price: 16,484.50" +:+ "5" /\
   extract_total_amount "Total Extended Net Price: 16,484.505"
     = Return (VFloat (decimal_to_float 16484505 3)) /\
   decimal_to_float 16484505 3 <> decimal_to_float 164845 1) /\
  ("Total Extended Net Price: 7 Total Extended Net Price: 16,484.50"
     = "Total Extended Net Price: 7 " +:+ "Total Extended Net Price: 16,484.50" +:+ "" /\
   extract_total_amount "Total Extended Net Price: 7 Total Extended Net Price: 16,484.50"
     = Return (VFloat (decimal_to_float 7 0)) /\
   decimal_to_float 7 0 <> decimal_to_float 164845 1).
Proof.
  split; (split; [reflexivity |]; split; [vm_compute; reflexivity | vm_compute; discriminate]).
Qed.

(** ** Soundness of the matcher *)

Lemma str_concat_app (l1 l2 : list str) :
  str_concat (l1 ++ l2) = str_concat l1 +:+ str_concat l2.
Proof.
  induction l1 as [|x l1 IH]; simpl; [done |].
  unfold str_concat in *. simpl. by rewrite IH, str_app_assoc.
Qed.

Lemma consumes_parts_step (L : str -> Prop) (keep : bool) (count count' : nat -> Prop)
  (st st1 st' : mstate) :
  consumes L keep st st1 -> consumes_parts L keep count st1 st' ->
  (forall n, count n -> count' (S n)) ->
  consumes_parts L keep count' st st'.
Proof.
  intros (a & Ha & HL & Hk) (parts & Hp & HF & Hc & Hk') Hcount.
  exists (a :: parts). repeat split.
  - rewrite Ha, Hp. unfold str_concat. simpl. by rewrite str_app_assoc.
  - by constructor.
  - by apply Hcount.
  - intros K. by rewrite (Hk' K), (Hk K).
Qed.

Lemma consumes_parts_nil (L : str -> Prop) (keep : bool) (count : nat -> Prop)
  (st : mstate) :
  count 0 -> consumes_parts L keep count st st.
Proof. intros H. exists []. by repeat split. Qed.

Section Repetition.
Variables (f : mstate -> list mstate) (L : str -> Prop) (keep : bool).
Hypothesis f_sound : forall st st', st' ∈ f st -> consumes L keep st st'.

Lemma times_sound (n : nat) (st st' : mstate) :
  st' ∈ times f n st -> consumes_parts L keep (fun k => k = n) st st'.
Proof.
  revert st. induction n as [|n IH]; intros st; simpl.
  - intros ->%list_elem_of_singleton. by apply consumes_parts_nil.
  - intros (st1 & H1 & Hst1)%list_elem_of_bind.
    eapply consumes_parts_step; [by apply f_sound | by apply IH |].
    by intros k ->.
Qed.

Lemma upto_sound (n : nat) (st st' : mstate) :
  st' ∈ upto f n st -> consumes_parts L keep (fun k => k <= n) st st'.
Proof.
  revert st. induction n as [|n IH]; intros st; simpl.
  - intros ->%list_elem_of_singleton. by apply consumes_parts_nil.
  - intros [(st1 & H1 & Hst1)%list_elem_of_bind | ->%list_elem_of_singleton]%elem_of_app.
    + eapply consumes_parts_step; [by apply f_sound | by apply IH |].
      intros k Hk. simpl in *. lia.
    + apply consumes_parts_nil. lia.
Qed.

Lemma star_sound (fuel : nat) (st st' : mstate) :
  st' ∈ star f fuel st -> consumes_parts L keep (fun _ => True) st st'.
Proof.
  revert st. induction fuel as [|fuel IH]; intros st; simpl.
  - intros ->%list_elem_of_singleton. by apply consumes_parts_nil.
  - intros [(st1 & H1 & Hst1)%list_elem_of_bind | ->%list_elem_of_singleton]%elem_of_app.
    + destruct (_ <? _); [| by apply elem_of_nil in H1].
      eapply consumes_parts_step; [by apply f_sound | by apply IH | done].
    + by apply consumes_parts_nil.
Qed.
End Repetition.

(** Every result of the matcher has consumed a text of the language of
    the pattern; a pattern without groups leaves the groups as they were. *)
Lemma m_sound (ic : bool) (r : regex) (st st' : mstate) :
  st' ∈ m ic r st -> consumes (lang ic r) (group_free r) st st'.
Proof.
  revert st st'. induction r as [|p|negate items|r1 IH1 r2 IH2|r1 IH1 r2 IH2
                                 |lo hi r IH|n r IH|r IH| |]; intros st st'; simpl.
  - intros ->%list_elem_of_singleton. by exists "".
  - unfold step. destruct (rest st.1) as [|c s] eqn:E; [by intros ?%elem_of_nil |].
    destruct (lit_eq ic p c) eqn:Ec; [| by intros ?%elem_of_nil].
    intros ->%list_elem_of_singleton. exists (Str c ""). repeat split; by eauto.
  - unfold step. destruct (rest st.1) as [|c s] eqn:E; [by intros ?%elem_of_nil |].
    destruct (in_set ic negate items c) eqn:Ec; [| by intros ?%elem_of_nil].
    intros ->%list_elem_of_singleton. exists (Str c ""). repeat split; by eauto.
  - intros (st1 & H2 & H1)%list_elem_of_bind.
    destruct (IH1 _ _ H1) as (a1 & Ha1 & HL1 & Hk1).
    destruct (IH2 _ _ H2) as (a2 & Ha2 & HL2 & Hk2).
    exists (a1 +:+ a2). repeat split.
    + by rewrite Ha1, Ha2, str_app_assoc.
    + by exists a1, a2.
    + intros [K1 K2]%andb_true_iff. by rewrite (Hk2 K2), (Hk1 K1).
  - intros [H | H]%elem_of_app.
    + destruct (IH1 _ _ H) as (a & Ha & HL & Hk).
      exists a. repeat split; [done | by left |].
      intros [K1 _]%andb_true_iff. by apply Hk.
    + destruct (IH2 _ _ H) as (a & Ha & HL & Hk).
      exists a. repeat split; [done | by right |].
      intros [_ K2]%andb_true_iff. by apply Hk.
  - intros (st1 & H2 & H1)%list_elem_of_bind.
    apply (times_sound _ _ _ IH) in H1 as (p1 & Hp1 & HF1 & Hc1 & Hk1).
    assert (H2' : consumes_parts (lang ic r) (group_free r)
                    (fun k => match hi with Some h => k <= h - lo | None => True end)
                    st1 st').
    { destruct hi as [h|].
      - by apply (upto_sound _ _ _ IH) in H2.
      - by apply (star_sound _ _ _ IH) in H2. }
    destruct H2' as (p2 & Hp2 & HF2 & Hc2 & Hk2).
    exists (str_concat (p1 ++ p2)). repeat split.
    + by rewrite Hp1, Hp2, str_concat_app, str_app_assoc.
    + exists (p1 ++ p2). rewrite length_app. repeat split.
      * by apply Forall_app.
      * lia.
      * destruct hi; [lia | done].
    + intros K. by rewrite (Hk2 K), (Hk1 K).
  - intros (st1 & -> & H1)%list_elem_of_fmap.
    destruct (IH _ _ H1) as (a & Ha & HL & Hk).
    exists a. by repeat split.
  - destruct (m ic r st) as [|st1 tl] eqn:E; [by intros ?%elem_of_nil |].
    intros ->%list_elem_of_singleton.
    exists "". repeat split. intros K.
    assert (H1 : st1 ∈ m ic r st) by (rewrite E; by left).
    destruct (IH _ _ H1) as (a & Ha & HL & Hk). by apply Hk.
  - destruct (at_end _); [| by intros ?%elem_of_nil].
    intros ->%list_elem_of_singleton. by exists "".
  - destruct (xorb _ _); [| by intros ?%elem_of_nil].
    intros ->%list_elem_of_singleton. by exists "".
Qed.

Lemma match_at_sound (ic : bool) (r : regex) (cur : cursor) (mt : Match) :
  match_at ic r cur = Some mt ->
  exists a, rest cur = a +:+ rest (m_after mt) /\ lang ic r a /\
            m_whole mt = a /\ m_pattern mt = r /\
            (group_free r = true -> m_groups mt = []).
Proof.
  unfold match_at. destruct (m ic r (cur, [])) as [|st tl] eqn:E; [done |].
  intros [= <-]. simpl.
  assert (H : st ∈ m ic r (cur, [])) by (rewrite E; by left).
  apply m_sound in H as (a & Ha & HL & Hk). simpl in *.
  exists a. repeat split; try done. rewrite Ha. apply consumed_app.
Qed.

Lemma search_sound (ic : bool) (r : regex) (text : str) (mt : Match) :
  re_search r text ic = Some mt ->
  exists pre a post,
    text = pre +:+ a +:+ post /\ lang ic r a /\
    m_whole mt = a /\ m_pattern mt = r /\
    (group_free r = true -> m_groups mt = []).
Proof.
  unfold re_search. intros (pre & suf & -> & Hm & _)%search_from_Some.
  apply match_at_sound in Hm as (a & Ha & HL & Hw & Hp & Hg). simpl in Ha.
  exists pre, a, (rest (m_after mt)). by rewrite <- Ha.
Qed.

(** A labelled pattern: what any of its results has consumed and captured. *)
Lemma labelled_sound (label : str) (body : regex) (p : option char) (s : str)
  (g : groups) (st' : mstate) :
  str_all is_ascii label = true ->
  group_free body = true ->
  st' ∈ m true (labelled label body) (Cursor p s, g) ->
  exists lab seps a,
    s = lab +:+ seps +:+ a +:+ rest st'.1 /\
    ic_eq label lab = true /\ str_all is_sep seps = true /\
    lang true body a /\ st'.2 = (1, a) :: g.
Proof.
  intros Hascii Hfree. unfold labelled. rewrite m_seq, m_lits.
  destruct (skip_lits true label (Cursor p s)) as [[p1 r1]|] eqn:E1;
    [| by intros ?%elem_of_nil].
  apply (skip_lits_sound _ _ _ _ Hascii) in E1 as (lab & -> & Hl & _). simpl rest.
  rewrite bind_one, m_seq. unfold sep_set. rewrite m_star_set.
  intros (st2 & H2 & (c2 & -> & Hc2)%list_elem_of_fmap)%list_elem_of_bind.
  apply elem_of_runs in Hc2 as (seps & -> & Hseps & _).
  rewrite (str_all_ext _ is_sep) in Hseps by apply in_set_sep.
  rewrite m_group in H2. apply list_elem_of_fmap in H2 as (st3 & -> & H3).
  apply m_sound in H3 as (a & Ha & HL & Hk). unfold with_groups in *. simpl in *.
  exists lab, seps, a. rewrite Ha. repeat split; try done.
  f_equal; [by rewrite consumed_app | by apply Hk].
Qed.

(** The rules built on a labelled pattern whose group has no inner group:
    None without a match, else the trimmed text of the group. *)
Lemma labelled_rule_sound (label : str) (body : regex) (text : str) :
  str_all is_ascii label = true ->
  group_free body = true ->
  (re_search (labelled label body) text IGNORECASE = None /\
   stripped_group1 (re_search (labelled label body) text IGNORECASE) = Return VNone)
  \/ exists pre lab seps a post,
       text = pre +:+ lab +:+ seps +:+ a +:+ post /\
       ic_eq label lab = true /\ str_all is_sep seps = true /\
       lang true body a /\
       stripped_group1 (re_search (labelled label body) text IGNORECASE)
         = Return (VStr (strip a)).
Proof.
  intros Hascii Hfree.
  destruct (re_search (labelled label body) text IGNORECASE) as [mt|] eqn:E;
    [right | by left].
  unfold re_search in E. apply search_from_Some in E as (pre & suf & -> & Hm & _).
  unfold match_at in Hm.
  destruct (m IGNORECASE (labelled label body) _) as [|st tl] eqn:Em; [done |].
  injection Hm as <-.
  assert (H : st ∈ m true (labelled label body) (Cursor (last_or None pre) suf, []))
    by (unfold IGNORECASE in Em; rewrite Em; by left).
  apply (labelled_sound _ _ _ _ _ _ Hascii Hfree) in H as (lab & seps & a & -> & Hl & Hs & HL & Hg).
  exists pre, lab, seps, a, (rest st.1). repeat split; try done.
  unfold stripped_group1, group. simpl m_pattern. simpl m_groups.
  rewrite ngroups_labelled, Hg. reflexivity.
Qed.

(** ** Texts of repeated character sets *)

Lemma lang_repeat_set (ic : bool) (lo : nat) (hi : option nat) (negate : bool)
  (items : list item) (a : str) :
  lang ic (Repeat lo hi (In negate items)) a ->
  str_all (in_set ic negate items) a = true /\
  lo <= len a /\
  match hi with
  | Some h => len a <= lo `max` h
  | None => True
  end.
Proof.
  intros (parts & -> & HF & Hlo & Hhi).
  assert (H : str_all (in_set ic negate items) (str_concat parts) = true /\
              len (str_concat parts) = length parts).
  { clear Hlo Hhi. induction HF as [|x parts (c & -> & Hc) _ [IH1 IH2]]; [done |].
    unfold str_concat in *. simpl. by rewrite Hc, IH1, IH2. }
  destruct H as [H1 H2]. by rewrite H2.
Qed.

Lemma lang_lits (s a : str) :
  str_all is_ascii s = true -> lang true (lits s) a -> ic_eq s a = true.
Proof.
  revert a. induction s as [|c s IH]; intros a Hs; simpl.
  - by intros ->.
  - simpl in Hs. apply andb_true_iff in Hs as [Hc Hs].
    intros (a1 & a2 & -> & (x & -> & Hx) & H2). simpl.
    rewrite (lit_eq_ic_char _ _ Hc) in Hx. by rewrite Hx, (IH _ Hs H2).
Qed.

Lemma lang_lit_point (a : str) : lang true (Lit ".") a -> a = ".".
Proof.
  intros (c & -> & Hc). rewrite lit_eq_point in Hc.
  apply char_eqb_eq in Hc. by subst.
Qed.

(** ** Trimming *)

Lemma str_all_append (p : char -> bool) (a b : str) :
  str_all p (a +:+ b) = str_all p a && str_all p b.
Proof. induction a as [|x a IH]; simpl; [done | by rewrite IH, andb_assoc]. Qed.

Lemma str_all_impl (p q : char -> bool) (s : str) :
  (forall c, p c = true -> q c = true) -> str_all p s = true -> str_all q s = true.
Proof.
  intros H. induction s as [|c s IH]; simpl; [done |].
  intros [Hc Hs]%andb_true_iff. by rewrite (H _ Hc), IH.
Qed.

Lemma rstrip_not_space (s : str) : str_all not_space s = true -> rstrip s = s.
Proof.
  induction s as [|c s IH]; simpl; [done |].
  intros [Hc Hs]%andb_true_iff. rewrite (IH Hs).
  unfold not_space in Hc. apply negb_true_iff in Hc. rewrite Hc. by destruct s.
Qed.

(** A text without whitespace is left as it is. *)
Lemma strip_not_space (s : str) : str_all not_space s = true -> strip s = s.
Proof.
  intros H. unfold strip.
  assert (Hl : lstrip s = s).
  { destruct s as [|c s]; [done |]. simpl in *.
    apply andb_true_iff in H as [Hc _]. unfold not_space in Hc.
    apply negb_true_iff in Hc. by rewrite Hc. }
  rewrite Hl. by apply rstrip_not_space.
Qed.

(** ** More classes *)

Lemma ic_alpha_elem (c : char) (l : list char) :
  forallb (fun x => existsb (char_eqb x) l)
    (char_range "A" "Z" ++ char_range "a" "z" ++ ic_letter_extras) = true ->
  ic_alpha c = true -> c ∈ l.
Proof.
  intros Hl H. rewrite forallb_forall in Hl. apply mem_elem, Hl, list_elem_of_In.
  rewrite !elem_of_app, !char_range_elem, <- !between_spec, <- mem_elem.
  unfold ic_alpha in H.
  apply orb_true_iff in H as [H | H]; [apply orb_true_iff in H as [H | H] |]; tauto.
Qed.

Lemma in_set_upper (c : char) : in_set true false [IRange "A" "Z"] c = ic_alpha c.
Proof.
  revert c. eapply cased_set_spec;
    [vm_compute; reflexivity | reflexivity | vm_compute; reflexivity | |
     vm_compute; reflexivity].
  intros c. apply ic_alpha_elem. vm_compute. reflexivity.
Qed.

Lemma space_is_sep (c : char) : isspace c = true -> is_sep c = true.
Proof. unfold is_sep. intros ->. by rewrite orb_true_r. Qed.

Lemma not_sep_not_space (cls : char -> bool) :
  (forall c, is_sep c = true -> cls c = false) ->
  forall c, cls c = true -> not_space c = true.
Proof.
  intros H c Hc. unfold not_space. destruct (isspace c) eqn:E; [| done].
  by rewrite (H c (space_is_sep c E)) in Hc.
Qed.

Lemma digit_not_space (c : char) : isdecimal c = true -> not_space c = true.
Proof. apply not_sep_not_space, digit_not_sep. Qed.

Lemma alnum_not_space (c : char) : ic_alnum c = true -> not_space c = true.
Proof. apply not_sep_not_space, alnum_not_sep. Qed.

Lemma alpha_not_space (c : char) : ic_alpha c = true -> not_space c = true.
Proof. intros H. apply alnum_not_space. unfold ic_alnum. by rewrite H. Qed.

Lemma lang_digits (lo : nat) (hi : option nat) (a : str) :
  lang true (Repeat lo hi digit_set) a ->
  str_all isdecimal a = true /\ lo <= len a /\
  match hi with Some h => len a <= lo `max` h | None => True end.
Proof.
  intros H. apply lang_repeat_set in H as (H1 & H2 & H3).
  by rewrite (str_all_ext _ _ _ in_set_digit) in H1.
Qed.

Lemma lang_letters (lo : nat) (hi : option nat) (a : str) :
  lang true (Repeat lo hi upper_set) a ->
  str_all ic_alpha a = true /\ lo <= len a /\
  match hi with Some h => len a <= lo `max` h | None => True end.
Proof.
  intros H. apply lang_repeat_set in H as (H1 & H2 & H3).
  by rewrite (str_all_ext _ _ _ in_set_upper) in H1.
Qed.

Lemma lang_alnums (lo : nat) (hi : option nat) (a : str) :
  lang true (Repeat lo hi alnum_set) a ->
  str_all ic_alnum a = true /\ lo <= len a /\
  match hi with Some h => len a <= lo `max` h | None => True end.
Proof.
  intros H. apply lang_repeat_set in H as (H1 & H2 & H3).
  by rewrite (str_all_ext _ _ _ in_set_alnum) in H1.
Qed.

(** ** Dates *)

Lemma lang_date_body (a : str) :
  lang true date_body a -> date_shaped a /\ str_all not_space a = true.
Proof.
  intros (d & r1 & -> & Hd & dot1 & r2 & -> & Hdot1 & mon & r3 & -> & Hmon
          & dot2 & y & -> & Hdot2 & Hy).
  apply lang_digits in Hd as (Hd1 & Hd2 & Hd3).
  apply lang_letters in Hmon as (Hm1 & Hm2 & Hm3).
  apply lang_digits in Hy as (Hy1 & Hy2 & Hy3).
  apply lang_lit_point in Hdot1, Hdot2. subst dot1 dot2. simpl in *.
  split.
  - exists d, mon, y. repeat split; try done; lia.
  - repeat (rewrite str_all_append || cbn [str_all]).
    rewrite (str_all_impl _ _ _ digit_not_space Hd1).
    rewrite (str_all_impl _ _ _ alpha_not_space Hm1).
    by rewrite (str_all_impl _ _ _ digit_not_space Hy1).
Qed.

Lemma date_rule_shape (label text v : str) :
  str_all is_ascii label = true ->
  stripped_group1 (re_search (labelled label date_body) text IGNORECASE) = Return (VStr v) ->
  date_shaped v /\ follows_label label text v.
Proof.
  intros Hascii H.
  destruct (labelled_rule_sound label date_body text Hascii eq_refl)
    as [[_ E] | (pre & lab & seps & a & post & -> & Hl & Hs & HL & E)];
    rewrite E in H; [done |].
  injection H as <-. apply lang_date_body in HL as [Hshape Hns].
  rewrite (strip_not_space _ Hns). split; [done |].
  by exists pre, lab, seps, post.
Qed.

(** X1: the date rule returns a string only for the date types "PO
    Date" and "Revision Date"; the string has the form D[D].MMM[M].YYYY,
    one or two decimal digits, three or four letters and four decimal
    digits, and stands in the text after the label named by the date
    type, in any letter case as re.IGNORECASE takes it, and optional
    separators.  The letters are those of [A-Z] under re.IGNORECASE: the
    ASCII letters of either case and U+0130, U+0131, U+017F and U+212A. *)
Theorem extract_date_shape (text date_type v : str) :
  extract_date text date_type = Return (VStr v) ->
  (date_type = "PO Date" \/ date_type = "Revision Date") /\
  date_shaped v /\ follows_label date_type text v.
Proof.
  unfold extract_date, date_patterns. cbn [dict_get].
  destruct (str_eqb_spec "PO Date" date_type) as [<- |_].
  { intros H. split; [by left |]. by apply (date_rule_shape "PO Date" _ _ eq_refl). }
  destruct (str_eqb_spec "Revision Date" date_type) as [<- |_]; [| done].
  intros H. split; [by right |]. by apply (date_rule_shape "Revision Date" _ _ eq_refl).
Qed.

Lemma extract_date_shape_witness :
  ("Revision Date" = "PO Date" \/ "Revision Date" = "Revision Date") /\
  date_shaped "4.SEPT.2026" /\
  follows_label "Revision Date" "Revision Date: 4.SEPT.20267" "4.SEPT.2026".
Proof. apply extract_date_shape. vm_compute. reflexivity. Defined.

(** A rule on a labelled pattern whose group holds no whitespace returns
    the text of the group as it is. *)
Lemma shaped_rule (label : str) (body : regex) (P : str -> Prop)
  (text v : str) :
  str_all is_ascii label = true ->
  group_free body = true ->
  (forall a, lang true body a -> P a /\ str_all not_space a = true) ->
  stripped_group1 (re_search (labelled label body) text IGNORECASE) = Return (VStr v) ->
  P v /\ follows_label label text v.
Proof.
  intros Hascii Hfree HP H.
  destruct (labelled_rule_sound label body text Hascii Hfree)
    as [[_ E] | (pre & lab & seps & a & post & -> & Hl & Hs & HL & E)];
    rewrite E in H; [done |].
  injection H as <-. apply HP in HL as [Hshape Hns].
  rewrite (strip_not_space _ Hns). split; [done |].
  by exists pre, lab, seps, post.
Qed.

(** ** The currency and the tax identifiers *)

(** X2: a currency the rule returns is exactly three letters of [A-Z]
    under re.IGNORECASE (the ASCII letters of either case and U+0130,
    U+0131, U+017F and U+212A), as the text spells them, found after the
    label "Currency" in any letter case as re.IGNORECASE takes it. *)
Theorem extract_currency_shape (text v : str) :
  extract_currency text = Return (VStr v) ->
  (len v = 3 /\ str_all ic_alpha v = true) /\
  follows_label "Currency" text v.
Proof.
  apply (shaped_rule "Currency" (Exactly 3 upper_set)
           (fun v => len v = 3 /\ str_all ic_alpha v = true)); [done | done |].
  intros a (H1 & H2 & H3)%lang_letters. simpl in H3.
  split; [split; [lia | done] |].
  by apply (str_all_impl _ _ _ alpha_not_space).
Qed.

Lemma extract_currency_shape_witness :
  (len "Ind" = 3 /\ str_all ic_alpha "Ind" = true) /\
  follows_label "Currency" "Currency: Indian rupee" "Ind".
Proof. apply extract_currency_shape. vm_compute. reflexivity. Defined.

Lemma lang_exactly_15_alnum (a : str) :
  lang true (Exactly 15 alnum_set) a ->
  (len a = 15 /\ str_all ic_alnum a = true) /\
  str_all not_space a = true.
Proof.
  intros (H1 & H2 & H3)%lang_alnums. simpl in H3.
  split; [split; [lia | done] |].
  by apply (str_all_impl _ _ _ alnum_not_space).
Qed.

(** X3: a GST number either rule returns is exactly fifteen characters
    of [A-Z0-9] under re.IGNORECASE (the ASCII letters and digits and
    U+0130, U+0131, U+017F and U+212A), found after its label ("GST" for
    the vendor, "GSTN" for the company) in any letter case as
    re.IGNORECASE takes it. *)
Theorem gst_numbers_shape (text v : str) :
  (extract_vendor_gst text = Return (VStr v) ->
   (len v = 15 /\ str_all ic_alnum v = true) /\
   follows_label "GST" text v) /\
  (extract_gstn_number text = Return (VStr v) ->
   (len v = 15 /\ str_all ic_alnum v = true) /\
   follows_label "GSTN" text v).
Proof.
  split.
  - apply (shaped_rule "GST" (Exactly 15 alnum_set)
             (fun v => len v = 15 /\ str_all ic_alnum v = true)); [done | done |].
    apply lang_exactly_15_alnum.
  - apply (shaped_rule "GSTN" (Exactly 15 alnum_set)
             (fun v => len v = 15 /\ str_all ic_alnum v = true)); [done | done |].
    apply lang_exactly_15_alnum.
Qed.

Lemma gst_numbers_shape_witness :
  (len "33AAACG1234A1Z5" = 15 /\ str_all ic_alnum "33AAACG1234A1Z5" = true) /\
  follows_label "GST" "Vendor GST: 33AAACG1234A1Z5" "33AAACG1234A1Z5".
Proof.
  apply (proj1 (gst_numbers_shape "Vendor GST: 33AAACG1234A1Z5" "33AAACG1234A1Z5")).
  vm_compute. reflexivity.
Defined.

(** X4: a PAN the rule returns is five letters, four decimal digits
    and one more letter, found after the label "PAN" in any letter case;
    the letters are those of [A-Z] under re.IGNORECASE: the ASCII
    letters of either case and U+0130, U+0131, U+017F and U+212A. *)
Theorem extract_pan_card_shape (text v : str) :
  extract_pan_card text = Return (VStr v) ->
  (exists l d c,
     v = l +:+ d +:+ Str c "" /\
     len l = 5 /\ str_all ic_alpha l = true /\
     len d = 4 /\ str_all isdecimal d = true /\
     ic_alpha c = true) /\
  follows_label "PAN" text v.
Proof.
  apply (shaped_rule "PAN" (Exactly 5 upper_set ;; Exactly 4 digit_set ;; upper_set)
           (fun v => exists l d c,
              v = l +:+ d +:+ Str c "" /\
              len l = 5 /\ str_all ic_alpha l = true /\
              len d = 4 /\ str_all isdecimal d = true /\
              ic_alpha c = true)); [done | done |].
  intros a (l & r1 & -> & (Hl1 & Hl2 & Hl3)%lang_letters
            & d & r2 & -> & (Hd1 & Hd2 & Hd3)%lang_digits & c & -> & Hc).
  rewrite in_set_upper in Hc. simpl in Hl3, Hd3. split.
  - exists l, d, c. repeat split; try done; lia.
  - repeat (rewrite str_all_append || cbn [str_all]).
    rewrite (str_all_impl _ _ _ alpha_not_space Hl1).
    rewrite (str_all_impl _ _ _ digit_not_space Hd1).
    by rewrite (alpha_not_space _ Hc).
Qed.

Lemma extract_pan_card_shape_witness :
  (exists l d c,
     "abcde1234f" = l +:+ d +:+ Str c "" /\
     len l = 5 /\ str_all ic_alpha l = true /\
     len d = 4 /\ str_all isdecimal d = true /\
     ic_alpha c = true) /\
  follows_label "PAN" "pan: abcde1234f" "abcde1234f".
Proof. apply extract_pan_card_shape. vm_compute. reflexivity. Defined.

(** ** The supplier phone *)

Lemma m_group_sound (ic : bool) (n : nat) (body : regex) (st st' : mstate) :
  group_free body = true ->
  st' ∈ m ic (Group n body) st ->
  exists a, rest st.1 = a +:+ rest st'.1 /\ lang ic body a /\ st'.2 = (n, a) :: st.2.
Proof.
  intros Hfree. rewrite m_group. intros (st1 & -> & H1)%list_elem_of_fmap.
  apply m_sound in H1 as (a & Ha & HL & Hk). exists a. simpl.
  repeat split; try done. rewrite Ha. f_equal; [by rewrite consumed_app | by apply Hk].
Qed.

(** Deciding an equation between tests on one character by the cases of
    the tests. *)
Ltac bool_cases c :=
  repeat match goal with
  | |- context [char_eqb c ?x] => generalize (char_eqb c x); intro
  | |- context [isspace c] => generalize (isspace c); intro
  | |- context [isdecimal c] => generalize (isdecimal c); intro
  | |- context [isword c] => generalize (isword c); intro
  end;
  repeat match goal with b : bool |- _ => destruct b end; reflexivity.

(** A set without letters: its characters and its categories. *)
Ltac plain_set c :=
  rewrite in_set_norm;
  match goal with |- context [hascased ?l] => evaluate (hascased l) end;
  match goal with |- context [set_targets ?ic ?l] => evaluate (set_targets ic l) end;
  cbv zeta; cbn [andb xorb existsb set_cats omap list_omap in_category];
  bool_cases c.

Lemma in_set_colon_space (c : char) :
  in_set true false [ILit ":"; ICat Space] c = is_colon_space c.
Proof. unfold is_colon_space. plain_set c. Qed.

Lemma lit_eq_P (c : char) : lit_eq true "P" c = char_eqb c "P" || char_eqb c "p".
Proof.
  unfold lit_eq. evaluate (iscased "P"%chr). cbn [andb]. rewrite tolower_mem.
  evaluate (folded "P"%chr ≫= lower_preimage). cbn [existsb]. bool_cases c.
Qed.

(** X5: a supplier phone the rule returns is "P:", ten digits and "/";
    the digits stand in the text after a letter P of either case and
    optional colons and whitespace. *)
Theorem extract_supplier_phone_shape (text v : str) :
  extract_supplier_phone text = Return (VStr v) ->
  exists d,
    v = "P:" +:+ d +:+ "/" /\
    len d = 10 /\ str_all isdecimal d = true /\
    exists pre p seps post,
      text = pre +:+ Str p seps +:+ d +:+ post /\
      (p = "P" \/ p = "p")%chr /\ str_all is_colon_space seps = true.
Proof.
  unfold extract_supplier_phone.
  destruct (re_search supplier_phone_re text IGNORECASE) as [mt|] eqn:E; [| done].
  unfold re_search in E. apply search_from_Some in E as (pre & suf & -> & Hm & _).
  unfold match_at in Hm.
  destruct (m IGNORECASE supplier_phone_re _) as [|st tl] eqn:Em; [done |].
  injection Hm as <-.
  assert (H : st ∈ m true supplier_phone_re (Cursor (last_or None pre) suf, []))
    by (unfold IGNORECASE in Em; rewrite Em; by left).
  unfold supplier_phone_re in H. rewrite m_seq in H.
  apply list_elem_of_bind in H as (st1 & H & H1). rewrite m_seq in H.
  apply list_elem_of_bind in H as (st2 & H & H2).
  apply m_sound in H1 as (a1 & Ha1 & (p & -> & Hp) & Hk1).
  apply m_sound in H2 as (a2 & Ha2 & HL2 & Hk2).
  apply m_group_sound in H as (d & Hd & HLd & Hg); [| done].
  apply lang_repeat_set in HL2 as (Hseps & _).
  rewrite (str_all_ext _ _ _ in_set_colon_space) in Hseps.
  apply lang_digits in HLd as (Hd1 & Hd2 & Hd3). simpl in Hd3.
  rewrite lit_eq_P in Hp. simpl in Ha1, Hk1, Hk2.
  unfold group. simpl m_pattern. simpl m_groups.
  rewrite Hg, (Hk2 eq_refl), (Hk1 eq_refl).
  change (1 <=? ngroups _) with true. cbn [lookup_group Nat.eqb mbind outcome_bind mret outcome_ret format_value].
  intros [= <-]. exists d. repeat split; try done; [lia |].
  exists pre, p, a2, (rest st.1). repeat split; try done.
  - rewrite Ha1, Ha2, Hd. reflexivity.
  - apply orb_true_iff in Hp as [Hp | Hp]; apply char_eqb_eq in Hp; auto.
Qed.

Lemma extract_supplier_phone_shape_witness :
  exists d,
    "P:9876543210/" = "P:" +:+ d +:+ "/" /\
    len d = 10 /\ str_all isdecimal d = true /\
    exists pre p seps post,
      "zip 9876543210" = pre +:+ Str p seps +:+ d +:+ post /\
      (p = "P" \/ p = "p")%chr /\ str_all is_colon_space seps = true.
Proof. apply extract_supplier_phone_shape. vm_compute. reflexivity. Defined.

(** ** E-mail addresses *)

Lemma in_set_email (c : char) :
  in_set false false [ICat Word; ILit "."; ILit "-"] c = is_email_char c.
Proof. unfold is_email_char. plain_set c. Qed.

Lemma in_set_word (c : char) : in_set false false [ICat Word] c = isword c.
Proof. plain_set c. Qed.

Lemma lang_plus_set (ic negate : bool) (items : list item) (a : str) :
  lang ic (Plus (In negate items)) a ->
  a <> "" /\ str_all (in_set ic negate items) a = true.
Proof.
  intros (H1 & H2 & _)%lang_repeat_set. split; [| done].
  destruct a; [simpl in H2; lia | done].
Qed.

Lemma lang_lit_exact (p : char) (a : str) : lang false (Lit p) a -> a = Str p "".
Proof. intros (c & -> & Hc). unfold lit_eq in Hc. apply char_eqb_eq in Hc. by subst. Qed.

(** X6: a buyer e-mail the rule returns stands in the text and has the
    form local@domain.tld: non-empty parts, the first two of word
    characters, points and hyphens, the last of word characters. *)
Theorem extract_buyer_email_shape (text v : str) :
  extract_buyer_email text = Return (VStr v) ->
  email_shaped v /\ occurs_in v text.
Proof.
  unfold extract_buyer_email, whole_match.
  destruct (re_search buyer_email_re text false) as [mt|] eqn:E; [| done].
  apply search_sound in E as (pre & a & post & -> & HL & Hw & _).
  unfold group. rewrite Hw. intros [= <-]. split; [| by exists pre, post].
  destruct HL as (l & r1 & -> & (Hl1 & Hl2)%lang_plus_set
                  & at_ & r2 & -> & ->%lang_lit_exact
                  & d & r3 & -> & (Hd1 & Hd2)%lang_plus_set
                  & dot & t & -> & ->%lang_lit_exact & (Ht1 & Ht2)%lang_plus_set).
  rewrite (str_all_ext _ _ _ in_set_email) in Hl2.
  rewrite (str_all_ext _ _ _ in_set_email) in Hd2.
  rewrite (str_all_ext _ _ _ in_set_word) in Ht2.
  by exists l, d, t.
Qed.

Lemma extract_buyer_email_shape_witness :
  email_shaped "a.b-c@x-y.co.uk" /\ occurs_in "a.b-c@x-y.co.uk" "mail a.b-c@x-y.co.uk, z".
Proof. apply extract_buyer_email_shape. vm_compute. reflexivity. Defined.

(** X7: the supplier and the invoice e-mail rules look for one fixed
    address: a text that holds it in some letter case, as re.IGNORECASE
    takes letter case (the long s for an s, the dotted and the dotless i
    for an i, the Kelvin sign for a k), gives it as the text spells it,
    any other text gives None. *)
Theorem literal_email_rules_spec :
  Forall (fun rw : (str -> outcome value) * str =>
            forall text,
              (contains_ci rw.2 text ->
               exists v, ic_eq rw.2 v = true /\ occurs_in v text /\
                         rw.1 text = Return (VStr v)) /\
              (~ contains_ci rw.2 text -> rw.1 text = Return VNone))
         literal_email_rules.
Proof.
  assert (H : forall word text,
             str_all is_ascii word = true ->
             (contains_ci word text ->
              exists v, ic_eq word v = true /\ occurs_in v text /\
                        whole_match (re_search (lits word) text IGNORECASE) = Return (VStr v)) /\
             (~ contains_ci word text ->
              whole_match (re_search (lits word) text IGNORECASE) = Return VNone)).
  { intros word text Hascii. split.
    - intros Hc.
      destruct (re_search (lits word) text IGNORECASE) as [mt|] eqn:E.
      + apply search_sound in E as (pre & a & post & -> & HL & Hw & _).
        exists a. split; [by apply lang_lits |]. split; [by exists pre, post |].
        simpl. unfold group. by rewrite Hw.
      + by apply (proj1 (search_lits_None _ _ Hascii)) in E.
    - intros Hc. apply (proj2 (search_lits_None _ _ Hascii)) in Hc.
      unfold IGNORECASE. by rewrite Hc. }
  unfold literal_email_rules.
  constructor; [intros text; by apply H |].
  constructor; [intros text; by apply H | constructor].
Qed.

Lemma literal_email_rules_spec_witness :
  (exists v, ic_eq "SALES@VALVETECQ.COM" v = true /\
             occurs_in v "write to Saleſ@valvetecq.com" /\
             extract_supplier_email "write to Saleſ@valvetecq.com" = Return (VStr v)) /\
  extract_invoice_email "write to Saleſ@valvetecq.com" = Return VNone.
Proof.
  pose proof literal_email_rules_spec as H. unfold literal_email_rules in H.
  apply Forall_cons_1 in H as [H1 H]. apply Forall_cons_1 in H as [H2 _].
  split.
  - apply (proj1 (H1 _)). exists "write to ", "Saleſ@valvetecq.com", "". by split.
  - apply (proj2 (H2 _)).
    apply (proj1 (search_lits_None "IN_PO_Invoice@BakerHughes.com" _ eq_refl)).
    vm_compute. reflexivity.
Defined.

(** ** Labelled runs: the remaining rules *)

Section RunRule.
Variables (label : str) (negate : bool) (items : list item) (cls : char -> bool).
Hypothesis label_ascii : str_all is_ascii label = true.
Hypothesis cls_set : forall c, in_set true negate items c = cls c.
Hypothesis cls_not_sep : forall c, is_sep c = true -> cls c = false.
Hypothesis cls_not_space : forall c, cls c = true -> not_space c = true.

Lemma run_rule_spec (text : str) :
  (forall pre lab seps run post,
     text = pre +:+ lab +:+ seps +:+ run +:+ post ->
     ic_eq label lab = true -> str_all is_sep seps = true ->
     run <> "" -> str_all cls run = true -> starts_with cls post = false ->
     (forall n, n < len pre -> ~ labelled_at label cls text n) ->
     stripped_group1 (re_search (labelled label (Plus (In negate items))) text IGNORECASE)
     = Return (VStr run)) /\
  ((forall n, ~ labelled_at label cls text n) ->
   stripped_group1 (re_search (labelled label (Plus (In negate items))) text IGNORECASE)
   = Return VNone).
Proof.
  assert (Hsep : forall c, is_sep c = true -> in_set true negate items c = false)
    by (intros c Hc; rewrite cls_set; by apply cls_not_sep).
  split.
  - intros pre lab seps run post Ht Hl Hs Hne Hrun Hpost Hfirst.
    assert (Hstrip : strip run = run)
      by (apply strip_not_space; by apply (str_all_impl _ _ _ cls_not_space)).
    rewrite <- Hstrip at 1.
    apply (run_rule_first label negate items label_ascii Hsep
             text pre lab seps run post Ht Hl Hs Hne).
    + by rewrite (str_all_ext _ _ _ cls_set).
    + by rewrite (starts_with_ext _ _ _ cls_set).
    + intros n Hn Hat. apply (Hfirst n Hn).
      eapply labelled_at_ext; [| exact Hat]. apply cls_set.
  - intros H. apply (run_rule_absent label negate items label_ascii Hsep).
    intros n Hn. apply (H n). eapply labelled_at_ext; [| exact Hn]. apply cls_set.
Qed.
End RunRule.

(** X8: each of the rules for the revision number, the GSL number, the
    site code and the supplier code returns the run of its class
    (decimal digits, or the characters of [A-Z0-9] under re.IGNORECASE:
    the ASCII letters and digits and the four letters U+0130, U+0131,
    U+017F and U+212A) that follows the first occurrence of its label,
    in any letter case as re.IGNORECASE takes it, and optional
    separators, untrimmed since the run holds no whitespace, and None
    when the label is nowhere followed by such a run. *)
Theorem run_rules_spec :
  Forall (fun r : labelled_rule =>
            forall text,
              (forall pre lab seps run post,
                 text = pre +:+ lab +:+ seps +:+ run +:+ post ->
                 ic_eq (lr_label r) lab = true -> str_all is_sep seps = true ->
                 run <> "" -> str_all (lr_class r) run = true ->
                 starts_with (lr_class r) post = false ->
                 (forall n, n < len pre ->
                    ~ labelled_at (lr_label r) (lr_class r) text n) ->
                 lr_rule r text = Return (VStr run)) /\
              ((forall n, ~ labelled_at (lr_label r) (lr_class r) text n) ->
               lr_rule r text = Return VNone))
         run_rules.
Proof.
  unfold run_rules.
  repeat apply List.Forall_cons; try apply List.Forall_nil; intros text; cbn [lr_rule lr_label lr_class].
  - apply (run_rule_spec "Revision No" false [ICat Digit] isdecimal eq_refl
             in_set_digit digit_not_sep digit_not_space).
  - apply (run_rule_spec "GSL Number" false [IRange "A" "Z"; IRange "0" "9"] ic_alnum eq_refl
             in_set_alnum alnum_not_sep alnum_not_space).
  - apply (run_rule_spec "Site Code" false [IRange "A" "Z"; IRange "0" "9"] ic_alnum eq_refl
             in_set_alnum alnum_not_sep alnum_not_space).
  - apply (run_rule_spec "Supplier Code" false [ICat Digit] isdecimal eq_refl
             in_set_digit digit_not_sep digit_not_space).
Qed.

Lemma run_rules_spec_witness :
  extract_site_code "GſL Number: G7ı; site code - IN05/A" = Return VNone /\
  extract_gsl_number "GſL Number: G7ı; site code - IN05/A" = Return (VStr "G7ı").
Proof.
  pose proof run_rules_spec as H. unfold run_rules in H.
  apply Forall_cons_1 in H as [_ H]. apply Forall_cons_1 in H as [Hgsl H].
  apply Forall_cons_1 in H as [Hsite _].
  split.
  - apply (proj2 (Hsite _)). cbn [lr_label lr_class].
    intros n Hat.
    assert (Hm : is_Some (match_at true site_code_re
                   (Cursor None (str_drop n "GſL Number: G7ı; site code - IN05/A")))).
    { apply (labelled_at_match "Site Code" false [IRange "A" "Z"; IRange "0" "9"] eq_refl).
      - intros c Hc. rewrite in_set_alnum. by apply alnum_not_sep.
      - eapply labelled_at_ext; [| exact Hat]. intros c. symmetry. apply in_set_alnum. }
    clear Hat.
    do 36 (destruct n as [|n]; [vm_compute in Hm; by destruct Hm as [? [=]] |]).
    vm_compute in Hm. by destruct Hm as [? [=]].
  - apply (proj1 (Hgsl _) "" "GſL Number" ": " "G7ı" "; site code - IN05/A");
      try reflexivity; try done.
    simpl. intros n Hn. lia.
Defined.

(** ** Labelled runs whose class holds separators *)

Section AnyRule.
Variables (label : str) (negate : bool) (items : list item) (cls : char -> bool).
Hypothesis label_ascii : str_all is_ascii label = true.
Hypothesis cls_set : forall c, in_set true negate items c = cls c.

Lemma any_rule_spec (text : str) :
  ((exists n, labelled_at label cls text n) ->
   exists run, first_capture label cls text run /\
     (forall run', first_capture label cls text run' -> run' = run) /\
     stripped_group1 (re_search (labelled label (Plus (In negate items))) text IGNORECASE)
     = Return (VStr (strip run))) /\
  ((forall n, ~ labelled_at label cls text n) ->
   stripped_group1 (re_search (labelled label (Plus (In negate items))) text IGNORECASE)
   = Return VNone).
Proof.
  assert (Hnone : (forall n, ~ labelled_at label cls text n) ->
                  re_search (labelled label (Plus (In negate items))) text true = None).
  { intros H. apply (proj2 (search_any_None label negate items label_ascii text)).
    intros n Hn. apply (H n).
    eapply labelled_at_ext; [| exact Hn]. apply cls_set. }
  split; [| intros H; unfold IGNORECASE; by rewrite (Hnone H)].
  intros [n0 Hn0]. unfold IGNORECASE.
  destruct (re_search (labelled label (Plus (In negate items))) text true) as [mt|] eqn:E;
    cycle 1.
  { pose proof (proj1 (search_any_None label negate items label_ascii text) E) as E'.
    destruct (E' n0).
    eapply labelled_at_ext; [| exact Hn0]. intros c. symmetry. apply cls_set. }
  destruct (search_any_Some label negate items label_ascii text mt E) as (run & Hc & Hp & Hg).
  apply (first_capture_ext _ _ cls _ _ cls_set) in Hc.
  exists run. split; [done |]. split.
  - intros run' Hc'. by apply (first_capture_unique _ _ _ _ _ Hc' Hc).
  - unfold stripped_group1, group. rewrite Hp, Hg, ngroups_labelled. reflexivity.
Qed.
End AnyRule.

Lemma in_set_phone (c : char) :
  in_set true false [ICat Digit; ICat Space; ILit "-"] c = is_phone_char c.
Proof. unfold is_phone_char. plain_set c. Qed.

(** X9: each of the rules for the buyer phone, the incoterms and the
    payment terms returns, trimmed, the capture at the first place where
    its label (in any letter case, as re.IGNORECASE takes it) and
    separators are followed by a character of its class: after the
    longest run of separators that a character of the class follows, the
    longest run of the class; the text determines that capture.  The
    rule returns None when there is no such place. *)
Theorem line_rules_spec :
  Forall (fun r : labelled_rule =>
            forall text,
              ((exists n, labelled_at (lr_label r) (lr_class r) text n) ->
               exists run, first_capture (lr_label r) (lr_class r) text run /\
                           (forall run', first_capture (lr_label r) (lr_class r) text run' ->
                                         run' = run) /\
                           lr_rule r text = Return (VStr (strip run))) /\
              ((forall n, ~ labelled_at (lr_label r) (lr_class r) text n) ->
               lr_rule r text = Return VNone))
         line_rules.
Proof.
  unfold line_rules.
  repeat apply List.Forall_cons; try apply List.Forall_nil; intros text; cbn [lr_rule lr_label lr_class].
  - apply (any_rule_spec "Buyer Phone" false [ICat Digit; ICat Space; ILit "-"]
             is_phone_char eq_refl in_set_phone).
  - apply (any_rule_spec "Incoterms" true [ILit LF_char] not_lf eq_refl in_set_not_lf).
  - apply (any_rule_spec "Payment Terms" true [ILit LF_char] not_lf eq_refl in_set_not_lf).
Qed.

Lemma line_rules_spec_witness :
  (exists run, first_capture "Incoterms" not_lf "INCOTERMS: FCA Chennai " run /\
               (forall run', first_capture "Incoterms" not_lf "INCOTERMS: FCA Chennai " run' ->
                             run' = run) /\
               extract_incoterms "INCOTERMS: FCA Chennai " = Return (VStr (strip run))) /\
  extract_payment_terms "INCOTERMS: FCA Chennai " = Return VNone.
Proof.
  pose proof line_rules_spec as H. unfold line_rules in H.
  apply Forall_cons_1 in H as [_ H]. apply Forall_cons_1 in H as [Hinc H].
  apply Forall_cons_1 in H as [Hpay _].
  split.
  - apply (proj1 (Hinc _)).
    exists 0, "", "INCOTERMS", ": ", "F"%chr, "CA Chennai ". by repeat split.
  - apply (proj2 (Hpay _)). cbn [lr_label lr_class].
    intros n Hn. revert n Hn.
    apply (proj2 (name_absent "Payment Terms" _ eq_refl)). vm_compute. reflexivity.
Defined.

(** ** The assembled record *)

Lemma parse_purchase_order_data_eq (text filename : str) :
  parse_purchase_order_data text filename =
  Return {|
    metadata := {|
      document_type := "PURCHASE_ORDER";
      file_name := filename;
      total_pages :=
        if contains_char FF_char text then length (split_char FF_char text) else 1;
      company_name := safe_result (extract_company_name text) (VStr "");
      company_address := safe_result (extract_company_address text) (VStr "");
      company_phone := safe_result (extract_company_phone text) (VStr "") |};
    order_details := {|
      po_number := safe_result (extract_po_number text) (VStr "");
      po_date := safe_result (extract_date text "PO Date") (VStr "");
      revision_number := safe_result (extract_revision_number text) (VStr "0");
      revision_date := safe_result (extract_date text "Revision Date") (VStr "");
      buyer_contact := safe_result (extract_buyer_contact text) (VStr "");
      buyer_phone := safe_result (extract_buyer_phone text) (VStr "");
      buyer_email := safe_result (extract_buyer_email text) (VStr "") |};
    supplier_details := {|
      supplier_name := safe_result (extract_supplier_name text) (VStr "");
      supplier_address := safe_result (extract_supplier_address text) (VStr "");
      contact_person_phone := safe_result (extract_supplier_phone text) (VStr "");
      contact_person_email := safe_result (extract_supplier_email text) (VStr "");
      gsl_number := safe_result (extract_gsl_number text) (VStr "");
      site_code := safe_result (extract_site_code text) (VStr "");
      supplier_code := safe_result (extract_supplier_code text) (VStr "");
      vendor_gst := safe_result (extract_vendor_gst text) (VStr "") |};
    ship_to_details := {|
      ship_to_name := safe_result (extract_ship_to_name text) (VStr "");
      ship_to_address := safe_result (extract_ship_to_address text) (VStr "") |};
    administrative_details := {|
      email_invoice_to := safe_result (extract_invoice_email text) (VStr "");
      incoterms := safe_result (extract_incoterms text) (VStr "");
      currency := safe_result (extract_currency text) (VStr "");
      payment_terms := safe_result (extract_payment_terms text) (VStr "");
      project_number := safe_result (extract_project_number text) (VStr "");
      sales_order_number := safe_result (extract_sales_order_number text) (VStr "");
      shipping_via := safe_result (extract_shipping_via text) (VStr "") |};
    line_items := safe_result (extract_line_items text) default_line_items;
    totals := {|
      total_extended_net_price := safe_result (extract_total_amount text) (VStr "");
      totals_currency := safe_result (extract_currency text) (VStr "") |};
    approval := {| method := "ELECTRONICALLY APPROVED. NO SIGNATURE REQUIRED" |} |}.
Proof.
  unfold parse_purchase_order_data.
  rewrite !safe_extract_total by solve_safe.
  reflexivity.
Qed.

Lemma safe_result_not_none (o : outcome value) (default_value : value) :
  default_value <> VNone -> safe_result o default_value <> VNone.
Proof.
  intros Hd. destruct o as [v|e]; simpl; [| done].
  destruct v; simpl; try done. by destruct (negb _).
Qed.

(** X10: whatever the text, the parser returns a record, and none of its
    values is None: a rule that finds nothing, or fails with an error,
    leaves the default of its field. *)
Theorem parse_purchase_order_data_no_none (text filename : str) :
  exists r,
    parse_purchase_order_data text filename = Return r /\
    file_name (metadata r) = filename /\
    Forall (fun v => v <> VNone) (po_values r).
Proof.
  rewrite parse_purchase_order_data_eq. eexists. split; [reflexivity |].
  split; [reflexivity |].
  unfold po_values. cbn -[safe_result].
  repeat (apply List.Forall_cons; [by apply safe_result_not_none |]).
  apply List.Forall_nil.
Qed.

Lemma split_char_count (c : char) (s : str) :
  length (split_char c s) = S (str_count c s).
Proof.
  induction s as [|x s IH]; simpl; [done |].
  destruct (char_eqb x c); simpl; [by rewrite IH |].
  destruct (split_char c s); simpl in *; [done | lia].
Qed.

Lemma contains_char_count (c : char) (s : str) :
  contains_char c s = false -> str_count c s = 0.
Proof.
  induction s as [|x s IH]; simpl; [done |].
  intros [Hx Hs]%orb_false_iff. rewrite Hx. simpl. by apply IH.
Qed.

Lemma page_count_eq (text : str) :
  (if contains_char FF_char text then length (split_char FF_char text) else 1)
  = S (str_count FF_char text).
Proof.
  destruct (contains_char FF_char text) eqn:E.
  - apply split_char_count.
  - by rewrite (contains_char_count _ _ E).
Qed.

(** X11: the page count of the record is one more than the number of
    form feeds in the text. *)
Theorem total_pages_counts_form_feeds (text filename : str) :
  exists r,
    parse_purchase_order_data text filename = Return r /\
    total_pages (metadata r) = S (str_count FF_char text).
Proof.
  rewrite parse_purchase_order_data_eq. eexists. split; [reflexivity |].
  cbn [metadata total_pages]. apply page_count_eq.
Qed.

(** X12: the document type, the company and ship-to blocks, the supplier
    address, the line items and the approval method of the record are the
    same for every text, the three placeholder fields are always the
    empty string, and the currency under the totals is always the
    currency under the administrative details. *)
Theorem parse_purchase_order_data_fixed (text1 text2 filename1 filename2 : str) :
  exists r1 r2,
    parse_purchase_order_data text1 filename1 = Return r1 /\
    parse_purchase_order_data text2 filename2 = Return r2 /\
    fixed_part r1 = fixed_part r2 /\
    project_number (administrative_details r1) = VStr "" /\
    sales_order_number (administrative_details r1) = VStr "" /\
    shipping_via (administrative_details r1) = VStr "" /\
    totals_currency (totals r1) = currency (administrative_details r1).
Proof.
  rewrite !parse_purchase_order_data_eq. do 2 eexists.
  split; [reflexivity |]. split; [reflexivity |]. by repeat split.
Qed.

Lemma search_run_digits (label text : str) (mt : Match) :
  str_all is_ascii label = true ->
  re_search (labelled label (Plus digit_set)) text true = Some mt ->
  exists run, run <> "" /\ str_all isdecimal run = true /\
              m_pattern mt = labelled label (Plus digit_set) /\
              m_groups mt = [(1, run)].
Proof.
  intros Hascii H. apply (search_any_Some _ _ _ Hascii) in H as (run & Hc & Hp & Hg).
  destruct Hc as (_ & _ & _ & _ & _ & _ & _ & Hne & Hrun & _).
  rewrite (str_all_ext _ _ _ in_set_digit) in Hrun. by exists run.
Qed.

Lemma revision_number_result (text : str) :
  exists d,
    safe_result (extract_revision_number text) (VStr "0") = VStr d /\
    d <> "" /\ str_all isdecimal d = true.
Proof.
  unfold extract_revision_number, IGNORECASE.
  change revision_number_re with (labelled "Revision No" (Plus digit_set)).
  destruct (re_search _ text true) as [mt|] eqn:E.
  - apply (search_run_digits "Revision No" _ _ eq_refl) in E as (run & Hne & Hrun & Hp & Hg).
    unfold stripped_group1, group. rewrite Hp, Hg, ngroups_labelled.
    cbn [lookup_group Nat.eqb mbind outcome_bind mret outcome_ret value_strip].
    rewrite strip_not_space by (by apply (str_all_impl _ _ _ digit_not_space)).
    exists run. split; [| done].
    simpl. by destruct (str_eqb_spec run "").
  - by exists "0".
Qed.

(** X13: the revision number of the record is always a non-empty string
    of decimal digits: the digits found in the text, or the default. *)
Theorem revision_number_digits (text filename : str) :
  exists r d,
    parse_purchase_order_data text filename = Return r /\
    revision_number (order_details r) = VStr d /\
    d <> "" /\ str_all isdecimal d = true.
Proof.
  destruct (revision_number_result text) as (d & Hd & Hne & Hall).
  rewrite parse_purchase_order_data_eq. eexists. exists d.
  split; [reflexivity |]. by split.
Qed.

Section RunField.
Variables (label : str) (negate : bool) (items : list item) (cls : char -> bool).
Hypothesis label_ascii : str_all is_ascii label = true.
Hypothesis cls_set : forall c, in_set true negate items c = cls c.
Hypothesis cls_not_space : forall c, cls c = true -> not_space c = true.

Lemma run_field_empty (text : str) :
  safe_result
    (stripped_group1 (re_search (labelled label (Plus (In negate items))) text IGNORECASE))
    (VStr "") = VStr ""
  <-> forall n, ~ labelled_at label cls text n.
Proof.
  pose proof (search_any_None label negate items label_ascii text) as Hnone.
  unfold IGNORECASE.
  destruct (re_search (labelled label (Plus (In negate items))) text true) as [mt|] eqn:E.
  - pose proof (search_any_Some label negate items label_ascii text mt E) as (run & Hc & Hp & Hg).
    destruct Hc as (_ & _ & _ & _ & _ & _ & _ & Hne & Hrun & _).
    rewrite (str_all_ext _ _ _ cls_set) in Hrun.
    unfold stripped_group1, group. rewrite Hp, Hg, ngroups_labelled.
    cbn [lookup_group Nat.eqb mbind outcome_bind mret outcome_ret value_strip].
    rewrite strip_not_space by (by apply (str_all_impl _ _ _ cls_not_space)).
    split.
    + simpl. destruct (str_eqb_spec run ""); [done |]. simpl. congruence.
    + intros H. assert (Hn : Some mt = None); [| done].
      apply (proj2 Hnone). intros n Hn. apply (H n).
      eapply labelled_at_ext; [| exact Hn]. apply cls_set.
  - split; [| done]. intros _ n Hn. apply (proj1 Hnone eq_refl n).
    eapply labelled_at_ext; [| exact Hn]. intros c. symmetry. apply cls_set.
Qed.
End RunField.

(** X14: the purchase-order number, the GSL number, the site code and
    the supplier code of the record are the empty string exactly when
    the text nowhere holds the label of the field, in any letter case as
    re.IGNORECASE takes it (U+017F for an s, U+0130 and U+0131 for an i,
    U+212A for a k), followed, after optional separators, by a character
    of its class: a decimal digit for the supplier code, a character of
    [A-Z0-9] under re.IGNORECASE for the others. *)
Theorem run_fields_empty_iff (text filename : str) :
  exists r,
    parse_purchase_order_data text filename = Return r /\
    Forall (fun f : (PurchaseOrder -> value) * str * (char -> bool) =>
              f.1.1 r = VStr "" <-> forall n, ~ labelled_at f.1.2 f.2 text n)
           run_fields.
Proof.
  rewrite parse_purchase_order_data_eq. eexists. split; [reflexivity |].
  unfold run_fields.
  repeat apply List.Forall_cons; try apply List.Forall_nil;
    cbn [fst snd order_details supplier_details po_number gsl_number site_code supplier_code].
  - apply (run_field_empty "PURCHASE ORDER NO" false [IRange "A" "Z"; IRange "0" "9"]
             ic_alnum eq_refl in_set_alnum alnum_not_space).
  - apply (run_field_empty "GSL Number" false [IRange "A" "Z"; IRange "0" "9"]
             ic_alnum eq_refl in_set_alnum alnum_not_space).
  - apply (run_field_empty "Site Code" false [IRange "A" "Z"; IRange "0" "9"]
             ic_alnum eq_refl in_set_alnum alnum_not_space).
  - apply (run_field_empty "Supplier Code" false [ICat Digit]
             isdecimal eq_refl in_set_digit digit_not_space).
Qed.

(** ** The generic extraction: pages, failures, invariants *)

(** The loop over the pages: the entries of the pages read so far are
    appended, nothing else of the result changes, and the loop ends as
    the loop of [extract_text_from_pdf] does. *)
Lemma read_pages_spec (pages : list Page) (page_num : nat) (full_text : str)
  (result : Document) :
  exists good ts,
    (read_pages pages page_num full_text result).1 =
      {| doc_metadata := doc_metadata result;
         doc_pages := doc_pages result ++ page_entries page_num good ts;
         doc_text := doc_text result;
         doc_total_pages := doc_total_pages result;
         doc_error := doc_error result |} /\
    (read_pages pages page_num full_text result).2 = text_of_pages pages full_text /\
    extract_text <$> good = Return <$> ts /\
    match text_of_pages pages full_text with
    | Return s => good = pages /\ s = full_text +:+ pages_text ts
    | Raise e => exists bad rest_, pages = good ++ bad :: rest_ /\ extract_text bad = Raise e
    end.
Proof.
  revert page_num full_text result.
  induction pages as [|page pages IH]; intros page_num full_text result.
  - exists [], []. cbn. rewrite app_nil_r, str_app_nil_r. by destruct result.
  - cbn [read_pages text_of_pages]. destruct (extract_text page) as [t|e] eqn:Et.
    + cbv zeta. cbn [mbind outcome_bind].
      destruct (IH (S page_num) (full_text +:+ or_empty t +:+ LF +:+ LF)
                  (append_page result
                     {| page_number := page_num; pd_text := or_empty t;
                        pd_width := width page; pd_height := height page |}))
        as (good & ts & H1 & H2 & H3 & H4).
      exists (page :: good), (t :: ts). rewrite H1, H2. cbn [append_page doc_metadata
        doc_pages doc_text doc_total_pages doc_error page_entries].
      split; [by rewrite <- app_assoc |]. split; [done |].
      split; [cbn; by rewrite Et, H3 |].
      destruct (text_of_pages pages _) as [s|e].
      * destruct H4 as [-> ->]. split; [done |].
        unfold pages_text, str_concat. cbn [fmap list_fmap foldr].
        by rewrite !str_app_assoc.
      * destruct H4 as (bad & rest_ & -> & Hbad). by exists bad, rest_.
    + exists [], []. cbn. rewrite app_nil_r.
      split; [by destruct result |]. split; [done |]. split; [done |].
      by exists page, pages.
Qed.

Lemma page_entries_numbers (n : nat) (pages : list Page) (ts : list (option str)) :
  length pages = length ts ->
  page_number <$> page_entries n pages ts = seq n (length pages).
Proof.
  revert n ts. induction pages as [|page pages IH]; intros n [|t ts] H; simpl in *; try done.
  f_equal. apply IH. lia.
Qed.

Lemma page_entries_texts (n : nat) (pages : list Page) (ts : list (option str)) :
  length pages = length ts ->
  pd_text <$> page_entries n pages ts = or_empty <$> ts.
Proof.
  revert n ts. induction pages as [|page pages IH]; intros n [|t ts] H; simpl in *; try done.
  f_equal. apply IH. lia.
Qed.

Lemma page_entries_sizes (n : nat) (pages : list Page) (ts : list (option str)) :
  length pages = length ts ->
  (fun p => (pd_width p, pd_height p)) <$> page_entries n pages ts
  = (fun page => (width page, height page)) <$> pages.
Proof.
  revert n ts. induction pages as [|page pages IH]; intros n [|t ts] H; simpl in *; try done.
  f_equal. apply IH. lia.
Qed.

Lemma texts_length (pages : list Page) (ts : list (option str)) :
  extract_text <$> pages = Return <$> ts -> length pages = length ts.
Proof. intros H. by rewrite <- (length_fmap extract_text), H, length_fmap. Qed.

Lemma text_of_pages_texts (pages : list Page) (ts : list (option str))
  (full_text : str) :
  extract_text <$> pages = Return <$> ts ->
  text_of_pages pages full_text = Return (full_text +:+ pages_text ts).
Proof.
  revert ts full_text. induction pages as [|page pages IH]; intros [|t ts] full_text H;
    simpl in H; try done.
  - simpl. by rewrite str_app_nil_r.
  - injection H as Ht Hts. cbn [text_of_pages]. rewrite Ht. cbn [mbind outcome_bind].
    rewrite (IH ts _ Hts). unfold pages_text, str_concat. cbn [fmap list_fmap foldr].
    by rewrite !str_app_assoc.
Qed.

Lemma text_of_pages_raise (good : list Page) (ts : list (option str)) (bad : Page)
  (rest_ : list Page) (e : exc) (full_text : str) :
  extract_text <$> good = Return <$> ts -> extract_text bad = Raise e ->
  text_of_pages (good ++ bad :: rest_) full_text = Raise e.
Proof.
  revert ts full_text. induction good as [|page good IH]; intros [|t ts] full_text H Hbad;
    simpl in H; try done.
  - simpl. by rewrite Hbad.
  - injection H as Ht Hts. cbn [app text_of_pages]. rewrite Ht. cbn [mbind outcome_bind].
    by apply (IH ts).
Qed.

Lemma read_pages_raise (good : list Page) (ts : list (option str)) (bad : Page)
  (rest_ : list Page) (e : exc) (page_num : nat) (full_text : str) (result : Document) :
  extract_text <$> good = Return <$> ts -> extract_text bad = Raise e ->
  read_pages (good ++ bad :: rest_) page_num full_text result =
    ({| doc_metadata := doc_metadata result;
        doc_pages := doc_pages result ++ page_entries page_num good ts;
        doc_text := doc_text result;
        doc_total_pages := doc_total_pages result;
        doc_error := doc_error result |}, Raise e).
Proof.
  revert ts page_num full_text result.
  induction good as [|page good IH]; intros [|t ts] page_num full_text result H Hbad;
    simpl in H; try done.
  - cbn [app read_pages page_entries]. rewrite Hbad, app_nil_r. by destruct result.
  - injection H as Ht Hts. cbn [app read_pages]. rewrite Ht. cbv zeta.
    rewrite (IH ts _ _ _ Hts Hbad). cbn [append_page doc_metadata doc_pages doc_text
      doc_total_pages doc_error page_entries]. by rewrite <- app_assoc.
Qed.

Lemma read_pages_return (pages : list Page) (ts : list (option str))
  (page_num : nat) (full_text : str) (result : Document) :
  extract_text <$> pages = Return <$> ts ->
  read_pages pages page_num full_text result =
    ({| doc_metadata := doc_metadata result;
        doc_pages := doc_pages result ++ page_entries page_num pages ts;
        doc_text := doc_text result;
        doc_total_pages := doc_total_pages result;
        doc_error := doc_error result |},
     Return (full_text +:+ pages_text ts)).
Proof.
  revert ts page_num full_text result.
  induction pages as [|page pages IH]; intros [|t ts] page_num full_text result H;
    simpl in H; try done.
  - cbn. rewrite app_nil_r, str_app_nil_r. by destruct result.
  - injection H as Ht Hts. cbn [read_pages]. rewrite Ht. cbv zeta.
    rewrite (IH ts _ _ _ Hts). cbn [append_page doc_metadata doc_pages doc_text
      doc_total_pages doc_error page_entries]. rewrite <- app_assoc.
    unfold pages_text, str_concat. cbn [fmap list_fmap foldr app].
    by rewrite !str_app_assoc.
Qed.

(** X15: when both libraries read the file and the file carries
    document information (the metadata PyPDF2 reports is not None), the
    document lists one entry per page of pdfplumber, numbered from 1 in
    page order, with the text and the dimensions of the page; the page
    count and the metadata come from PyPDF2, whatever the number of
    pages pdfplumber found. *)
Theorem extract_pdf_data_pages (pdf : Pdf) (reader : Reader)
  (info : list (str * value)) (pages : list Page) (ts : list (option str)) :
  PdfReader pdf = Return reader ->
  reader_metadata reader = Some info ->
  pdfplumber_open pdf = Return pages ->
  extract_text <$> pages = Return <$> ts ->
  exists d,
    extract_pdf_data pdf = Return d /\
    page_number <$> doc_pages d = seq 1 (length pages) /\
    pd_text <$> doc_pages d = or_empty <$> ts /\
    (fun p => (pd_width p, pd_height p)) <$> doc_pages d
      = (fun page => (width page, height page)) <$> pages /\
    doc_total_pages d = reader_pages reader /\
    doc_metadata d = metadata_of reader info.
Proof.
  intros Hreader Hinfo Hopen Htexts.
  unfold extract_pdf_data, pdf_data_body, read_metadata.
  rewrite Hreader, Hinfo, Hopen, (read_pages_return _ _ _ _ _ Htexts).
  eexists. split; [reflexivity |].
  cbn [set_text doc_pages doc_total_pages doc_metadata app].
  pose proof (texts_length _ _ Htexts) as Hlen.
  split; [by apply page_entries_numbers |].
  split; [by apply page_entries_texts |].
  split; [by apply page_entries_sizes | done].
Qed.

Lemma extract_pdf_data_pages_witness :
  let page t w := {| extract_text := Return t; width := VInt w; height := VInt 842 |} in
  let reader := {| reader_metadata := Some [("/Title", VStr "PO")]; reader_pages := 5 |} in
  let pages := [page (Some "x") 595%Z; page None 600%Z] in
  let pdf := {| PdfReader := Return reader; pdfplumber_open := Return pages |} in
  exists d,
    extract_pdf_data pdf = Return d /\
    page_number <$> doc_pages d = [1; 2] /\
    pd_text <$> doc_pages d = ["x"; ""] /\
    (fun p => (pd_width p, pd_height p)) <$> doc_pages d
      = [(VInt 595, VInt 842); (VInt 600, VInt 842)] /\
    doc_total_pages d = 5 /\
    doc_metadata d = [("title", VStr "PO"); ("author", VStr ""); ("total_pages", VInt 5)].
Proof.
  intros page reader pages pdf.
  exact (extract_pdf_data_pages pdf reader _ pages [Some "x"; None]
           eq_refl eq_refl eq_refl eq_refl).
Defined.

(** X16: when the metadata step fails with an error, because PyPDF2
    rejects the file or the file has no document information, the
    document holds nothing but the message: no metadata, no page, no
    text, page count 0, even when pdfplumber could read every page. *)
Theorem extract_pdf_data_metadata_failure (pdf : Pdf) :
  ((exists e, PdfReader pdf = Raise e /\ is_error e) \/
   (exists reader, PdfReader pdf = Return reader /\ reader_metadata reader = None)) ->
  exists msg,
    extract_pdf_data pdf =
      Return {| doc_metadata := []; doc_pages := []; doc_text := "";
                doc_total_pages := 0; doc_error := Some msg |} /\
    (forall e, PdfReader pdf = Raise e -> msg = exc_msg e) /\
    (forall reader, PdfReader pdf = Return reader ->
       msg = "'NoneType' object has no attribute 'get'").
Proof.
  unfold extract_pdf_data, pdf_data_body, read_metadata.
  intros [(e & -> & He) | (reader & -> & ->)].
  - unfold is_error in He. rewrite He. exists (exc_msg e).
    split; [done |]. split; [by intros e' [= ->] | done].
  - eexists. split; [reflexivity |]. split; [done | done].
Qed.

Lemma extract_pdf_data_metadata_failure_witness :
  let page := {| extract_text := Return (Some "x"); width := VInt 595; height := VInt 842 |} in
  let pdf := {| PdfReader := Return {| reader_metadata := None; reader_pages := 1 |};
                pdfplumber_open := Return [page] |} in
  exists msg,
    extract_pdf_data pdf =
      Return {| doc_metadata := []; doc_pages := []; doc_text := "";
                doc_total_pages := 0; doc_error := Some msg |} /\
    (forall e, PdfReader pdf = Raise e -> msg = exc_msg e) /\
    (forall reader, PdfReader pdf = Return reader ->
       msg = "'NoneType' object has no attribute 'get'").
Proof.
  intros page pdf. apply extract_pdf_data_metadata_failure.
  right. eexists. split; reflexivity.
Defined.

(** X17: when a page fails with an error after the metadata step went
    through, the document keeps the metadata, the page count and the
    entries of the pages before the failing one, records the message,
    and its text stays empty: the text of the pages already read is
    lost. *)
Theorem extract_pdf_data_page_failure (pdf : Pdf) (reader : Reader)
  (info : list (str * value)) (good : list Page) (ts : list (option str))
  (bad : Page) (rest_ : list Page) (e : exc) :
  PdfReader pdf = Return reader ->
  reader_metadata reader = Some info ->
  pdfplumber_open pdf = Return (good ++ bad :: rest_) ->
  extract_text <$> good = Return <$> ts ->
  extract_text bad = Raise e -> is_error e ->
  extract_pdf_data pdf =
    Return {| doc_metadata := metadata_of reader info;
              doc_pages := page_entries 1 good ts;
              doc_text := "";
              doc_total_pages := reader_pages reader;
              doc_error := Some (exc_msg e) |}.
Proof.
  intros Hreader Hinfo Hopen Htexts Hbad He.
  unfold extract_pdf_data, pdf_data_body, read_metadata.
  rewrite Hreader, Hinfo, Hopen, (read_pages_raise _ _ _ _ _ _ _ _ Htexts Hbad).
  unfold is_error in He. by rewrite He.
Qed.

Lemma extract_pdf_data_page_failure_witness :
  let page t := {| extract_text := t; width := VInt 595; height := VInt 842 |} in
  let failure := {| exc_cls := ValueError; exc_msg := "bad stream" |} in
  let reader := {| reader_metadata := Some []; reader_pages := 3 |} in
  let pdf := {| PdfReader := Return reader;
                pdfplumber_open := Return [page (Return (Some "first"));
                                           page (Raise failure);
                                           page (Return (Some "third"))] |} in
  extract_pdf_data pdf =
    Return {| doc_metadata := [("title", VStr ""); ("author", VStr "");
                               ("total_pages", VInt 3)];
              doc_pages := [{| page_number := 1; pd_text := "first";
                               pd_width := VInt 595; pd_height := VInt 842 |}];
              doc_text := "";
              doc_total_pages := 3;
              doc_error := Some "bad stream" |}.
Proof.
  intros page failure reader pdf.
  exact (extract_pdf_data_page_failure pdf reader [] [page (Return (Some "first"))]
           [Some "first"] (page (Raise failure)) [page (Return (Some "third"))] failure
           eq_refl eq_refl eq_refl eq_refl eq_refl eq_refl).
Defined.

Lemma page_entries_length (n : nat) (pages : list Page) (ts : list (option str)) :
  length pages = length ts -> length (page_entries n pages ts) = length pages.
Proof.
  intros H. by rewrite <- (length_fmap page_number), page_entries_numbers, length_seq.
Qed.

Lemma extract_pdf_data_returns (pdf : Pdf) :
  errors_only pdf ->
  exists d,
    extract_pdf_data pdf = Return d /\
    page_number <$> doc_pages d = seq 1 (length (doc_pages d)) /\
    (forall pages, pdfplumber_open pdf = Return pages ->
       length (doc_pages d) <= length pages) /\
    (doc_error d <> None -> doc_text d = "").
Proof.
  intros (Hreader & Hopen & Hpages).
  unfold extract_pdf_data, pdf_data_body, read_metadata.
  destruct (PdfReader pdf) as [reader|e] eqn:Er; cycle 1.
  { specialize (Hreader e eq_refl). unfold is_error in Hreader. rewrite Hreader.
    eexists. split; [reflexivity |]. cbn. split; [done |]. split; [intros; lia | done]. }
  destruct (reader_metadata reader) as [info|].
  2: { eexists. split; [reflexivity |]. cbn. split; [done |]. split; [intros; lia | done]. }
  destruct (pdfplumber_open pdf) as [pages|e] eqn:Eo; cycle 1.
  { specialize (Hopen e eq_refl). unfold is_error in Hopen. rewrite Hopen.
    eexists. split; [reflexivity |]. cbn. split; [done |]. split; [intros; lia | done]. }
  specialize (Hpages pages eq_refl).
  match goal with |- context [read_pages pages 1 "" ?r] =>
    destruct (read_pages_spec pages 1 "" r) as (good & ts & H1 & H2 & H3 & H4);
    destruct (read_pages pages 1 "" r) as [result' o]
  end.
  simpl in H1, H2. subst result' o.
  pose proof (texts_length _ _ H3) as Hlen.
  destruct (text_of_pages pages "") as [s|e].
  - destruct H4 as [-> ->]. eexists. split; [reflexivity |].
    cbn [set_text doc_pages doc_error doc_text app].
    rewrite page_entries_length by done.
    split; [by apply page_entries_numbers |].
    split; [by intros ? [= <-] | done].
  - destruct H4 as (bad & rest_ & -> & Hbad).
    apply Forall_app in Hpages as [_ Hb]. apply Forall_cons_1 in Hb as [Hb _].
    specialize (Hb e Hbad). unfold is_error in Hb. rewrite Hb.
    eexists. split; [reflexivity |].
    cbn [set_error doc_pages doc_error doc_text app].
    rewrite page_entries_length by done.
    split; [by apply page_entries_numbers |].
    split; [| done]. intros ? [= <-]. rewrite length_app. lia.
Qed.

(** X18: when every exception the libraries raise on a file is an
    error, the generic extraction returns a document; its entries are
    numbered 1, 2, ... without a gap, they are no more than the pages
    pdfplumber found, and a document with an error message has an empty
    text. *)
Theorem extract_pdf_data_invariants (pdf : Pdf) :
  errors_only pdf ->
  exists d,
    extract_pdf_data pdf = Return d /\
    page_number <$> doc_pages d = seq 1 (length (doc_pages d)) /\
    (forall pages, pdfplumber_open pdf = Return pages ->
       length (doc_pages d) <= length pages) /\
    (doc_error d <> None -> doc_text d = "").
Proof. apply extract_pdf_data_returns. Qed.

Lemma extract_pdf_data_invariants_witness :
  let page t := {| extract_text := t; width := VInt 595; height := VInt 842 |} in
  let failure := {| exc_cls := ValueError; exc_msg := "bad stream" |} in
  let pdf := {| PdfReader := Return {| reader_metadata := Some []; reader_pages := 2 |};
                pdfplumber_open := Return [page (Return (Some "first"));
                                           page (Raise failure)] |} in
  exists d,
    extract_pdf_data pdf = Return d /\
    page_number <$> doc_pages d = seq 1 (length (doc_pages d)) /\
    (forall pages, pdfplumber_open pdf = Return pages ->
       length (doc_pages d) <= length pages) /\
    (doc_error d <> None -> doc_text d = "").
Proof.
  intros page failure pdf. apply extract_pdf_data_invariants.
  split; [done |]. split; [done |].
  intros pages [= <-]. repeat constructor; [done |]. by intros e [= <-].
Defined.

(** ** The text of the purchase-order path *)

Lemma extract_text_from_pdf_raise (pdf : Pdf) (e : exc) :
  is_error e ->
  (pdfplumber_open pdf = Raise e \/
   exists good ts bad rest_,
     pdfplumber_open pdf = Return (good ++ bad :: rest_) /\
     extract_text <$> good = Return <$> ts /\ extract_text bad = Raise e) ->
  extract_text_from_pdf pdf =
    Raise {| exc_cls := Exception;
             exc_msg := "Failed to extract text from PDF: " +:+ exc_msg e |}.
Proof.
  intros He H. unfold extract_text_from_pdf.
  assert (Hbody : (pages ← pdfplumber_open pdf; text_of_pages pages "") = Raise e).
  { destruct H as [-> | (good & ts & bad & rest_ & -> & Hts & Hbad)]; [done |].
    cbn [mbind outcome_bind]. by apply (text_of_pages_raise good ts). }
  rewrite Hbody. rewrite try_except_caught; [done |].
  unfold is_error in He. simpl. by rewrite He.
Qed.

(** X19: when pdfplumber fails with an error, on opening the file or on
    one of its pages, the text extraction raises a plain Exception whose
    message is the message of the failure after the prefix "Failed to
    extract text from PDF: "; the class of the failure is lost. *)
Theorem extract_text_from_pdf_failure (pdf : Pdf) (e : exc) :
  is_error e ->
  (pdfplumber_open pdf = Raise e \/
   exists good ts bad rest_,
     pdfplumber_open pdf = Return (good ++ bad :: rest_) /\
     extract_text <$> good = Return <$> ts /\ extract_text bad = Raise e) ->
  extract_text_from_pdf pdf =
    Raise {| exc_cls := Exception;
             exc_msg := "Failed to extract text from PDF: " +:+ exc_msg e |}.
Proof. apply extract_text_from_pdf_raise. Qed.

Lemma extract_text_from_pdf_failure_witness :
  let page t := {| extract_text := t; width := VInt 595; height := VInt 842 |} in
  let failure := {| exc_cls := ValueError; exc_msg := "bad stream" |} in
  let pdf := {| PdfReader := Return {| reader_metadata := Some []; reader_pages := 2 |};
                pdfplumber_open := Return [page (Return (Some "first"));
                                           page (Raise failure)] |} in
  extract_text_from_pdf pdf =
    Raise {| exc_cls := Exception;
             exc_msg := "Failed to extract text from PDF: bad stream" |}.
Proof.
  intros page failure pdf.
  apply (extract_text_from_pdf_failure pdf failure eq_refl).
  right. exists [page (Return (Some "first"))], [Some "first"], (page (Raise failure)), [].
  by repeat split.
Defined.

(** X20: the two paths read the same text: when the generic extraction
    records no error, the text extraction of the purchase-order path
    returns too, and the text of the document is that text with the
    whitespace at both ends removed. *)
Theorem extract_pdf_data_text_agrees (pdf : Pdf) (d : Document) :
  extract_pdf_data pdf = Return d -> doc_error d = None ->
  exists s, extract_text_from_pdf pdf = Return s /\ doc_text d = strip s.
Proof.
  unfold extract_pdf_data, pdf_data_body, read_metadata, extract_text_from_pdf.
  destruct (PdfReader pdf) as [reader|e].
  2: { destruct (issubclass _ _); [by intros [= <-] | done]. }
  destruct (reader_metadata reader) as [info|]; [| by intros [= <-]].
  destruct (pdfplumber_open pdf) as [pages|e].
  2: { destruct (issubclass _ _); [by intros [= <-] | done]. }
  match goal with |- context [read_pages pages 1 "" ?r] =>
    destruct (read_pages_spec pages 1 "" r) as (good & ts & H1 & H2 & _ & _);
    destruct (read_pages pages 1 "" r) as [result' o]
  end.
  simpl in H1, H2. subst result' o. cbn [mbind outcome_bind].
  destruct (text_of_pages pages "") as [s|e].
  - intros [= <-] _. by exists s.
  - destruct (issubclass _ _); [by intros [= <-] | done].
Qed.

Lemma extract_pdf_data_text_agrees_witness :
  let page t := {| extract_text := Return t; width := VInt 595; height := VInt 842 |} in
  let pdf := {| PdfReader := Return {| reader_metadata := Some []; reader_pages := 2 |};
                pdfplumber_open := Return [page (Some " x"); page None] |} in
  exists s, extract_text_from_pdf pdf = Return s /\
            "x" = strip s.
Proof.
  intros page pdf.
  exact (extract_pdf_data_text_agrees pdf
           {| doc_metadata := metadata_of {| reader_metadata := Some []; reader_pages := 2 |} [];
              doc_pages := page_entries 1 [page (Some " x"); page None] [Some " x"; None];
              doc_text := "x"; doc_total_pages := 2; doc_error := None |}
           eq_refl eq_refl).
Defined.

(** ** The values of the structured-entity extractor *)

Lemma search_from_sound (ic : bool) (r : regex) (p : option char) (s : str)
  (mt : Match) :
  search_from ic r p s = Some mt ->
  exists pre a,
    s = pre +:+ a +:+ rest (m_after mt) /\ lang ic r a /\ m_whole mt = a.
Proof.
  intros (pre & suf & -> & Hm & _)%search_from_Some.
  apply match_at_sound in Hm as (a & Ha & HL & Hw & _). simpl in Ha.
  exists pre, a. by rewrite <- Ha.
Qed.

(** Every value [re.findall] lists is a text of the pattern that stands
    in the text searched. *)
Lemma findall_from_sound (ic : bool) (r : regex) (fuel : nat) (p : option char)
  (s x : str) :
  x ∈ findall_from ic r fuel p s -> occurs_in x s /\ lang ic r x.
Proof.
  revert p s. induction fuel as [|fuel IH]; intros p s; cbn [findall_from].
  { by intros ?%elem_of_nil. }
  destruct (search_from ic r p s) as [mt|] eqn:E; [| by intros ?%elem_of_nil].
  apply search_from_sound in E as (pre & a & Hs & HL & Hw). rewrite Hw.
  intros [-> | Hx]%elem_of_cons.
  { split; [| done]. by exists pre, (rest (m_after mt)). }
  assert (Hsuf : exists p' s' skip,
             rest (m_after mt) = skip +:+ s' /\ x ∈ findall_from ic r fuel p' s').
  { destruct a.
    - destruct (rest (m_after mt)) as [|c s'] eqn:Er; [by apply elem_of_nil in Hx |].
      by exists (Some c), s', (Str c "").
    - by exists (prev (m_after mt)), (rest (m_after mt)), "". }
  destruct Hsuf as (p' & s' & skip & Hr & Hx').
  apply IH in Hx' as [(pre' & post' & ->) HLx]. split; [| done].
  exists (pre +:+ a +:+ skip +:+ pre'), post'.
  by rewrite Hs, Hr, !str_app_assoc.
Qed.

Lemma str_concat_length (parts : list str) (k : nat) :
  Forall (fun a => k <= len a) parts ->
  length parts * k <= len (str_concat parts).
Proof.
  induction 1 as [|a parts Ha _ IH]; [done |].
  unfold str_concat in *. cbn [foldr length]. rewrite str_app_length. lia.
Qed.

Lemma lang_min_len (ic : bool) (r : regex) (a : str) :
  lang ic r a -> min_len r <= len a.
Proof.
  revert a. induction r as [|p|negate items|r1 IH1 r2 IH2|r1 IH1 r2 IH2
                            |lo hi r IH|n r IH|r IH| |]; intros a; simpl.
  - lia.
  - by intros (c & -> & _).
  - by intros (c & -> & _).
  - intros (a1 & a2 & -> & H1%IH1 & H2%IH2). rewrite str_app_length. lia.
  - intros [H%IH1 | H%IH2]; lia.
  - intros (parts & -> & HF & Hlo & _).
    assert (H : length parts * min_len r <= len (str_concat parts)).
    { apply str_concat_length. eapply Forall_impl; [exact HF |]. apply IH. }
    nia.
  - apply IH.
  - lia.
  - lia.
  - lia.
Qed.

Lemma structured_value (text key : str) (pattern : regex) (vs : list str)
  (x : str) :
  dict_get structured_patterns key = Some pattern ->
  dict_get (extract_structured_data text) key = Some vs -> x ∈ vs ->
  occurs_in x text /\ lang true pattern x.
Proof.
  unfold extract_structured_data, structured_patterns. cbn [fmap list_fmap dict_get fst snd].
  repeat (destruct (str_eqb _ key);
          [intros [= <-] [= <-] Hx; apply (proj1 (list_of_set_elem _ _)) in Hx;
           by apply findall_from_sound in Hx |]).
  done.
Qed.

(** X21: every value the extractor lists stands in the text, and has at
    least 6 characters for an e-mail address, 10 for a phone number, 8
    for a URL and 6 for a date. *)
Theorem structured_values_occur (text : str) :
  Forall (fun kn : str * nat =>
            forall vs x,
              dict_get (extract_structured_data text) kn.1 = Some vs -> x ∈ vs ->
              occurs_in x text /\ kn.2 <= len x)
         least_lengths.
Proof.
  unfold least_lengths.
  repeat apply List.Forall_cons; try apply List.Forall_nil; intros vs x Hvs Hx;
    cbn [fst snd] in *.
  - destruct (structured_value text "emails" emails_re vs x eq_refl Hvs Hx) as [Ho HL].
    split; [done |]. by apply lang_min_len in HL.
  - destruct (structured_value text "phone_numbers" phone_numbers_re vs x eq_refl Hvs Hx)
      as [Ho HL].
    split; [done |]. by apply lang_min_len in HL.
  - destruct (structured_value text "urls" urls_re vs x eq_refl Hvs Hx) as [Ho HL].
    split; [done |]. by apply lang_min_len in HL.
  - destruct (structured_value text "dates" dates_re vs x eq_refl Hvs Hx) as [Ho HL].
    split; [done |]. by apply lang_min_len in HL.
Qed.

Lemma in_set_slash_dash (c : char) :
  in_set true false [ILit "/"; ILit "-"] c = is_slash_dash c.
Proof. unfold is_slash_dash. plain_set c. Qed.

Lemma lang_slash_dash (a : str) :
  lang true slash_dash a -> exists c, a = Str c "" /\ is_slash_dash c = true.
Proof. intros (c & -> & Hc). rewrite in_set_slash_dash in Hc. by exists c. Qed.

(** X22: every date the extractor lists stands in the text and has the
    form of one or two digits, a slash or hyphen, one or two digits, a
    slash or hyphen, and two to four digits. *)
Theorem structured_dates_shape (text : str) (vs : list str) (x : str) :
  dict_get (extract_structured_data text) "dates" = Some vs -> x ∈ vs ->
  occurs_in x text /\ slash_date_shaped x.
Proof.
  intros Hvs Hx.
  destruct (structured_value text "dates" dates_re vs x eq_refl Hvs Hx) as [Ho HL].
  split; [done |].
  destruct HL as (b1 & r1 & -> & -> & d & r2 & -> & Hd & s1 & r3 & -> & Hs1
                  & mon & r4 & -> & Hmon & s2 & r5 & -> & Hs2 & y & b2 & -> & Hy & ->).
  apply lang_digits in Hd as (Hd1 & Hd2 & Hd3).
  apply lang_digits in Hmon as (Hm1 & Hm2 & Hm3).
  apply lang_digits in Hy as (Hy1 & Hy2 & Hy3).
  apply lang_slash_dash in Hs1 as (c1 & -> & Hc1).
  apply lang_slash_dash in Hs2 as (c2 & -> & Hc2).
  exists d, c1, mon, c2, y. simpl in *. rewrite str_app_nil_r.
  repeat split; try done; lia.
Qed.

Lemma structured_dates_shape_witness :
  occurs_in "14-8-2026" "due 14-8-2026, or 14-8-2026" /\ slash_date_shaped "14-8-2026".
Proof.
  apply (structured_dates_shape "due 14-8-2026, or 14-8-2026" ["14-8-2026"]).
  - vm_compute. reflexivity.
  - by left.
Defined.

Lemma structured_values_occur_witness :
  occurs_in "http://a.io/x" "see http://a.io/x or http://a.io/x" /\
  8 <= len "http://a.io/x".
Proof.
  pose proof (structured_values_occur "see http://a.io/x or http://a.io/x") as H.
  unfold least_lengths in H.
  apply Forall_cons_1 in H as [_ H]. apply Forall_cons_1 in H as [_ H].
  apply Forall_cons_1 in H as [H _].
  apply (H ["http://a.io/x"]); [vm_compute; reflexivity | by left].
Defined.

(** ** The endpoints *)

Lemma str_take_drop (n : nat) (s : str) : str_take n s +:+ str_drop n s = s.
Proof.
  revert n. induction s as [|c s IH]; intros [|n]; simpl; try done. by rewrite IH.
Qed.

(** The lower-case form of a character is one character, or "i" and
    U+0307. *)
Lemma lower_char_cases (before after : bool) (c : char) :
  (exists x, lower_char before after c = Str x "") \/
  lower_char before after c = Str "i" (Str COMBINING_DOT "").
Proof.
  unfold lower_char. destruct (char_eqb c CAPITAL_SIGMA); [left; by eexists |].
  destruct (char_eqb c DOTTED_I); [by right | left; by eexists].
Qed.

(** A character that is neither a small sigma nor "i" comes from one
    character, whatever stands around it. *)
Lemma lower_char_plain (before after : bool) (c x : char) (r : str) :
  lower_char before after c = Str x r ->
  existsb (char_eqb x) [FINAL_SIGMA; SMALL_SIGMA; "i"%chr] = false ->
  r = "" /\ forall before' after', lower_char before' after' c = Str x "".
Proof.
  unfold lower_char. destruct (char_eqb c CAPITAL_SIGMA).
  { intros [= <- <-] H. exfalso. revert H.
    destruct (before && negb after); vm_compute; discriminate. }
  destruct (char_eqb c DOTTED_I).
  { intros [= <- <-] H. exfalso. revert H. vm_compute. discriminate. }
  by intros [= <- <-] _.
Qed.

(** A text whose lower-case form holds no small sigma and no "i" has
    that form whatever stands before it. *)
Lemma lower_from_plain (s t : str) (before before' : bool) :
  str_all (fun x => negb (existsb (char_eqb x) [FINAL_SIGMA; SMALL_SIGMA; "i"%chr])) t = true ->
  lower_from before s = t -> lower_from before' s = t.
Proof.
  revert t before before'. induction s as [|c s IH]; intros t before before' Ht; [done |].
  cbn [lower_from].
  destruct (lower_char before (cased_next s) c) as [|x r] eqn:E;
    [by destruct (lower_char_cases before (cased_next s) c) as [[x Hx] | Hx];
       rewrite Hx in E |].
  intros <-. cbn [str_app str_all] in Ht.
  apply andb_true_iff in Ht as [Hx Ht]. apply negb_true_iff in Hx.
  destruct (lower_char_plain _ _ _ _ _ E Hx) as [-> Hany].
  rewrite (Hany before' (cased_next s)). cbn [str_app] in *. f_equal.
  by apply (IH _ (if is_case_ignorable c then before else is_cased_letter c)).
Qed.

(** The lower-case form of a text ends with the lower-case form of its
    end, taken where it stands. *)
Lemma lower_from_app (stem ext : str) (before : bool) :
  exists front before',
    lower_from before (stem +:+ ext) = front +:+ lower_from before' ext.
Proof.
  revert before. induction stem as [|c stem IH]; intros before.
  - by exists "", before.
  - cbn [str_app lower_from].
    destruct (IH (if is_case_ignorable c then before else is_cased_letter c))
      as (front & before' & ->).
    eexists (_ +:+ front), before'. by rewrite str_app_assoc.
Qed.

(** A lower-case form that ends with ".pdf": the text ends with
    characters whose lower-case form is ".pdf". *)
Lemma lower_from_pdf (name front : str) (before : bool) :
  lower_from before name = front +:+ ".pdf" ->
  exists stem ext, name = stem +:+ ext /\ lower ext = ".pdf".
Proof.
  revert front before. induction name as [|c name IH]; intros front before.
  - by destruct front.
  - intros H.
    assert (Hwhole : front = "" -> exists stem ext,
               Str c name = stem +:+ ext /\ lower ext = ".pdf").
    { intros ->. exists "", (Str c name). split; [done |].
      by apply (lower_from_plain _ _ before false). }
    cbn [lower_from] in H.
    destruct (lower_char_cases before (cased_next name) c) as [[x Hx] | Hx];
      rewrite Hx in H; cbn [str_app] in H.
    + destruct front as [|y front]; [by apply Hwhole |].
      cbn [str_app] in H. injection H as _ H.
      destruct (IH _ _ H) as (stem & ext & -> & Hext).
      by exists (Str c stem), ext.
    + destruct front as [|y [|z front]]; [done | done |].
      cbn [str_app] in H. injection H as _ _ H.
      destruct (IH _ _ H) as (stem & ext & -> & Hext).
      by exists (Str c stem), ext.
Qed.

Lemma endswith_spec (s suffix : str) :
  endswith s suffix = true <-> exists stem, s = stem +:+ suffix.
Proof.
  unfold endswith. split.
  - intros [Hlen Heq]%andb_true_iff. apply str_eqb_eq in Heq.
    exists (str_take (len s - len suffix) s).
    transitivity (str_take (len s - len suffix) s
                  +:+ str_drop (len s - len suffix) s);
      [by rewrite str_take_drop | by rewrite Heq].
  - intros [stem ->]. rewrite str_app_length. apply andb_true_iff. split.
    + apply Nat.leb_le. lia.
    + replace (len stem + len suffix - len suffix)
        with (len stem) by lia.
      rewrite str_drop_app. apply str_eqb_refl.
Qed.

Lemma pdf_name_spec (name : str) :
  endswith (lower name) ".pdf" = true <-> pdf_name name.
Proof.
  rewrite endswith_spec. split.
  - intros [front H]. by apply (lower_from_pdf name front false).
  - intros (stem & ext & -> & Hext). unfold lower.
    destruct (lower_from_app stem ext false) as (front & before' & ->).
    exists front. f_equal. by apply (lower_from_plain _ _ false before').
Qed.

(** X23: both upload endpoints answer 400 "File must be a PDF" exactly
    for the files whose name does not end with ".pdf" in some letter
    case; such a file is rejected whatever its size and without being
    read. *)
Theorem upload_name_gate {Response : Type} (JSONResponse : PdfContent -> outcome Response)
  (file : UploadFile) (name : str) :
  uf_filename file = Some name ->
  (convert_pdf_to_json JSONResponse file = HTTPException 400 "File must be a PDF"
   <-> ~ pdf_name name) /\
  (convert_po_pdf file = HTTPException 400 "File must be a PDF" <-> ~ pdf_name name).
Proof.
  intros Hname. unfold convert_pdf_to_json, convert_po_pdf. rewrite Hname.
  rewrite <- pdf_name_spec.
  destruct (endswith (lower name) ".pdf"); cbn [negb].
  - split; (split; [| done]); intros H; exfalso.
    + unfold or_500 in H. destruct (_ ≫= _) as [a|e]; [done |].
      by destruct (issubclass _ _).
    + destruct (uf_size file) as [n|]; [| done].
      destruct (_ <? n)%N; [done |].
      unfold or_500 in H. destruct (_ ≫= _) as [a|e]; [done |].
      by destruct (issubclass _ _).
  - by split.
Qed.

Lemma upload_name_gate_witness :
  let file := {| uf_filename := Some "Order.PDF.txt"; uf_size := None;
                 uf_read := Raise {| exc_cls := ValueError; exc_msg := "closed" |} |} in
  (convert_pdf_to_json (fun _ => Return tt) file = HTTPException 400 "File must be a PDF"
   <-> ~ pdf_name "Order.PDF.txt") /\
  (convert_po_pdf file = HTTPException 400 "File must be a PDF"
   <-> ~ pdf_name "Order.PDF.txt").
Proof. intros file. by apply upload_name_gate. Defined.

(** X24: for a file with a PDF name and a known size, the
    purchase-order endpoint answers 400 "File too large" exactly when
    the size exceeds 10485760 bytes; a file of exactly that size goes
    through to the extraction. *)
Theorem convert_po_pdf_size_gate (file : UploadFile) (name : str) (n : N) :
  uf_filename file = Some name -> pdf_name name -> uf_size file = Some n ->
  (convert_po_pdf file = HTTPException 400 "File too large" <-> (10485760 < n)%N) /\
  ((n <= 10485760)%N ->
   convert_po_pdf file =
     or_500 (contents ← uf_read file;
             po_data ← extract_purchase_order_data contents name;
             mret {| success := true;
                     data := po_data;
                     message := "Purchase Order PDF converted successfully";
                     pages := total_pages (metadata po_data) |})).
Proof.
  intros Hname Hpdf%pdf_name_spec Hsize. unfold convert_po_pdf.
  rewrite Hname, Hpdf, Hsize. cbn [negb].
  change (10 * 1024 * 1024)%N with 10485760%N.
  destruct (N.ltb_spec 10485760 n) as [Hlt | Hle].
  - split; [by split | lia].
  - split; [| done]. split; [| lia]. intros H. exfalso.
    unfold or_500 in H. destruct (_ ≫= _) as [a|e]; [done |].
    by destruct (issubclass _ _).
Qed.

Lemma convert_po_pdf_size_gate_witness :
  let file := {| uf_filename := Some "order.pdf"; uf_size := Some 10485761%N;
                 uf_read := Raise {| exc_cls := ValueError; exc_msg := "closed" |} |} in
  convert_po_pdf file = HTTPException 400 "File too large".
Proof.
  intros file.
  apply (proj1 (convert_po_pdf_size_gate file "order.pdf" 10485761%N eq_refl
                  ltac:(by exists "order", ".pdf") eq_refl)).
  reflexivity.
Defined.

(** X25: for a file with a PDF name that is not too large and can be
    read, the purchase-order endpoint answers with the record parsed
    from the page texts, each followed by two newlines, under the name
    of the upload, and a page count of one more than the form feeds in
    that text; when pdfplumber fails with an error it answers 500, the
    detail being the message of the failure after two prefixes. *)
Theorem convert_po_pdf_outcome (file : UploadFile) (name : str) (n : N) (pdf : Pdf) :
  uf_filename file = Some name -> pdf_name name ->
  uf_size file = Some n -> (n <= 10485760)%N ->
  uf_read file = Return pdf ->
  (forall pgs ts,
     pdfplumber_open pdf = Return pgs -> extract_text <$> pgs = Return <$> ts ->
     exists r,
       parse_purchase_order_data (pages_text ts) name = Return r /\
       convert_po_pdf file =
         Responds {| success := true;
                     data := r;
                     message := "Purchase Order PDF converted successfully";
                     pages := S (str_count FF_char (pages_text ts)) |}) /\
  (forall e,
     is_error e ->
     (pdfplumber_open pdf = Raise e \/
      exists good ts bad rest_,
        pdfplumber_open pdf = Return (good ++ bad :: rest_) /\
        extract_text <$> good = Return <$> ts /\ extract_text bad = Raise e) ->
     convert_po_pdf file =
       HTTPException 500
         ("Error processing PDF: Failed to extract text from PDF: " +:+ exc_msg e)).
Proof.
  intros Hname Hpdf%pdf_name_spec Hsize Hn Hread. unfold convert_po_pdf.
  rewrite Hname, Hpdf, Hsize, Hread. cbn [negb].
  change (10 * 1024 * 1024)%N with 10485760%N.
  destruct (N.ltb_spec 10485760 n) as [Hlt | _]; [lia |].
  cbn [mbind outcome_bind]. unfold extract_purchase_order_data. split.
  - intros pgs ts Hopen Hts. unfold extract_text_from_pdf. rewrite Hopen.
    cbn [mbind outcome_bind]. rewrite (text_of_pages_texts _ _ _ Hts).
    cbn [try_except mbind outcome_bind str_app].
    rewrite parse_purchase_order_data_eq. eexists. split; [reflexivity |].
    cbn [mbind outcome_bind mret outcome_ret or_500 metadata total_pages].
    by rewrite page_count_eq.
  - intros e He H. by rewrite (extract_text_from_pdf_raise pdf e He H).
Qed.

Lemma convert_po_pdf_outcome_witness :
  let page t := {| extract_text := t; width := VInt 595; height := VInt 842 |} in
  let failure := {| exc_cls := ValueError; exc_msg := "bad stream" |} in
  let pdf := {| PdfReader := Raise failure;
                pdfplumber_open := Return [page (Return (Some "first"));
                                           page (Raise failure)] |} in
  let file := {| uf_filename := Some "Order.PDF"; uf_size := Some 10485760%N;
                 uf_read := Return pdf |} in
  convert_po_pdf file =
    HTTPException 500
      "Error processing PDF: Failed to extract text from PDF: bad stream".
Proof.
  intros page failure pdf file.
  apply (proj2 (convert_po_pdf_outcome file "Order.PDF" 10485760%N pdf eq_refl
                  ltac:(by exists "Order", ".PDF") eq_refl ltac:(done) eq_refl)
           failure eq_refl).
  right. exists [page (Return (Some "first"))], [Some "first"], (page (Raise failure)), [].
  by repeat split.
Defined.

(** X26: for a file with a PDF name that can be read, and on which the
    libraries raise nothing but errors, the generic endpoint hands
    JSONResponse a content with success true, the document of the
    extraction and the number of its page entries, also when the
    document records an error; it answers 500 only when the rendering
    of that content fails. *)
Theorem convert_pdf_to_json_content {Response : Type}
  (JSONResponse : PdfContent -> outcome Response)
  (file : UploadFile) (name : str) (pdf : Pdf) :
  uf_filename file = Some name -> pdf_name name ->
  uf_read file = Return pdf -> errors_only pdf ->
  exists d,
    extract_pdf_data pdf = Return d /\
    convert_pdf_to_json JSONResponse file =
      or_500 (JSONResponse {| pc_success := true;
                              pc_data := d;
                              pc_message := "PDF converted successfully";
                              pc_pages := length (doc_pages d) |}).
Proof.
  intros Hname Hpdf%pdf_name_spec Hread Herr.
  destruct (extract_pdf_data_returns pdf Herr) as (d & Hd & _).
  exists d. split; [done |].
  unfold convert_pdf_to_json. rewrite Hname, Hpdf, Hread. cbn [negb mbind outcome_bind].
  by rewrite Hd.
Qed.

Lemma convert_pdf_to_json_content_witness :
  let failure := {| exc_cls := ValueError; exc_msg := "not a PDF" |} in
  let pdf := {| PdfReader := Raise failure; pdfplumber_open := Raise failure |} in
  let file := {| uf_filename := Some "scan.pdf"; uf_size := None; uf_read := Return pdf |} in
  exists d,
    extract_pdf_data pdf = Return d /\
    convert_pdf_to_json (fun content => Return (pc_success content, doc_error (pc_data content)))
      file = or_500 (Return (true, doc_error d)).
Proof.
  intros failure pdf file.
  apply (convert_pdf_to_json_content
           (fun content => Return (pc_success content, doc_error (pc_data content)))
           file "scan.pdf" pdf eq_refl ltac:(by exists "scan", ".pdf") eq_refl).
  split; [by intros e [= <-] |]. split; [by intros e [= <-] | done].
Defined.
